(** * DHCPv4 / DHCPv6 client simulator: wire codec, receive loops, lease
    transactions and the shutdown release path.

    Shallow embedding of [client/dhcp_simulator.py] and
    [client/dhcpv6_simulator.py].  Python [bytes] are lists of [Byte.byte],
    Python integers are [N], indices and lengths are [nat], exceptions are
    an explicit error monad, the module globals ([clients], [stats],
    [stop_requested]) are a record threaded through the stateful code, and
    a socket is the queue of datagrams it will deliver.  Random draws, the
    clock and the outcome of the health check are inputs.  The older
    [dhcp4-client.py] has the same codec, receive loop, transaction and
    release path as the DHCPv4 simulator, without probe and privilege
    check. *)

From Stdlib Require Import NArith QArith Lia.
From Stdlib Require Import Strings.Byte Strings.Ascii Strings.String.
From stdpp Require Import base option list gmap strings pretty.
From Equations Require Import Equations.

Local Open Scope N_scope.

(** ** Python values *)

Abbreviation bytes := (list byte).

#[global] Instance byte_eq_decision : EqDecision byte := Byte.byte_eq_dec.

(** [bytes([n])] for [n] known to be below 256; out of range falls back to
    zero and is never reached through [pack_int]. *)
Definition byte_of_N (n : N) : byte := default x00 (Byte.of_N n).

(** Exceptions the modelled code can raise. *)
Inductive exn : Set :=
  | IndexError     (* sequence index out of range *)
  | StructError    (* struct.error *)
  | ValueError     (* bytes([n]) with n outside range(256) *)
  | OSError        (* socket / address conversion failure *)
  | SystemExit (code : N).   (* sys.exit(code) *)

Inductive result (A : Type) : Type :=
  | Ok (a : A)
  | Raise (e : exn).
Arguments Ok {A} a.
Arguments Raise {A} e.

#[global] Instance result_ret : MRet result := fun A a => Ok a.
#[global] Instance result_bind : MBind result := fun A B f m =>
  match m with Ok a => f a | Raise e => Raise e end.

Definition is_ok {A} (r : result A) : bool :=
  match r with Ok _ => true | Raise _ => false end.

(** Exit status of the interpreter when the main module ends with [r]: an
    uncaught [SystemExit] gives its code, any other uncaught exception
    prints a traceback and gives 1. *)
Definition exit_status (r : result unit) : N :=
  match r with
  | Ok _ => 0
  | Raise (SystemExit code) => code
  | Raise _ => 1
  end.

(** Truth value of a [bytes] or [str] object: empty is false. *)
Definition truthy {A} (l : list A) : bool :=
  match l with [] => false | _ => true end.

Definition truthy_str (s : string) : bool :=
  match s with EmptyString => false | _ => true end.

(** [data[i]]: raises [IndexError] outside the buffer. *)
Definition getitem (data : bytes) (i : nat) : result N :=
  match data !! i with
  | Some b => Ok (Byte.to_N b)
  | None => Raise IndexError
  end.

(** [data[a:b]] for [0 <= a]: never raises, clips to the buffer. *)
Definition slice (a b : nat) (data : bytes) : bytes :=
  take (b - a) (drop a data).

(** ** The [struct] module, network byte order *)

Inductive fmt : Set := B | H | I.

Definition fmt_size (f : fmt) : nat :=
  match f with B => 1 | H => 2 | I => 4 end.

(** Big-endian digits of [v], [n] of them. *)
Fixpoint be_bytes (n : nat) (v : N) : bytes :=
  match n with
  | O => []
  | S k => byte_of_N ((v / 256 ^ N.of_nat k) mod 256) :: be_bytes k v
  end.

Definition be_value (bs : bytes) : N :=
  fold_left (fun acc b => acc * 256 + Byte.to_N b) bs 0.

(** One integer field; [struct.error] when the value does not fit. *)
Definition pack_int (f : fmt) (v : N) : result bytes :=
  if v <? 256 ^ N.of_nat (fmt_size f)
  then Ok (be_bytes (fmt_size f) v)
  else Raise StructError.

(** Format [ns]: truncate or pad with zero bytes to [n] bytes. *)
Definition pack_s (n : nat) (s : bytes) : bytes :=
  take n (s ++ replicate n x00).

Inductive field : Type :=
  | Int (f : fmt) (v : N)
  | Str (n : nat) (s : bytes).

Definition pack_field (x : field) : result bytes :=
  match x with
  | Int f v => pack_int f v
  | Str n s => Ok (pack_s n s)
  end.

(** [struct.pack('!...', v1, v2, ...)]: the format characters paired with
    their arguments. *)
Fixpoint struct_pack (fields : list field) : result bytes :=
  match fields with
  | [] => Ok []
  | x :: rest =>
      b ← pack_field x;
      bs ← struct_pack rest;
      Ok (b ++ bs)
  end.

(** [struct.unpack('!H', s)[0]]: [struct.error] unless [s] has 2 bytes. *)
Definition unpack_int (f : fmt) (s : bytes) : result N :=
  if decide (length s = fmt_size f) then Ok (be_value s) else Raise StructError.

(** [bytes([n])] *)
Definition bytes_of_int (n : N) : result bytes :=
  if n <? 256 then Ok [byte_of_N n] else Raise ValueError.

(** [bytes([n1, n2, ...])] *)
Fixpoint bytes_of_ints (ns : list N) : result bytes :=
  match ns with
  | [] => Ok []
  | n :: rest =>
      b ← bytes_of_int n;
      bs ← bytes_of_ints rest;
      Ok (b ++ bs)
  end.

(** ** Sockets *)

Definition addr : Type := string * N.
Definition datagram : Type := bytes * addr.

(** What successive [recvfrom] calls on one socket deliver: [Some d] is a
    datagram, [None] (and the end of the queue) is [socket.timeout]. *)
Definition sock_queue : Type := list (option datagram).

(** Address conversion routines of the [socket] module; [None] stands for
    the exception they raise on input they reject. *)
Class SocketLib := {
  inet_aton : string -> option bytes;
  inet_ntoa : bytes -> option string;
  inet_pton6 : string -> option bytes;
  inet_ntop6 : bytes -> option string;
}.

Definition lift_os {A} (o : option A) : result A :=
  match o with Some a => Ok a | None => Raise OSError end.


(** ** Module globals and the effects on them *)

(** The globals [clients], [stats] and [stop_requested] of a simulator
    module, with the datagrams handed to [sendto] so far (oldest first).
    [L] is the tuple type stored in [clients]. *)
Record world (L : Type) : Type := World {
  clients : list L;
  stats_success : N;
  stats_failed : N;
  stop_requested : bool;
  sent : list datagram;
}.
Arguments World {L} _ _ _ _ _.
Arguments clients {L} _.
Arguments stats_success {L} _.
Arguments stats_failed {L} _.
Arguments stop_requested {L} _.
Arguments sent {L} _.

Definition initial_world {L} : world L := World [] 0 0 false [].

Section Proc.
Context {L : Type}.

(** A statement sequence: runs on the globals, returns or raises. *)
Definition proc (A : Type) : Type := world L -> result A * world L.

#[global] Instance proc_ret : MRet proc := fun A a w => (Ok a, w).
#[global] Instance proc_bind : MBind proc := fun A B f m w =>
  match m w with
  | (Ok a, w') => f a w'
  | (Raise e, w') => (Raise e, w')
  end.

Definition lift {A} (r : result A) : proc A := fun w => (r, w).

(** [sock.sendto(packet, dest)] *)
Definition sendto (d : datagram) : proc unit := fun w =>
  (Ok (), World (clients w) (stats_success w) (stats_failed w)
             (stop_requested w) (sent w ++ [d])).

(** [stats["success"] += 1] *)
Definition incr_success : proc unit := fun w =>
  (Ok (), World (clients w) (stats_success w + 1) (stats_failed w)
             (stop_requested w) (sent w)).

(** [stats["failed"] += 1] *)
Definition incr_failed : proc unit := fun w =>
  (Ok (), World (clients w) (stats_success w) (stats_failed w + 1)
             (stop_requested w) (sent w)).

(** [clients.append(l)] *)
Definition clients_append (l : L) : proc unit := fun w =>
  (Ok (), World (clients w ++ [l]) (stats_success w) (stats_failed w)
             (stop_requested w) (sent w)).

(** [stop_requested = True] *)
Definition set_stop_requested : proc unit := fun w =>
  (Ok (), World (clients w) (stats_success w) (stats_failed w)
             true (sent w)).

Definition get_world : proc (world L) := fun w => (Ok w, w).

(** [sys.exit(code)] *)
Definition sys_exit (code : N) : proc unit := lift (Raise (SystemExit code)).

(** [try: body / except Exception as e: print(...)]: [SystemExit] is not
    an [Exception] and passes through. *)
Definition try_except_Exception (body : proc unit) : proc unit := fun w =>
  match body w with
  | (Raise (SystemExit c), w') => (Raise (SystemExit c), w')
  | (_, w') => (Ok (), w')
  end.

(** [for x in xs: body(x)] *)
Fixpoint for_each {X} (xs : list X) (body : X -> proc unit) : proc unit :=
  match xs with
  | [] => mret ()
  | x :: rest => _ ← body x; for_each rest body
  end.

(** [await asyncio.gather] of the thread-pool tasks, in one
    sequential schedule: every task runs; the first exception raised by a
    task is re-raised to the caller once the tasks are done. *)
Fixpoint gather (tasks : list (proc unit)) : proc unit := fun w =>
  match tasks with
  | [] => (Ok (), w)
  | t :: rest =>
      match t w with
      | (Ok _, w') => gather rest w'
      | (Raise e, w') => (Raise e, snd (gather rest w'))
      end
  end.
End Proc.
Arguments proc : clear implicits.

Section ProcReturn.
Context {L A : Type}.

(** [try: body / except Exception as e: ...; return fallback]: what the
    body did to the globals before raising stays done; [SystemExit] is not
    an [Exception] and passes through. *)
Definition try_except_return (body : proc L A) (fallback : A) : proc L A :=
  fun w =>
    match body w with
    | (Ok a, w') => (Ok a, w')
    | (Raise (SystemExit c), w') => (Raise (SystemExit c), w')
    | (Raise _, w') => (Ok fallback, w')
    end.

End ProcReturn.

(** ** Start-up environment of a run *)

(** Where an asynchronous SIGINT/SIGTERM arrives, if one does. *)
Inductive sigpoint : Set :=
  | SigNever
  | SigProbing (i : nat)      (* while probe attempt [i] is in progress *)
  | SigRunning (k : nat)      (* after [k] transactions have finished *)
  | SigHolding.               (* during the hold before release *)

Definition HEALTH_CHECK_TIMEOUT : Q := 30.

Inductive ready_outcome : Set :=
  | Ready | NotReady | Interrupted | ReadyFuel.

(** The [while time.time() - start_time < HEALTH_CHECK_TIMEOUT] loop of
    [__main__].  [elapsed i] is the value of [time.time() - start_time] at
    the [i]-th evaluation of the loop test, [check i] the outcome of the
    [i]-th call of the health check. *)
Fixpoint wait_ready (fuel : nat) (elapsed : nat -> Q) (check : nat -> bool)
    (sig : sigpoint) (i : nat) : ready_outcome :=
  match fuel with
  | O => ReadyFuel
  | S fuel' =>
      if Qlt_le_dec (elapsed i) HEALTH_CHECK_TIMEOUT then
        match sig with
        | SigProbing j => if decide (j = i) then Interrupted
                          else if check i then Ready
                          else wait_ready fuel' elapsed check sig (S i)
        | _ => if check i then Ready
               else wait_ready fuel' elapsed check sig (S i)
        end
      else NotReady
  end.

(** ** DHCPv4: [client/dhcp_simulator.py] *)

Module V4.

Inductive scan_outcome : Set :=
  | ScanFound                 (* return data, addr *)
  | ScanEnd                   (* inner loop left: break, or index >= len *)
  | ScanRaise (e : exn).

Inductive scan_step_result : Set :=
  | Stop (o : scan_outcome)
  | Next (len : N).           (* index += 2 + len *)

(** Body of the inner [while index < len(data)] loop of [wait_for_msg]. *)
Definition scan_step (data : bytes) (expected_type : N) (index : nat)
    : scan_step_result :=
  match getitem data index with
  | Raise e => Stop (ScanRaise e)
  | Ok tag =>
      if tag =? 0xff then Stop ScanEnd
      else
        match (if tag =? 53
               then t ← getitem data (index + 2); Ok (t =? expected_type)
               else Ok false) with
        | Raise e => Stop (ScanRaise e)
        | Ok true => Stop ScanFound
        | Ok false =>
            match getitem data (index + 1) with
            | Raise e => Stop (ScanRaise e)
            | Ok len => Next len
            end
        end
  end.

(** The inner loop itself; it terminates because every round moves
    [index] forward by at least 2. *)
Equations? scan_options (data : bytes) (expected_type : N) (index : nat)
    : scan_outcome by wf (length data - index)%nat lt :=
  scan_options data expected_type index
    with decide (index < length data)%nat => {
    | right _ := ScanEnd
    | left _ with scan_step data expected_type index => {
        | Stop o := o
        | Next len :=
            scan_options data expected_type (index + (2 + N.to_nat len)) } }.
Proof. lia. Qed.

(** [build_bootp(op, yiaddr, chaddr, xid)], format
    [!BBBBIHHIIII16s64s128sI]. *)
Definition build_bootp (op yiaddr : N) (chaddr : bytes) (xid : N)
    : result bytes :=
  struct_pack
    [Int B op; Int B 1; Int B 6; Int B 0; Int I xid; Int H 0; Int H 0x8000;
     Int I 0; Int I yiaddr; Int I 0; Int I 0;
     Str 16 (chaddr ++ replicate 10 x00);
     Str 64 (replicate 64 x00); Str 128 (replicate 128 x00);
     Int I 0x63825363].

(** The tuple [(mac, xid, offered_ip, server_ip)] appended to [clients]. *)
Record lease : Type := Lease {
  l_mac : bytes;
  l_xid : N;
  l_ip : string;
  l_server : string;
}.

(** [wait_for_msg(sock, xid, expected_type)]: [Ok None] is the
    [return None, None] of the timeout handler.  The remaining queue is
    returned with the result. *)
Fixpoint wait_for_msg (sock : sock_queue) (xid expected_type : N)
    : result (option datagram) * sock_queue :=
  match sock with
  | [] => (Ok None, [])
  | None :: rest => (Ok None, rest)
  | Some (data, addr) :: rest =>
      match pack_int I xid with
      | Raise e => (Raise e, rest)
      | Ok want =>
          if decide (slice 4 8 data <> want)
          then wait_for_msg rest xid expected_type      (* continue *)
          else
            match scan_options data expected_type 240 with
            | ScanFound => (Ok (Some (data, addr)), rest)
            | ScanEnd => wait_for_msg rest xid expected_type
            | ScanRaise e => (Raise e, rest)
            end
      end
  end.

Section WithSocketLib.
Context {SL : SocketLib}.

(** The packet [send_dhcp] builds and its destination. *)
Definition dhcp_packet (msg_type : N) (mac : bytes) (xid : N)
    (requested_ip server_id : option string) : result datagram :=
  bootp ← build_bootp 1 0 mac xid;
  t ← bytes_of_int msg_type;
  let options := [x35; x01] ++ t in
  let options := options ++ [x3d; x07; x01] ++ mac in
  options ←
    match requested_ip with
    | Some ip =>
        if truthy_str ip
        then a ← lift_os (inet_aton ip); Ok (options ++ [x32; x04] ++ a)
        else Ok options
    | None => Ok options
    end;
  options ←
    match server_id with
    | Some srv =>
        if truthy_str srv
        then a ← lift_os (inet_aton srv); Ok (options ++ [x36; x04] ++ a)
        else Ok options
    | None => Ok options
    end;
  let options :=
    if msg_type =? 1 then options ++ [x37; x03; x03; x01; x06] else options in
  let options := options ++ [xff] in
  Ok (bootp ++ options, ("255.255.255.255"%string, 67)).

(** [send_dhcp(sock, msg_type, mac, xid, requested_ip, server_id)] *)
Definition send_dhcp (msg_type : N) (mac : bytes) (xid : N)
    (requested_ip server_id : option string) : proc lease unit :=
  d ← lift (dhcp_packet msg_type mac xid requested_ip server_id);
  sendto d.

(** [dhcp_client_logic(client_id)].  [mac] and [xid] are the values drawn
    by [random_mac()] and [random.randint(0, 0xFFFFFFFF)], [sock] what the
    transaction's socket delivers.  The [finally: sock.close()] touches
    no global. *)
Definition dhcp_client_logic (mac : bytes) (xid : N) (sock : sock_queue)
    : proc lease unit :=
  _ ← send_dhcp 1 mac xid None None;
  let '(r, sock) := wait_for_msg sock xid 2 in
  offer ← lift r;
  match offer with
  | None => incr_failed
  | Some (offer, addr) =>
      if negb (truthy offer) then incr_failed
      else
        offered_ip ← lift (lift_os (inet_ntoa (slice 16 20 offer)));
        let server_ip := fst addr in
        _ ← send_dhcp 3 mac xid (Some offered_ip) (Some server_ip);
        let '(r, sock) := wait_for_msg sock xid 5 in
        ack ← lift r;
        match ack with
        | None => incr_failed
        | Some (ack, _) =>
            if negb (truthy ack) then incr_failed
            else
              _ ← incr_success;
              clients_append (Lease mac xid offered_ip server_ip)
        end
  end.

(** One simulated client: its random draws and its socket. *)
Definition client_input : Type := bytes * N * sock_queue.

Definition client_task (c : client_input) : proc lease unit :=
  let '(mac, xid, sock) := c in dhcp_client_logic mac xid sock.

(** [run_clients()] *)
Definition run_clients (population : list client_input) : proc lease unit :=
  gather (client_task <$> population).

(** The packet [send_release] builds and its destination. *)
Definition release_packet (mac : bytes) (xid : N) (ip server_ip : string)
    : result datagram :=
  bootp ← build_bootp 1 0 mac xid;
  a ← lift_os (inet_aton ip);
  s ← lift_os (inet_aton server_ip);
  let options :=
    [x35; x01; x07] ++ [x3d; x07; x01] ++ mac ++ [x32; x04] ++ a
      ++ [x36; x04] ++ s ++ [xff] in
  Ok (bootp ++ options, (server_ip, 67)).

(** [send_release(mac, xid, ip, server_ip)] *)
Definition send_release (mac : bytes) (xid : N) (ip server_ip : string)
    : proc lease unit :=
  try_except_Exception
    (d ← lift (release_packet mac xid ip server_ip);
     sendto d).

(** The packet of the loop round for the registry entry [l]. *)
Definition release_of (l : lease) : result datagram :=
  release_packet (l_mac l) (l_xid l) (l_ip l) (l_server l).

(** The [for mac, xid, ip, srv in clients] loop of [handle_exit]. *)
Definition release_loop : proc lease unit :=
  w ← get_world;
  for_each (clients w)
    (fun l => send_release (l_mac l) (l_xid l) (l_ip l) (l_server l)).

(** [handle_exit(signum, frame)] *)
Definition handle_exit : proc lease unit :=
  _ ← set_stop_requested;
  _ ← release_loop;
  sys_exit 0.

(** What a run of the script depends on. *)
Record env : Type := Env {
  euid : N;                         (* os.geteuid() *)
  elapsed : nat -> Q;               (* clock readings of the probe loop *)
  check : nat -> bool;              (* check_dhcp_server_health() *)
  population : list client_input;   (* the TOTAL_CLIENTS transactions *)
  signal : sigpoint;
}.

(** The [if not stop_requested] block that ends [__main__]. *)
Definition hold_and_release : proc lease unit :=
  w ← get_world;
  if negb (stop_requested w)
  then handle_exit          (* after time.sleep(LEASE_DURATION) *)
  else mret ().

(** [__main__] from [asyncio.run(run_clients())] on.  A signal during the
    transactions is placed between two of them: [SigRunning k] lets [k]
    transactions finish and runs the handler with none in flight; worker
    threads that go on after the handler has started are not described. *)
Definition after_ready (e : env) : proc lease unit :=
  match signal e with
  | SigRunning k =>
      _ ← run_clients (take k (population e));
      handle_exit
  | _ =>
      _ ← run_clients (population e);
      hold_and_release
  end.

(** The script from the privilege check to the end of [__main__];
    [None]: the probe loop is still going after [fuel] rounds.  The probes
    enter through their answers [check e] only: the datagrams a probe
    sends (see [check_dhcp_server_health] below) are not entered in
    [sent], which holds the traffic of the transactions and of the release
    path. *)
Definition main (fuel : nat) (e : env)
    : option (result unit * world lease) :=
  if negb (euid e =? 0) then Some (sys_exit 1 initial_world)
  else
    match wait_ready fuel (elapsed e) (check e) (signal e) 0 with
    | ReadyFuel => None
    | Interrupted => Some (handle_exit initial_world)
    | NotReady => Some (sys_exit 1 initial_world)
    | Ready => Some (after_ready e initial_world)
    end.
(** [random_mac()]; the arguments are the four [random.randint] draws. *)
Definition random_mac (r2 r3 r4 r5 : N) : result bytes :=
  bytes_of_ints [0x02; 0x00; r2; r3; r4; r5].

(** The socket part of [check_dhcp_server_health()] (the ping and the
    interface listings before it only print).  [test_mac] and [test_xid]
    are its random draws, [sock] what the test socket delivers. *)
Definition check_dhcp_server_health (DHCP_SERVER_IP : string)
    (test_mac : bytes) (test_xid : N) (sock : sock_queue)
    : proc lease bool :=
  try_except_return
    (_ ← send_dhcp 1 test_mac test_xid None None;
     let '(r, sock) := wait_for_msg sock test_xid 2 in
     offer ← lift r;
     match offer with
     | Some (offer, addr) =>
         if truthy offer then mret true
         else
           packet ← lift (build_bootp 1 0 test_mac test_xid);
           let options :=
             [x35; x01; x01] ++ [x3d; x07; x01] ++ test_mac
               ++ [x37; x03; x03; x01; x06] ++ [xff] in
           _ ← sendto (packet ++ options, (DHCP_SERVER_IP, 67));
           let '(r, sock) := wait_for_msg sock test_xid 2 in
           offer ← lift r;
           match offer with
           | Some (offer, addr) => mret (truthy offer)
           | None => mret false
           end
     | None =>
         packet ← lift (build_bootp 1 0 test_mac test_xid);
         let options :=
           [x35; x01; x01] ++ [x3d; x07; x01] ++ test_mac
             ++ [x37; x03; x03; x01; x06] ++ [xff] in
         _ ← sendto (packet ++ options, (DHCP_SERVER_IP, 67));
         let '(r, sock) := wait_for_msg sock test_xid 2 in
         offer ← lift r;
         match offer with
         | Some (offer, addr) => mret (truthy offer)
         | None => mret false
         end
     end)
    false.


End WithSocketLib.

End V4.

(** ** DHCPv6: [client/dhcpv6_simulator.py] *)

Module V6.

(** [random_duid()]: [current_time] is [int(time.time()) - 946684800] and
    [mac] the six bytes drawn with [random.randint]. *)
Definition random_duid (current_time : N) (mac : bytes) : result bytes :=
  h ← struct_pack [Int H 1; Int H 1; Int I current_time];
  Ok (h ++ mac).

(** A [prefix_hint] argument: a [str] or already packed [bytes]. *)
Inductive hint : Type :=
  | HintStr (s : string)
  | HintBytes (b : bytes).

Definition hint_truthy (h : option hint) : bool :=
  match h with
  | None => false
  | Some (HintStr s) => truthy_str s
  | Some (HintBytes b) => truthy b
  end.

(** [s.split('/')[0]] *)
Fixpoint before_slash (s : string) : string :=
  match s with
  | EmptyString => EmptyString
  | String c rest =>
      if Ascii.eqb c "/"%char then EmptyString else String c (before_slash rest)
  end.

Definition bytes_truthy (b : option bytes) : bool :=
  match b with Some b => truthy b | None => false end.

Section WithSocketLib.
Context {SL : SocketLib}.

(** [create_dhcpv6_msg(msg_type, transaction_id, duid, prefix_hint,
    server_duid)]; [ia_id] is the value [random.randint(1, 0xFFFFFFFF)]
    returns when the IA_PD branch is taken. *)
Definition create_dhcpv6_msg (ia_id : N) (msg_type : N)
    (transaction_id duid : bytes) (prefix_hint : option hint)
    (server_duid : option bytes) : result bytes :=
  t ← bytes_of_int msg_type;
  let header := t ++ transaction_id in
  c ← struct_pack [Int H 1; Int H (N.of_nat (length duid))];
  let options := c ++ duid in
  options ←
    match server_duid with
    | Some sd =>
        if truthy sd
        then s ← struct_pack [Int H 2; Int H (N.of_nat (length sd))];
             Ok (options ++ s ++ sd)
        else Ok options
    | None => Ok options
    end;
  e ← struct_pack [Int H 8; Int H 2; Int H 0];
  let options := options ++ e in
  options ←
    (if hint_truthy prefix_hint && ((msg_type =? 1) || (msg_type =? 3))
     then
       let t1 := 0 in
       let t2 := 0 in
       ia_pd ← struct_pack [Int I ia_id; Int I t1; Int I t2];
       ia_pd ←
         match prefix_hint with
         | Some h =>
             if hint_truthy (Some h) then
               let preferred := 3600 in
               let valid := 7200 in
               let prefix_len := 64 in
               prefix_bytes ←
                 match h with
                 | HintStr s => lift_os (inet_pton6 (before_slash s))
                 | HintBytes b => Ok b
                 end;
               p ← struct_pack [Int H 26; Int H 25; Int B preferred;
                                Int B valid; Int I prefix_len];
               let ia_prefix := p ++ prefix_bytes in
               Ok (ia_pd ++ ia_prefix)
             else Ok ia_pd
         | None => Ok ia_pd
         end;
       o ← struct_pack [Int H 25; Int H (N.of_nat (length ia_pd))];
       Ok (options ++ o ++ ia_pd)
     else Ok options);
  r1 ← struct_pack [Int H 6; Int H 4; Int H 23];
  r2 ← struct_pack [Int H 24];
  let requested_options := r1 ++ r2 in
  let options := options ++ requested_options in
  Ok (header ++ options).

Section WithConfig.
Variable DHCPV6_SERVER_IP : string.

(** The datagram [send_dhcpv6] hands to [sendto]. *)
Definition dhcpv6_datagram (ia_id : N) (msg_type : N) (duid : bytes)
    (transaction_id : bytes) (server_duid : option bytes)
    (prefix_hint : option hint) : result datagram :=
  msg ← create_dhcpv6_msg ia_id msg_type transaction_id duid prefix_hint
          server_duid;
  let dest :=
    if msg_type =? 1 then ("ff02::1:2"%string, 547)
    else (DHCPV6_SERVER_IP, 547) in
  Ok (msg, dest).

End WithConfig.
End WithSocketLib.

(** Loop body of [parse_dhcpv6_options]. *)
Inductive parse_step_result : Type :=
  | PBreak
  | PRaise (e : exn)
  | PNext (option_code option_len : N) (option_data : bytes).

Definition parse_step (data : bytes) (offset : nat) : parse_step_result :=
  if decide (length data < offset + 4)%nat then PBreak
  else
    match unpack_int H (slice offset (offset + 2) data) with
    | Raise e => PRaise e
    | Ok option_code =>
        match unpack_int H (slice (offset + 2) (offset + 4) data) with
        | Raise e => PRaise e
        | Ok option_len =>
            if decide (length data < offset + 4 + N.to_nat option_len)%nat
            then PBreak
            else PNext option_code option_len
                   (slice (offset + 4) (offset + 4 + N.to_nat option_len) data)
        end
    end.

(** The [while offset < len(data)] loop, [options] being the dict built
    so far. *)
Equations? parse_loop (data : bytes) (offset : nat) (options : gmap N bytes)
    : result (gmap N bytes) by wf (length data - offset)%nat lt :=
  parse_loop data offset options with decide (offset < length data)%nat => {
    | right _ := Ok options
    | left _ with parse_step data offset => {
        | PBreak := Ok options
        | PRaise e := Raise e
        | PNext option_code option_len option_data :=
            parse_loop data (offset + (4 + N.to_nat option_len))
              (<[option_code := option_data]> options) } }.
Proof. lia. Qed.

(** [parse_dhcpv6_options(data, offset)] *)
Definition parse_dhcpv6_options (data : bytes) (offset : nat)
    : result (gmap N bytes) :=
  parse_loop data offset ∅.

(** [wait_for_dhcpv6_response(sock, transaction_id, expected_type)];
    [Ok None] is the [return None, None, None] of the timeout handler. *)
Fixpoint wait_for_dhcpv6_response (sock : sock_queue) (transaction_id : bytes)
    (expected_type : N)
    : result (option (bytes * addr * gmap N bytes)) * sock_queue :=
  match sock with
  | [] => (Ok None, [])
  | None :: rest => (Ok None, rest)
  | Some (data, addr) :: rest =>
      if decide (length data < 4)%nat
      then wait_for_dhcpv6_response rest transaction_id expected_type
      else
        match getitem data 0 with
        | Raise e => (Raise e, rest)
        | Ok msg_type =>
            let msg_transaction_id := slice 1 4 data in
            if bool_decide (msg_transaction_id <> transaction_id)
               || negb (msg_type =? expected_type)
            then wait_for_dhcpv6_response rest transaction_id expected_type
            else
              match parse_dhcpv6_options data 4 with
              | Raise e => (Raise e, rest)
              | Ok options => (Ok (Some (data, addr, options)), rest)
              end
        end
  end.

(** The tuple [(duid, transaction_id, server_duid, delegated_prefix,
    server_ip)] appended to [clients]. *)
Record lease : Type := Lease {
  l_duid : bytes;
  l_tid : bytes;
  l_server_duid : bytes;
  l_prefix : option string;
  l_server_ip : string;
}.

Section Transaction.
Context {SL : SocketLib}.
Variable DHCPV6_SERVER_IP : string.

Inductive extract_step_result : Type :=
  | EBreak
  | ERaise (e : exn)
  | EReturn (r : option string)
  | ENext (sub_option_len : N).

(** Loop body of [extract_prefix_from_ia_pd]. *)
Definition extract_step (ia_pd_option : bytes) (offset : nat)
    : extract_step_result :=
  if decide (length ia_pd_option < offset + 4)%nat then EBreak
  else
    match unpack_int H (slice offset (offset + 2) ia_pd_option) with
    | Raise e => ERaise e
    | Ok sub_option_code =>
        match unpack_int H (slice (offset + 2) (offset + 4) ia_pd_option) with
        | Raise e => ERaise e
        | Ok sub_option_len =>
            if decide (length ia_pd_option
                       < offset + 4 + N.to_nat sub_option_len)%nat
            then EBreak
            else if (sub_option_code =? 26) && (25 <=? sub_option_len) then
              match getitem ia_pd_option (offset + 4 + 8) with
              | Raise e => ERaise e
              | Ok prefix_len =>
                  let prefix_bytes :=
                    slice (offset + 4 + 9) (offset + 4 + 9 + 16) ia_pd_option in
                  match inet_ntop6 prefix_bytes with
                  | Some prefix_str =>
                      EReturn (Some (prefix_str +:+ "/" +:+ pretty prefix_len))
                  | None => EReturn None
                  end
              end
            else ENext sub_option_len
        end
    end.

Equations? extract_loop (ia_pd_option : bytes) (offset : nat)
    : result (option string) by wf (length ia_pd_option - offset)%nat lt :=
  extract_loop ia_pd_option offset
    with decide (offset < length ia_pd_option)%nat => {
    | right _ := Ok None
    | left _ with extract_step ia_pd_option offset => {
        | EBreak := Ok None
        | ERaise e := Raise e
        | EReturn r := Ok r
        | ENext sub_option_len :=
            extract_loop ia_pd_option
              (offset + (4 + N.to_nat sub_option_len)) } }.
Proof. lia. Qed.

(** [extract_prefix_from_ia_pd(ia_pd_option)] *)
Definition extract_prefix_from_ia_pd (ia_pd_option : bytes)
    : result (option string) :=
  if decide (length ia_pd_option < 16)%nat then Ok None
  else extract_loop ia_pd_option 12.

(** [send_dhcpv6(sock, msg_type, duid, transaction_id, server_duid,
    prefix_hint)] *)
Definition send_dhcpv6 (ia_id : N) (msg_type : N) (duid : bytes)
    (transaction_id : bytes) (server_duid : option bytes)
    (prefix_hint : option hint) : proc lease unit :=
  d ← lift (dhcpv6_datagram DHCPV6_SERVER_IP ia_id msg_type duid
              transaction_id server_duid prefix_hint);
  sendto d.

(** [delegated_prefix] after looking at the options of one message. *)
Definition prefix_of_options (options : gmap N bytes)
    (delegated_prefix : option string) : result (option string) :=
  match options !! 25 with
  | Some ia_pd => extract_prefix_from_ia_pd ia_pd
  | None => Ok delegated_prefix
  end.

(** [dhcpv6_client_logic(client_id)].  [duid] and [transaction_id] are the
    random identity and transaction id, [ia1] and [ia2] the random
    association ids of the two sends, [sock] what the socket delivers. *)
Definition dhcpv6_client_logic (duid transaction_id : bytes) (ia1 ia2 : N)
    (sock : sock_queue) : proc lease unit :=
  let prefix_hint := HintStr "fd00:1234:5678::" in
  _ ← send_dhcpv6 ia1 1 duid transaction_id None (Some prefix_hint);
  let '(r, sock) := wait_for_dhcpv6_response sock transaction_id 2 in
  advertise ← lift r;
  match advertise with
  | None => incr_failed
  | Some (advertise, addr, options) =>
      if negb (truthy advertise) then incr_failed
      else
        match options !! 2 with
        | None => incr_failed
        | Some server_duid =>
            let server_ip := fst addr in
            delegated_prefix ← lift (prefix_of_options options None);
            _ ← send_dhcpv6 ia2 3 duid transaction_id (Some server_duid)
                  (Some prefix_hint);
            let '(r, sock) := wait_for_dhcpv6_response sock transaction_id 7 in
            reply ← lift r;
            match reply with
            | None => incr_failed
            | Some (reply, _, reply_options) =>
                if negb (truthy reply) then incr_failed
                else
                  delegated_prefix ←
                    lift (prefix_of_options reply_options delegated_prefix);
                  _ ← incr_success;
                  clients_append
                    (Lease duid transaction_id server_duid delegated_prefix
                       server_ip)
            end
        end
  end.

Definition client_input : Type := bytes * bytes * N * N * sock_queue.

Definition client_task (c : client_input) : proc lease unit :=
  let '(duid, tid, ia1, ia2, sock) := c in
  dhcpv6_client_logic duid tid ia1 ia2 sock.

(** [run_clients()] *)
Definition run_clients (population : list client_input) : proc lease unit :=
  gather (client_task <$> population).

(** The datagram [send_release] builds.  No association id is drawn: the
    message is built without a prefix hint. *)
Definition release_datagram (duid transaction_id server_duid : bytes)
    (prefix : option string) (server_ip : string) : result datagram :=
  msg ← create_dhcpv6_msg 0 8 transaction_id duid None (Some server_duid);
  Ok (msg, (server_ip, 547)).

(** [send_release(duid, transaction_id, server_duid, prefix, server_ip)] *)
Definition send_release (duid transaction_id server_duid : bytes)
    (prefix : option string) (server_ip : string) : proc lease unit :=
  try_except_Exception
    (d ← lift (release_datagram duid transaction_id server_duid prefix
                 server_ip);
     sendto d).

(** The datagram of the loop round for the registry entry [l]. *)
Definition release_of (l : lease) : result datagram :=
  release_datagram (l_duid l) (l_tid l) (l_server_duid l) (l_prefix l)
    (l_server_ip l).

(** The [for duid, xid, server_duid, prefix, server_ip in clients] loop of
    [handle_exit]. *)
Definition release_loop : proc lease unit :=
  w ← get_world;
  for_each (clients w)
    (fun l => send_release (l_duid l) (l_tid l) (l_server_duid l)
                (l_prefix l) (l_server_ip l)).

(** [handle_exit(signum, frame)] *)
Definition handle_exit : proc lease unit :=
  _ ← set_stop_requested;
  _ ← release_loop;
  sys_exit 0.

(** What a run of the script depends on. *)
Record env : Type := Env {
  euid : N;                         (* os.geteuid() *)
  debug : bool;                     (* sys.argv[1] == "--debug" *)
  elapsed : nat -> Q;               (* clock readings of the probe loop *)
  check : nat -> bool;              (* check_dhcpv6_server_health() *)
  population : list client_input;   (* the TOTAL_CLIENTS transactions *)
  signal : sigpoint;
}.

(** The [if not stop_requested] block that ends [__main__]. *)
Definition hold_and_release : proc lease unit :=
  w ← get_world;
  if negb (stop_requested w)
  then handle_exit          (* after time.sleep(LEASE_DURATION) *)
  else mret ().

(** [__main__] from [asyncio.run(run_clients())] on; [SigRunning k] as for
    DHCPv4: the handler runs between two transactions, none in flight. *)
Definition after_ready (e : env) : proc lease unit :=
  match signal e with
  | SigRunning k =>
      _ ← run_clients (take k (population e));
      handle_exit
  | _ =>
      _ ← run_clients (population e);
      hold_and_release
  end.

(** The script from the privilege check to the end of [__main__];
    [None]: the probe loop is still going after [fuel] rounds.  As for
    DHCPv4 the probes enter through their answers [check e] only: the
    SOLICIT a probe sends (see [check_dhcpv6_server_health] below) is not
    entered in [sent]. *)
Definition main (fuel : nat) (e : env)
    : option (result unit * world lease) :=
  if negb (euid e =? 0) then Some (sys_exit 1 initial_world)
  else if debug e then Some (sys_exit 0 initial_world)
  else
    match wait_ready fuel (elapsed e) (check e) (signal e) 0 with
    | ReadyFuel => None
    | Interrupted => Some (handle_exit initial_world)
    | NotReady => Some (sys_exit 1 initial_world)
    | Ready => Some (after_ready e initial_world)
    end.

(** [check_dhcpv6_server_health()] after the interface listings.
    [current_time] and [mac] are what [random_duid()] draws, [test_xid] the
    three random bytes, [ia_id] the association id drawn when a prefix hint
    is encoded, [sock] what the test socket delivers. *)
Definition check_dhcpv6_server_health (current_time : N) (mac : bytes)
    (test_xid : bytes) (ia_id : N) (sock : sock_queue) : proc lease bool :=
  try_except_return
    (test_duid ← lift (random_duid current_time mac);
     _ ← send_dhcpv6 0 1 test_duid test_xid None None;
     let '(r, sock) := wait_for_dhcpv6_response sock test_xid 2 in
     advertise ← lift r;
     match advertise with
     | Some (advertise, addr, options) =>
         if truthy advertise then mret true
         else
           let prefix_hint := HintStr "fd00:1234:5678::" in
           _ ← send_dhcpv6 ia_id 1 test_duid test_xid None (Some prefix_hint);
           let '(r, sock) := wait_for_dhcpv6_response sock test_xid 2 in
           advertise ← lift r;
           match advertise with
           | Some (advertise, addr, options) => mret (truthy advertise)
           | None => mret false
           end
     | None =>
         let prefix_hint := HintStr "fd00:1234:5678::" in
         _ ← send_dhcpv6 ia_id 1 test_duid test_xid None (Some prefix_hint);
         let '(r, sock) := wait_for_dhcpv6_response sock test_xid 2 in
         advertise ← lift r;
         match advertise with
         | Some (advertise, addr, options) => mret (truthy advertise)
         | None => mret false
         end
     end)
    false.


End Transaction.

End V6.

(** ** Concrete inputs used in the examples below *)

Module Samples.

Definition offered : bytes := [x0a; x00; x00; x05].     (* 10.0.0.5 *)
Definition server : bytes := [x0a; x00; x00; x01].      (* 10.0.0.1 *)
Definition ula : bytes :=                               (* fd00:1234:5678:: *)
  [xfd; x00; x12; x34; x56; x78] ++ replicate 10 x00.

(** Address conversions restricted to the addresses of the examples. *)
#[local] Instance socket_lib : SocketLib := {|
  inet_aton s :=
    if decide (s = "10.0.0.5"%string) then Some offered
    else if decide (s = "10.0.0.1"%string) then Some server
    else None;
  inet_ntoa b :=
    if decide (b = offered) then Some "10.0.0.5"%string
    else if decide (b = server) then Some "10.0.0.1"%string
    else None;
  inet_pton6 s :=
    if decide (s = "fd00:1234:5678::"%string) then Some ula else None;
  inet_ntop6 b :=
    if decide (b = ula) then Some "fd00:1234:5678::"%string else None;
|}.

Definition mac : bytes := [x02; x00; x1a; x2b; x3c; x4d].
Definition xid : N := 0x11223344.
Definition server_addr : addr := ("10.0.0.1"%string, 67).

(** A BOOTP reply frame for [xid] with [yiaddr = 10.0.0.5], followed by
    the given option bytes. *)
Definition reply_frame (options : bytes) : bytes :=
  [x02; x01; x06; x00; x11; x22; x33; x44] ++ replicate 8 x00
    ++ offered ++ replicate 220 x00 ++ options.

Definition offer : bytes := reply_frame [x35; x01; x02; x36; x04; x0a; x00; x00; x01; xff].
Definition ack : bytes := reply_frame [x35; x01; x05; x36; x04; x0a; x00; x00; x01; xff].

(** An OFFER cut off after the length byte of its message-type option:
    the declared length (1) exceeds the remaining buffer (0 bytes). *)
Definition truncated_offer : bytes := reply_frame [x35; x01].

Definition duid : bytes :=
  [x00; x01; x00; x01; x2b; x3c; x4d; x5e; x02; x00; x1a; x2b; x3c; x4d].
Definition tid : bytes := [xab; xcd; xef].
Definition server_duid : bytes := [x00; x03; x00; x01; x02; x42; xac; x1c; x00; x02].
Definition server6 : addr := ("fe80::2"%string, 547).

(** A DHCPv6 message: type, transaction id, option bytes. *)
Definition v6_frame (msg_type : byte) (options : bytes) : bytes :=
  [msg_type] ++ tid ++ options.

Definition advertise : bytes :=
  v6_frame x02 ([x00; x02; x00; x0a] ++ server_duid).
Definition reply : bytes :=
  v6_frame x07 ([x00; x02; x00; x0a] ++ server_duid).

Definition v4_lease : V4.lease :=
  V4.Lease mac xid "10.0.0.5" "10.0.0.1".
Definition v6_lease : V6.lease :=
  V6.Lease duid tid server_duid (Some "fd00:1234:5678::/64"%string) "fe80::2".

(** A clock that is read every ten seconds. *)
Definition slow_clock (i : nat) : Q := inject_Z (10 * Z.of_nat i).

Definition never_ready (i : nat) : bool := false.
Definition ready_at_second_try (i : nat) : bool := Nat.eqb i 1.

(** The DHCPv4 exchange of the specification's scenario. *)
Definition v4_exchange : sock_queue :=
  [Some (offer, server_addr); Some (ack, server_addr)].

Definition v4_env (check : nat -> bool) : V4.env :=
  V4.Env 0 slow_clock check [(mac, xid, v4_exchange)] SigNever.

Definition v6_exchange : sock_queue :=
  [Some (advertise, server6); Some (reply, server6)].

Definition v6_env (check : nat -> bool) : V6.env :=
  V6.Env 0 false slow_clock check [(duid, tid, 7, 9, v6_exchange)] SigNever.

End Samples.

(** ** Vocabulary of the statements *)

(** What a finished transaction did to the globals. *)
Definition counted_success {L} (w w' : world L) : Prop :=
  stats_success w' = stats_success w + 1
  /\ stats_failed w' = stats_failed w
  /\ stop_requested w' = stop_requested w
  /\ exists l, clients w' = clients w ++ [l].

Definition counted_failure {L} (w w' : world L) : Prop :=
  stats_success w' = stats_success w
  /\ stats_failed w' = stats_failed w + 1
  /\ stop_requested w' = stop_requested w
  /\ clients w' = clients w.

Definition uncounted {L} (w w' : world L) : Prop :=
  stats_success w' = stats_success w
  /\ stats_failed w' = stats_failed w
  /\ stop_requested w' = stop_requested w
  /\ clients w' = clients w.

(** The datagrams a release loop hands to [sendto] for the registry [cs]:
    one for each entry whose message can be built, in registry order. *)
Definition released {L} (build : L -> result datagram) (cs : list L)
    : list datagram :=
  omap (fun l => match build l with Ok d => Some d | Raise _ => None end) cs.

(** [except Exception] catches [e]. *)
Definition is_exception (e : exn) : Prop :=
  match e with SystemExit _ => False | _ => True end.

(** The release path sends nothing on a second invocation. *)
Definition release_idempotent {L} (handle_exit : proc L unit) : Prop :=
  forall w : world L,
    sent (snd (handle_exit (snd (handle_exit w)))) = sent (snd (handle_exit w)).

(** The globals after [handle_exit] ran on [w] and sent [ds]. *)
Definition after_release {L} (w : world L) (ds : list datagram) : world L :=
  World (clients w) (stats_success w) (stats_failed w) true (sent w ++ ds).

(** Follows the words of the round-trip statement, not a function of the
    source (whose scan only tests tag 53): the value of the first entry
    with tag [tag] met when the option stream is walked the way the scan
    of [wait_for_msg] walks it: entries [tag, len, value] from [index]
    on, up to the end tag [0xff]. *)
Equations? v4_option (data : bytes) (tag : N) (index : nat) : option bytes
    by wf (length data - index)%nat lt :=
  v4_option data tag index with decide (index < length data)%nat => {
    | right _ := None
    | left _ with getitem data index => {
        | Raise _ := None
        | Ok t with getitem data (index + 1) => {
            | Raise _ := None
            | Ok len :=
                if t =? 0xff then None
                else if t =? tag
                then Some (slice (index + 2) (index + 2 + N.to_nat len) data)
                else v4_option data tag (index + (2 + N.to_nat len)) } } }.
Proof. lia. Qed.

(** The DHCPv6 RELEASE of a lease with a delegated prefix has an IA_PD
    option (code 25), the only option in which a prefix travels. *)
Definition v6_release_carries_prefix (SL : SocketLib) : Prop :=
  forall (l : V6.lease) (p : string),
    V6.l_prefix l = Some p ->
    exists msg dest options,
      V6.release_of l = Ok (msg, dest)
      /\ V6.parse_dhcpv6_options msg 4 = Ok options
      /\ is_Some (options !! 25).

(** The learned server address is the destination of every DHCPv6
    message other than SOLICIT. *)
Definition v6_unicast_to_learned_server (SL : SocketLib) (configured : string)
    : Prop :=
  forall (sock rest : sock_queue) (tid duid data : bytes) (learned : addr)
         (options : gmap N bytes) (ia_id msg_type : N) (msg : bytes)
         (dest : addr),
    V6.wait_for_dhcpv6_response sock tid 2
      = (Ok (Some (data, learned, options)), rest) ->
    msg_type <> 1 ->
    V6.dhcpv6_datagram configured ia_id msg_type duid tid (options !! 2) None
      = Ok (msg, dest) ->
    dest = (fst learned, 547).

(** Every round of the probe loop ends with [time.sleep(5)]: the [i]-th
    reading of the clock is at least [5 * i] seconds after the start. *)
Definition sleeps (elapsed : nat -> Q) : Prop :=
  forall i : nat, (5 * inject_Z (Z.of_nat i) <= elapsed i)%Q.

(** Attempt [i] is made: the loop test held at every round up to [i]. *)
Definition within_deadline (elapsed : nat -> Q) (i : nat) : Prop :=
  forall j : nat, (j <= i)%nat -> (elapsed j < HEALTH_CHECK_TIMEOUT)%Q.

Definition probe_never_succeeds (elapsed : nat -> Q) (check : nat -> bool)
    : Prop :=
  forall i : nat, within_deadline elapsed i -> check i = false.

Definition probe_succeeds (elapsed : nat -> Q) (check : nat -> bool) : Prop :=
  exists i : nat, within_deadline elapsed i /\ check i = true.

(** A DHCPv4 option entry on the wire: tag, length, value. *)
Definition v4_entry (e : N * bytes) : bytes :=
  byte_of_N (fst e) :: byte_of_N (N.of_nat (length (snd e))) :: snd e.

Definition v4_entries (es : list (N * bytes)) : bytes :=
  concat (v4_entry <$> es).

(** An entry the scan can step over: not the end tag, a length that fits
    one byte, and a value byte to compare if it is a message-type entry. *)
Definition v4_entry_ok (e : N * bytes) : Prop :=
  fst e < 255 /\ N.of_nat (length (snd e)) < 256
  /\ (fst e = 53 -> snd e <> []).

(** A message-type entry whose first value byte is [ty]. *)
Definition v4_entry_has_type (ty : N) (e : N * bytes) : bool :=
  (fst e =? 53)
  && match snd e with b :: _ => Byte.to_N b =? ty | [] => false end.

(** A DHCPv6 option on the wire: 2-byte code, 2-byte length, value. *)
Definition v6_option_bytes (o : N * bytes) : bytes :=
  be_bytes 2 (fst o) ++ be_bytes 2 (N.of_nat (length (snd o))) ++ snd o.

Definition v6_options_bytes (os : list (N * bytes)) : bytes :=
  concat (v6_option_bytes <$> os).

Definition v6_option_ok (o : N * bytes) : Prop :=
  fst o < 65536 /\ N.of_nat (length (snd o)) < 65536.

(** The dict obtained by storing the options in order: for a repeated
    code the last value stays. *)
Definition options_dict (os : list (N * bytes)) : gmap N bytes :=
  fold_left (fun m o => <[fst o := snd o]> m) os ∅.

(** Bytes that cannot hold one more option: fewer than four, or a header
    that declares more value bytes than follow it. *)
Definition truncated_tail (tail : bytes) : Prop :=
  (length tail < 4)%nat
  \/ exists c0 c1 l0 l1 body,
       tail = [c0; c1; l0; l1] ++ body
       /\ N.of_nat (length body) < be_value [l0; l1].

(** Every datagram of [ds] is addressed to [dest]. *)
Definition all_sent_to (dest : addr) (ds : list datagram) : Prop :=
  Forall (fun d => snd d = dest) ds.

(** * Properties *)

(** ** Bytes and [struct] *)

Lemma byte_of_N_to_N (n : N) : n < 256 -> Byte.to_N (byte_of_N n) = n.
Proof.
  intros Hn. unfold byte_of_N.
  destruct (Byte.of_N n) as [b|] eqn:E.
  - simpl. now apply Byte.to_of_N.
  - apply Byte.of_N_None_iff in E. lia.
Qed.

Lemma length_be_bytes (n : nat) (v : N) : length (be_bytes n v) = n.
Proof. induction n; simpl; congruence. Qed.

Lemma be_value_app (bs : bytes) (b : byte) :
  be_value (bs ++ [b]) = be_value bs * 256 + Byte.to_N b.
Proof. unfold be_value. now rewrite fold_left_app. Qed.

Lemma be_value_cons (b : byte) (bs : bytes) :
  be_value (b :: bs) = Byte.to_N b * 256 ^ N.of_nat (length bs) + be_value bs.
Proof.
  revert b. induction bs as [|c bs IH] using rev_ind; intros b.
  - unfold be_value. simpl. lia.
  - change (b :: bs ++ [c]) with ((b :: bs) ++ [c]).
    rewrite !be_value_app, IH, length_app. simpl length.
    replace (N.of_nat (length bs + 1)) with (N.succ (N.of_nat (length bs))) by lia.
    rewrite N.pow_succ_r'. lia.
Qed.

Lemma digit_mod (v k n : N) :
  k < n -> ((v mod 256 ^ n) / 256 ^ k) mod 256 = (v / 256 ^ k) mod 256.
Proof.
  intros Hk.
  assert (Ha : 256 ^ k <> 0) by (apply N.pow_nonzero; lia).
  replace (256 ^ n) with (256 ^ k * (256 * 256 ^ (n - k - 1))).
  2:{ rewrite <- N.pow_succ_r', <- N.pow_add_r. f_equal. lia. }
  rewrite N.Div0.mod_mul_r.
  rewrite (N.mul_comm (256 ^ k)), N.div_add by exact Ha.
  rewrite N.div_small by (apply N.mod_lt; exact Ha).
  rewrite N.add_0_l, N.Div0.mod_mul_r.
  rewrite (N.mul_comm 256), N.Div0.mod_add. apply N.Div0.mod_mod.
Qed.

Lemma be_bytes_mod (k : nat) (n v : N) :
  N.of_nat k <= n -> be_bytes k (v mod 256 ^ n) = be_bytes k v.
Proof.
  induction k as [|k IH]; intros Hk; [reflexivity|].
  cbn [be_bytes]. rewrite IH by lia. now rewrite digit_mod by lia.
Qed.

Lemma be_value_be_bytes (n : nat) (v : N) :
  v < 256 ^ N.of_nat n -> be_value (be_bytes n v) = v.
Proof.
  revert v. induction n as [|n IH]; intros v Hv.
  - simpl in Hv. unfold be_value. simpl. lia.
  - cbn [be_bytes]. rewrite be_value_cons, length_be_bytes.
    assert (Hnz : 256 ^ N.of_nat n <> 0) by (apply N.pow_nonzero; lia).
    assert (Hq : v / 256 ^ N.of_nat n < 256).
    { apply N.Div0.div_lt_upper_bound.
      replace (N.of_nat (S n)) with (N.succ (N.of_nat n)) in Hv by lia.
      rewrite N.pow_succ_r' in Hv. lia. }
    rewrite N.mod_small by exact Hq.
    rewrite byte_of_N_to_N by exact Hq.
    rewrite <- (be_bytes_mod n (N.of_nat n) v) by lia.
    rewrite IH by (apply N.mod_lt; exact Hnz).
    rewrite N.mul_comm. symmetry. apply N.div_mod. exact Hnz.
Qed.

Lemma length_slice (a b : nat) (data : bytes) :
  length (slice a b data) = Nat.min (b - a) (length data - a).
Proof. unfold slice. now rewrite length_take, length_drop. Qed.

Lemma slice_app_shift (pre d : bytes) (a b : nat) :
  slice (length pre + a) (length pre + b) (pre ++ d) = slice a b d.
Proof.
  unfold slice. rewrite drop_app_add'  by reflexivity. f_equal. lia.
Qed.

Lemma getitem_app_shift (pre d : bytes) (i : nat) :
  getitem (pre ++ d) (length pre + i) = getitem d i.
Proof. unfold getitem. now rewrite lookup_app_r, Nat.add_sub' by lia. Qed.

Lemma unpack_int_slice (f : fmt) (a : nat) (data : bytes) :
  (a + fmt_size f <= length data)%nat ->
  unpack_int f (slice a (a + fmt_size f) data)
  = Ok (be_value (slice a (a + fmt_size f) data)).
Proof.
  intros Hlen. unfold unpack_int.
  destruct (decide _) as [|Hne]; [reflexivity|].
  exfalso. apply Hne. rewrite length_slice. lia.
Qed.

(** ** DHCPv6 option parser: it is total and never raises *)

Lemma parse_step_no_raise (data : bytes) (offset : nat) (e : exn) :
  V6.parse_step data offset <> V6.PRaise e.
Proof.
  unfold V6.parse_step.
  destruct (decide _) as [|Hge]; [discriminate|].
  rewrite (unpack_int_slice H offset) by (simpl; lia).
  replace (offset + 4)%nat with (offset + 2 + fmt_size H)%nat by (simpl; lia).
  rewrite (unpack_int_slice H (offset + 2)) by (simpl; lia).
  destruct (decide _); discriminate.
Qed.

Lemma parse_loop_ok (data : bytes) (offset : nat) (options : gmap N bytes) :
  exists m, V6.parse_loop data offset options = Ok m.
Proof.
  funelim (V6.parse_loop data offset options); eauto.
  exfalso. eapply parse_step_no_raise; eauto.
Qed.

Lemma parse_dhcpv6_options_ok (data : bytes) (offset : nat) :
  exists m, V6.parse_dhcpv6_options data offset = Ok m.
Proof. apply parse_loop_ok. Qed.

Lemma extract_step_no_raise (SL : SocketLib) (ia_pd_option : bytes)
    (offset : nat) (e : exn) :
  V6.extract_step ia_pd_option offset <> V6.ERaise e.
Proof.
  unfold V6.extract_step.
  destruct (decide _) as [|Hge]; [discriminate|].
  rewrite (unpack_int_slice H offset) by (simpl; lia).
  replace (offset + 4)%nat with (offset + 2 + fmt_size H)%nat at 1
    by (simpl; lia).
  rewrite (unpack_int_slice H (offset + 2)) by (simpl; lia).
  destruct (decide _) as [|Hfit]; [discriminate|].
  destruct (_ && _) eqn:Hc; [|discriminate].
  apply andb_true_iff in Hc as [_ Hlen%N.leb_le].
  unfold getitem.
  destruct (ia_pd_option !! (offset + 4 + 8)%nat) eqn:Hl.
  - destruct (inet_ntop6 _); discriminate.
  - apply lookup_ge_None in Hl. lia.
Qed.

(** [extract_prefix_from_ia_pd] never raises either. *)
Lemma extract_prefix_from_ia_pd_ok (SL : SocketLib) (ia_pd_option : bytes) :
  exists r, V6.extract_prefix_from_ia_pd ia_pd_option = Ok r.
Proof.
  unfold V6.extract_prefix_from_ia_pd.
  destruct (decide _); [eauto|].
  generalize 12%nat as offset. intros offset.
  funelim (V6.extract_loop ia_pd_option offset); eauto.
  exfalso. eapply extract_step_no_raise; eauto.
Qed.

(** ** Truncated DHCPv4 option streams *)

(** C1.  The DHCPv4 option scan of [wait_for_msg] reads [data[index+2]]
    and [data[index+1]] without a bounds check.  On a datagram with the
    awaited transaction id whose option stream ends right after the length
    byte of a message-type entry, the scan raises [IndexError]; the receive
    loop lets it through, and so does the whole transaction, which ends
    without touching either counter.  (The DHCPv6 parser checks its bounds:
    [parse_dhcpv6_options_ok].) *)
Theorem v4_truncated_option_raises :
  V4.scan_options Samples.truncated_offer 2 240 = V4.ScanRaise IndexError
  /\ V4.wait_for_msg [Some (Samples.truncated_offer, Samples.server_addr)]
       Samples.xid 2 = (Raise IndexError, [])
  /\ forall (SL : SocketLib) (w : world V4.lease),
       let '(r, w') :=
         V4.dhcp_client_logic Samples.mac Samples.xid
           [Some (Samples.truncated_offer, Samples.server_addr)] w in
       r = Raise IndexError
       /\ stats_success w' = stats_success w
       /\ stats_failed w' = stats_failed w
       /\ clients w' = clients w.
Proof.
  split; [|split].
  - vm_compute. reflexivity.
  - vm_compute. reflexivity.
  - intros SL [cs ok ko st out]. vm_compute. auto.
Qed.

(** ** Which exceptions the codec raises *)

Lemma pack_int_raise (f : fmt) (v : N) (e : exn) :
  pack_int f v = Raise e -> e = StructError.
Proof. unfold pack_int. destruct (_ <? _); congruence. Qed.

Lemma struct_pack_raise (fields : list field) (e : exn) :
  struct_pack fields = Raise e -> e = StructError.
Proof.
  induction fields as [|x fields IH]; simpl; [discriminate|].
  destruct x as [f v|n str]; simpl.
  - destruct (pack_int f v) eqn:E; simpl.
    + destruct (struct_pack fields); simpl; [discriminate|].
      intros [= <-]. now apply IH.
    + intros [= <-]. now apply pack_int_raise in E.
  - destruct (struct_pack fields); simpl; [discriminate|].
    intros [= <-]. now apply IH.
Qed.

Lemma lift_os_raise {A} (o : option A) (e : exn) :
  lift_os o = Raise e -> e = OSError.
Proof. destruct o; simpl; congruence. Qed.

Lemma bytes_of_int_raise (n : N) (e : exn) :
  bytes_of_int n = Raise e -> e = ValueError.
Proof. unfold bytes_of_int. destruct (_ <? _); congruence. Qed.

Lemma bind_raise_inv {A B} (m : result A) (f : A -> result B) (e : exn) :
  m ≫= f = Raise e -> m = Raise e \/ exists a, m = Ok a /\ f a = Raise e.
Proof. destruct m; cbn; intros Hm; [right; eauto | left; congruence]. Qed.

Lemma bind_exception {A B} (m : result A) (f : A -> result B) :
  (forall e, m = Raise e -> is_exception e) ->
  (forall a e, f a = Raise e -> is_exception e) ->
  forall e, m ≫= f = Raise e -> is_exception e.
Proof.
  intros Hm Hf e [He | (a & _ & He)]%bind_raise_inv; eauto.
Qed.

(** Solves [forall e, m = Raise e -> is_exception e] for codec code. *)
Ltac only_exceptions :=
  lazymatch goal with
  | |- forall e, _ ≫= _ = Raise e -> _ =>
      apply bind_exception; [ only_exceptions | intros ?; only_exceptions ]
  | |- forall e, (if ?b then _ else _) = Raise e -> _ =>
      destruct b; only_exceptions
  | |- forall e, match ?o with Some _ => _ | None => _ end = Raise e -> _ =>
      destruct o; only_exceptions
  | |- forall e, struct_pack _ = Raise e -> _ =>
      intros ? ->%struct_pack_raise; exact Logic.I
  | |- forall e, lift_os _ = Raise e -> _ =>
      intros ? ->%lift_os_raise; exact Logic.I
  | |- forall e, bytes_of_int _ = Raise e -> _ =>
      intros ? ->%bytes_of_int_raise; exact Logic.I
  | |- forall e, Ok _ = Raise e -> _ => intros ?; discriminate
  end.

(** ** The IA_Prefix sub-option of [create_dhcpv6_msg] *)

Lemma bind_raise {A B} (m : result A) (f : A -> result B) :
  is_ok m = false -> is_ok (m ≫= f) = false.
Proof. now destruct m. Qed.

Lemma bind_ok_raise {A B} (m : result A) (f : A -> result B) :
  (forall a, is_ok (f a) = false) -> is_ok (m ≫= f) = false.
Proof. destruct m; simpl; auto. Qed.

Lemma ia_prefix_header_raises :
  struct_pack [Int H 26; Int H 25; Int B 3600; Int B 7200; Int I 64]
  = Raise StructError.
Proof. reflexivity. Qed.

Lemma create_with_hint_not_ok (SL : SocketLib) (ia_id msg_type : N)
    (transaction_id duid : bytes) (h : V6.hint) (server_duid : option bytes) :
  V6.hint_truthy (Some h) = true ->
  msg_type = 1 \/ msg_type = 3 ->
  is_ok (V6.create_dhcpv6_msg ia_id msg_type transaction_id duid (Some h)
           server_duid) = false.
Proof.
  intros Hh Hmt. unfold V6.create_dhcpv6_msg.
  apply bind_ok_raise; intros t.
  apply bind_ok_raise; intros c.
  apply bind_ok_raise; intros options.
  apply bind_ok_raise; intros e.
  apply bind_raise.
  rewrite Hh.
  replace ((msg_type =? 1) || (msg_type =? 3)) with true
    by (destruct Hmt; subst; reflexivity).
  cbn [andb].
  apply bind_ok_raise; intros ia_pd.
  apply bind_raise.
  apply bind_ok_raise; intros prefix_bytes.
  rewrite ia_prefix_header_raises. reflexivity.
Qed.

(** C2.  On a SOLICIT or REQUEST with a prefix hint, [create_dhcpv6_msg]
    packs the IA_Prefix header with the format [!HHBBI]: the lifetimes 3600
    and 7200 go to one-byte fields, which [struct.pack] refuses.  No
    message is produced at all, so no IA_PD option with the documented
    layout (two 4-byte lifetimes, a 1-byte prefix length, 25 bytes in all)
    is ever emitted. *)
Theorem create_dhcpv6_msg_hint_raises (SL : SocketLib) (ia_id msg_type : N)
    (transaction_id duid : bytes) (h : V6.hint) (server_duid : option bytes) :
  V6.hint_truthy (Some h) = true ->
  msg_type = 1 \/ msg_type = 3 ->
  struct_pack [Int H 26; Int H 25; Int B 3600; Int B 7200; Int I 64]
  = Raise StructError
  /\ is_ok (V6.create_dhcpv6_msg ia_id msg_type transaction_id duid (Some h)
              server_duid) = false.
Proof.
  intros Hh Hmt. split; [reflexivity|].
  now apply create_with_hint_not_ok.
Qed.

Lemma create_dhcpv6_msg_hint_raises_witness :
  struct_pack [Int H 26; Int H 25; Int B 3600; Int B 7200; Int I 64]
  = Raise StructError
  /\ is_ok (V6.create_dhcpv6_msg (SL := Samples.socket_lib) 7 1 Samples.tid
              Samples.duid (Some (V6.HintStr "fd00:1234:5678::")) None)
     = false.
Proof.
  apply (create_dhcpv6_msg_hint_raises Samples.socket_lib 7 1 Samples.tid
           Samples.duid (V6.HintStr "fd00:1234:5678::") None).
  - reflexivity.
  - left. reflexivity.
Defined.

(** ** One counter per transaction *)

Ltac proc_step :=
  match goal with
  | |- context [match ?r with Ok _ => _ | Raise _ => _ end] =>
      destruct r eqn:?; simpl
  | |- context [match ?o with Some _ => _ | None => _ end] =>
      destruct o eqn:?; simpl
  | |- context [let '(_, _) := ?p in _] => destruct p eqn:?; simpl
  | |- context [if ?b then _ else _] => destruct b eqn:?; simpl
  end.

(** A DHCPv4 transaction that returns has moved exactly one counter, and
    appended to [clients] exactly when it counted a success. *)
Lemma dhcp_client_logic_returns (SL : SocketLib) (mac : bytes) (xid : N)
    (sock : sock_queue) (w w' : world V4.lease) :
  V4.dhcp_client_logic mac xid sock w = (Ok (), w') ->
  counted_success w w' \/ counted_failure w w'.
Proof.
  unfold V4.dhcp_client_logic, V4.send_dhcp, counted_success, counted_failure.
  unfold mbind, proc_bind, lift, sendto, incr_failed, incr_success,
    clients_append.
  simpl.
  repeat proc_step; intros [= <-]; simpl; eauto 8.
Qed.

(** A DHCPv4 transaction that raises has moved no counter. *)
Lemma dhcp_client_logic_raises (SL : SocketLib) (mac : bytes) (xid : N)
    (sock : sock_queue) (w w' : world V4.lease) (e : exn) :
  V4.dhcp_client_logic mac xid sock w = (Raise e, w') -> uncounted w w'.
Proof.
  unfold V4.dhcp_client_logic, V4.send_dhcp, uncounted.
  unfold mbind, proc_bind, lift, sendto, incr_failed, incr_success,
    clients_append.
  simpl.
  repeat proc_step; intros Heq; inversion Heq; subst; simpl; eauto 8.
Qed.

Lemma gather_ok_inv {L} (t : proc L unit) (tasks : list (proc L unit))
    (w w' : world L) :
  gather (t :: tasks) w = (Ok (), w') ->
  exists w1, t w = (Ok (), w1) /\ gather tasks w1 = (Ok (), w').
Proof.
  simpl. destruct (t w) as [[[]|e] w1]; [eauto | discriminate].
Qed.

(** A DHCPv4 population whose transactions all return: the counters add
    up to the number of clients and the registry grew by the successes. *)
Lemma v4_run_clients_counts (SL : SocketLib) (population : list V4.client_input)
    (w w' : world V4.lease) :
  V4.run_clients population w = (Ok (), w') ->
  stats_success w' + stats_failed w'
  = stats_success w + stats_failed w + N.of_nat (length population)
  /\ N.of_nat (length (clients w')) + stats_success w
     = N.of_nat (length (clients w)) + stats_success w'
  /\ stop_requested w' = stop_requested w.
Proof.
  unfold V4.run_clients. revert w.
  induction population as [|[[mac xid] sock] population IH]; intros w.
  - simpl. intros [= <-]. repeat split; lia.
  - cbn [fmap list_fmap]. intros (w1 & Ht & Hrest)%gather_ok_inv.
    apply IH in Hrest as (Hsum & Hreg & Hstop).
    apply dhcp_client_logic_returns in Ht
      as [(Hs & Hf & Hst & l & Hc) | (Hs & Hf & Hst & Hc)].
    + rewrite Hc, length_app in Hreg. simpl in Hreg. simpl length.
      repeat split; try lia; congruence.
    + rewrite Hc in Hreg. simpl length.
      repeat split; try lia; congruence.
Qed.

Lemma uncounted_refl {L} (w : world L) : uncounted w w.
Proof. now unfold uncounted. Qed.

Lemma uncounted_trans {L} (w1 w2 w3 : world L) :
  uncounted w1 w2 -> uncounted w2 w3 -> uncounted w1 w3.
Proof. unfold uncounted. intuition congruence. Qed.

Lemma gather_uncounted {L} (tasks : list (proc L unit)) (w : world L) :
  Forall (fun t => forall w0, uncounted w0 (snd (t w0))) tasks ->
  uncounted w (snd (gather tasks w)).
Proof.
  intros Hall. revert w.
  induction Hall as [|t tasks Ht _ IH]; intros w; simpl.
  - apply uncounted_refl.
  - specialize (Ht w). destruct (t w) as [[[]|e] w1]; simpl in *.
    + eapply uncounted_trans; [exact Ht | apply IH].
    + eapply uncounted_trans; [exact Ht | apply IH].
Qed.

Lemma create_dhcpv6_msg_exception (SL : SocketLib) (ia_id msg_type : N)
    (tid duid : bytes) (h : option V6.hint) (sd : option bytes) (e : exn) :
  V6.create_dhcpv6_msg ia_id msg_type tid duid h sd = Raise e ->
  is_exception e.
Proof.
  revert e. unfold V6.create_dhcpv6_msg.
  destruct h as [[s|b]|]; cbn [V6.hint_truthy]; only_exceptions.
Qed.

Lemma dhcpv6_client_logic_raises (SL : SocketLib) (srv : string)
    (duid tid : bytes) (ia1 ia2 : N) (sock : sock_queue) (w : world V6.lease) :
  exists e,
    is_exception e
    /\ V6.dhcpv6_client_logic srv duid tid ia1 ia2 sock w = (Raise e, w).
Proof.
  unfold V6.dhcpv6_client_logic, V6.send_dhcpv6, V6.dhcpv6_datagram.
  pose proof (create_with_hint_not_ok SL ia1 1 tid duid
                (V6.HintStr "fd00:1234:5678::") None eq_refl (or_introl eq_refl))
    as Hraise.
  destruct (V6.create_dhcpv6_msg _ _ _ _ _ _) as [msg|e] eqn:Hc;
    [discriminate|].
  exists e. split; [|reflexivity].
  eapply create_dhcpv6_msg_exception; eauto.
Qed.

(** C3.  A DHCPv6 transaction never reaches either counter: its first
    statement after the socket set-up sends a SOLICIT with a prefix hint,
    which raises inside [create_dhcpv6_msg] (the defect of C2), and the
    exception leaves [dhcpv6_client_logic] through its [finally].  After
    any population of transactions both counters and the registry are as
    they were, so [success + failed] stays 0 for N launched clients. *)
Theorem dhcpv6_transaction_moves_no_counter (SL : SocketLib) (srv : string) :
  (forall duid tid ia1 ia2 sock (w : world V6.lease),
     exists e,
       is_exception e
       /\ V6.dhcpv6_client_logic srv duid tid ia1 ia2 sock w = (Raise e, w))
  /\ (forall c population,
        let '(r, w') := V6.run_clients srv (c :: population) initial_world in
        is_ok r = false
        /\ stats_success w' + stats_failed w' = 0
        /\ clients w' = []).
Proof.
  split; [intros; apply dhcpv6_client_logic_raises|].
  intros c population.
  destruct (V6.run_clients srv (c :: population) initial_world) as [r w'] eqn:E.
  assert (Hun : uncounted initial_world w').
  { change w' with (snd (r, w')). rewrite <- E. apply gather_uncounted.
    apply Forall_fmap, Forall_true. intros [[[[d t0] i1] i2] s] w0.
    simpl.
    destruct (dhcpv6_client_logic_raises SL srv d t0 i1 i2 s w0) as (e & _ & ->).
    apply uncounted_refl. }
  destruct Hun as (Hs & Hf & _ & Hc). simpl in Hs, Hf, Hc.
  rewrite Hs, Hf, Hc. repeat split.
  unfold V6.run_clients in E. simpl in E.
  destruct c as [[[[d t0] i1] i2] s]. simpl in E.
  destruct (dhcpv6_client_logic_raises SL srv d t0 i1 i2 s initial_world)
    as (e & _ & He).
  rewrite He in E. inversion E. reflexivity.
Qed.

(** ** The release path *)

Lemma v4_release_packet_exception (SL : SocketLib) mac xid ip srv (e : exn) :
  V4.release_packet mac xid ip srv = Raise e -> is_exception e.
Proof.
  revert e. unfold V4.release_packet, V4.build_bootp. only_exceptions.
Qed.

Lemma v6_release_datagram_exception (SL : SocketLib) duid tid sd prefix srv
    (e : exn) :
  V6.release_datagram duid tid sd prefix srv = Raise e -> is_exception e.
Proof.
  revert e. unfold V6.release_datagram, V6.create_dhcpv6_msg.
  cbn [V6.hint_truthy andb]. only_exceptions.
Qed.

(** A loop of best-effort sends: returns, changes nothing but [sent]. *)
Lemma release_rounds {L} (build : L -> result datagram) (cs : list L)
    (w : world L) :
  (forall l e, build l = Raise e -> is_exception e) ->
  for_each cs (fun l => try_except_Exception (d ← lift (build l); sendto d)) w
  = (Ok (), World (clients w) (stats_success w) (stats_failed w)
              (stop_requested w) (sent w ++ released build cs)).
Proof.
  intros Hexc. revert w. induction cs as [|l cs IH]; intros w.
  - simpl. rewrite app_nil_r. now destruct w.
  - cbn [for_each]. unfold mbind at 1, proc_bind at 1.
    unfold try_except_Exception at 1, mbind at 1, proc_bind at 1, lift at 1.
    unfold released at 1. cbn [omap list_omap]. fold (released build cs).
    destruct (build l) as [d|e] eqn:E.
    + cbn. rewrite IH. cbn. now rewrite <- app_assoc.
    + apply Hexc in E. destruct e; try contradiction; apply IH.
Qed.

Lemma v4_handle_exit_spec (SL : SocketLib) (w : world V4.lease) :
  V4.handle_exit w
  = (Raise (SystemExit 0), after_release w (released V4.release_of (clients w))).
Proof.
  unfold V4.handle_exit, V4.release_loop, V4.send_release.
  unfold mbind at 1 2, proc_bind at 1 2, set_stop_requested.
  unfold mbind at 1, proc_bind at 1, get_world. cbn [clients].
  rewrite (release_rounds
             (fun l => V4.release_packet (V4.l_mac l) (V4.l_xid l) (V4.l_ip l)
                         (V4.l_server l))).
  - reflexivity.
  - intros l e. apply v4_release_packet_exception.
Qed.

Lemma v6_handle_exit_spec (SL : SocketLib) (w : world V6.lease) :
  V6.handle_exit w
  = (Raise (SystemExit 0), after_release w (released V6.release_of (clients w))).
Proof.
  unfold V6.handle_exit, V6.release_loop, V6.send_release.
  unfold mbind at 1 2, proc_bind at 1 2, set_stop_requested.
  unfold mbind at 1, proc_bind at 1, get_world. cbn [clients].
  rewrite (release_rounds
             (fun l => V6.release_datagram (V6.l_duid l) (V6.l_tid l)
                         (V6.l_server_duid l) (V6.l_prefix l)
                         (V6.l_server_ip l))).
  - reflexivity.
  - intros l e. apply v6_release_datagram_exception.
Qed.

Lemma after_release_twice {L} (w : world L) (a b : list datagram) :
  after_release (after_release w a) b = after_release w (a ++ b).
Proof. unfold after_release. simpl. now rewrite app_assoc. Qed.

(** C4, as stated: fails.  With one lease in the registry a second run of
    [handle_exit] sends the RELEASE for it again. *)
Lemma release_path_not_idempotent :
  ~ release_idempotent (V4.handle_exit (SL := Samples.socket_lib)).
Proof.
  intros Hidem.
  specialize (Hidem (World [Samples.v4_lease] 1 0 false [])).
  vm_compute in Hidem. discriminate Hidem.
Qed.

(** C4, amended.  [handle_exit] iterates over [clients] and leaves it as it
    is, and it tests nothing on entry: every invocation, whatever
    [stop_requested] holds, sends one RELEASE for each registry entry whose
    message can be built, in registry order, sets [stop_requested] and ends
    with [sys.exit(0)]; a second invocation sends the same messages again.
    The only test of [stop_requested] is the [if not stop_requested] block
    at the end of [__main__]: once an invocation has set the flag, that
    block does not call [handle_exit]. *)
Theorem release_path_iterates_registry (SL : SocketLib) :
  (forall w : world V4.lease,
     let ds := released V4.release_of (clients w) in
     V4.handle_exit w = (Raise (SystemExit 0), after_release w ds)
     /\ V4.handle_exit (after_release w ds)
        = (Raise (SystemExit 0), after_release w (ds ++ ds))
     /\ V4.hold_and_release (after_release w ds) = (Ok (), after_release w ds))
  /\ (forall w : world V6.lease,
        let ds := released V6.release_of (clients w) in
        V6.handle_exit w = (Raise (SystemExit 0), after_release w ds)
        /\ V6.handle_exit (after_release w ds)
           = (Raise (SystemExit 0), after_release w (ds ++ ds))
        /\ V6.hold_and_release (after_release w ds)
           = (Ok (), after_release w ds)).
Proof.
  split; intros w ds; (split; [|split]).
  - apply v4_handle_exit_spec.
  - rewrite v4_handle_exit_spec. now rewrite after_release_twice.
  - reflexivity.
  - apply v6_handle_exit_spec.
  - rewrite v6_handle_exit_spec. now rewrite after_release_twice.
  - reflexivity.
Qed.

(** ** The DHCPv4 option walk *)

Lemma scan_options_unfold (data : bytes) (ty : N) (index : nat) :
  V4.scan_options data ty index
  = if decide (index < length data)%nat then
      match V4.scan_step data ty index with
      | V4.Stop o => o
      | V4.Next len => V4.scan_options data ty (index + (2 + N.to_nat len))
      end
    else V4.ScanEnd.
Proof.
  rewrite V4.scan_options_equation_1 at 1.
  unfold V4.scan_options_unfold_clause_1.
  destruct (decide _); [|reflexivity].
  now destruct (V4.scan_step data ty index).
Qed.

Lemma v4_option_eq (data : bytes) (tag : N) (index : nat) :
  v4_option data tag index
  = if decide (index < length data)%nat then
      match getitem data index, getitem data (index + 1) with
      | Ok t, Ok len =>
          if t =? 0xff then None
          else if t =? tag
          then Some (slice (index + 2) (index + 2 + N.to_nat len) data)
          else v4_option data tag (index + (2 + N.to_nat len))
      | _, _ => None
      end
    else None.
Proof.
  rewrite v4_option_equation_1 at 1. unfold v4_option_unfold_clause_1.
  destruct (decide _); [|reflexivity].
  unfold v4_option_unfold_clause_1_clause_2.
  destruct (getitem data index); [|reflexivity].
  unfold v4_option_unfold_clause_1_clause_2_clause_2.
  now destruct (getitem data (index + 1)).
Qed.

Lemma slice_head (a b : nat) (data v : bytes) (x : byte) :
  slice a b data = x :: v -> getitem data a = Ok (Byte.to_N x).
Proof.
  unfold slice, getitem. intros Hs.
  assert (Hl : take (b - a) (drop a data) !! 0%nat = Some x) by now rewrite Hs.
  apply lookup_take_Some in Hl as [Hl _].
  rewrite lookup_drop, Nat.add_0_r in Hl. now rewrite Hl.
Qed.

(** The walk of [v4_option] is the walk of the scan in [wait_for_msg]:
    when the first message-type entry it meets holds the awaited type, the
    scan of the source reports a match. *)
Lemma v4_option_message_type (data : bytes) (ty : N) (index : nat) (b : byte)
    (v : bytes) :
  v4_option data 53 index = Some (b :: v) -> Byte.to_N b = ty ->
  V4.scan_options data ty index = V4.ScanFound.
Proof.
  remember (length data - index)%nat as n eqn:Hn. revert index Hn.
  induction n as [n IH] using lt_wf_ind. intros index -> Hopt Hb.
  rewrite v4_option_eq in Hopt. rewrite scan_options_unfold.
  destruct (decide _) as [Hlt|]; [|discriminate].
  unfold V4.scan_step.
  destruct (getitem data index) as [t|]; [|discriminate].
  destruct (getitem data (index + 1)) as [len|]; [|discriminate].
  destruct (t =? 255); [discriminate|].
  destruct (t =? 53).
  - injection Hopt as Hslice. apply slice_head in Hslice.
    rewrite Hslice. simpl. now rewrite Hb, N.eqb_refl.
  - simpl. eapply IH; [|reflexivity|exact Hopt|exact Hb]. lia.
Qed.

(** ** Encoding then decoding *)

Lemma pack_int_shape_I (v : N) :
  v < 2 ^ 32 ->
  exists b0 b1 b2 b3,
    pack_int I v = Ok [b0; b1; b2; b3] /\ be_value [b0; b1; b2; b3] = v.
Proof.
  intros Hv. unfold pack_int.
  change (256 ^ N.of_nat (fmt_size I)) with (2 ^ 32).
  destruct (N.ltb_spec v (2 ^ 32)) as [_|]; [|lia].
  exists (byte_of_N ((v / 256 ^ 3) mod 256)), (byte_of_N ((v / 256 ^ 2) mod 256)),
    (byte_of_N ((v / 256 ^ 1) mod 256)), (byte_of_N ((v / 256 ^ 0) mod 256)).
  split; [reflexivity|].
  apply (be_value_be_bytes 4 v). exact Hv.
Qed.

Lemma pack_int_shape_H (v : N) :
  v < 65536 ->
  exists b0 b1, pack_int H v = Ok [b0; b1] /\ be_value [b0; b1] = v.
Proof.
  intros Hv. unfold pack_int.
  change (256 ^ N.of_nat (fmt_size H)) with 65536.
  destruct (N.ltb_spec v 65536) as [_|]; [|lia].
  exists (byte_of_N ((v / 256 ^ 1) mod 256)), (byte_of_N ((v / 256 ^ 0) mod 256)).
  split; [reflexivity|].
  apply (be_value_be_bytes 2 v). exact Hv.
Qed.

Lemma v4_discover_roundtrip (SL : SocketLib) (mac : bytes) (xid : N) :
  length mac = 6%nat -> xid < 2 ^ 32 ->
  exists pkt dest,
    V4.dhcp_packet 1 mac xid None None = Ok (pkt, dest)
    /\ unpack_int I (slice 4 8 pkt) = Ok xid
    /\ Ok (slice 4 8 pkt) = pack_int I xid
    /\ v4_option pkt 61 240 = Some (x01 :: mac)
    /\ V4.scan_options pkt 1 240 = V4.ScanFound.
Proof.
  intros Hmac Hxid.
  destruct mac as [|m0 [|m1 [|m2 [|m3 [|m4 [|m5 [|]]]]]]]; try discriminate.
  destruct (pack_int_shape_I xid Hxid) as (b0 & b1 & b2 & b3 & Hpack & Hval).
  unfold V4.dhcp_packet, V4.build_bootp.
  cbn [struct_pack pack_field]. rewrite Hpack.
  eexists. eexists. split; [vm_compute; reflexivity|].
  split; [|split; [|split]].
  - rewrite <- Hval. vm_compute. reflexivity.
  - vm_compute. reflexivity.
  - vm_compute. reflexivity.
  - vm_compute. reflexivity.
Qed.

Lemma parse_loop_unfold (data : bytes) (offset : nat) (options : gmap N bytes) :
  V6.parse_loop data offset options
  = if decide (offset < length data)%nat then
      match V6.parse_step data offset with
      | V6.PBreak => Ok options
      | V6.PRaise e => Raise e
      | V6.PNext option_code option_len option_data =>
          V6.parse_loop data (offset + (4 + N.to_nat option_len))
            (<[option_code := option_data]> options)
      end
    else Ok options.
Proof.
  rewrite V6.parse_loop_equation_1 at 1. unfold V6.parse_loop_unfold_clause_1.
  destruct (decide _); [|reflexivity].
  now destruct (V6.parse_step data offset).
Qed.

Lemma parse_step_shift (pre d : bytes) (offset : nat) :
  V6.parse_step (pre ++ d) (length pre + offset) = V6.parse_step d offset.
Proof.
  unfold V6.parse_step. rewrite length_app.
  replace (length pre + offset + 2)%nat with (length pre + (offset + 2))%nat by lia.
  replace (length pre + offset + 4)%nat with (length pre + (offset + 4))%nat by lia.
  rewrite !slice_app_shift.
  destruct (decide _), (decide (length d < _)%nat); try lia; try reflexivity.
  destruct (unpack_int H _); [|reflexivity].
  destruct (unpack_int H _) as [len|]; [|reflexivity].
  replace (length pre + (offset + 4) + N.to_nat len)%nat
    with (length pre + (offset + 4 + N.to_nat len))%nat by lia.
  rewrite slice_app_shift.
  destruct (decide _), (decide (length d < _)%nat); try lia; reflexivity.
Qed.

(** Parsing from an offset only looks at the bytes from that offset on. *)
Lemma parse_loop_shift (pre d : bytes) (offset : nat) (options : gmap N bytes) :
  V6.parse_loop (pre ++ d) (length pre + offset) options
  = V6.parse_loop d offset options.
Proof.
  remember (length d - offset)%nat as n eqn:Hn.
  revert offset options Hn.
  induction n as [n IH] using lt_wf_ind. intros offset options ->.
  rewrite (parse_loop_unfold (pre ++ d)), (parse_loop_unfold d).
  rewrite parse_step_shift, length_app.
  destruct (decide _), (decide (offset < _)%nat); try lia; try reflexivity.
  destruct (V6.parse_step d offset) as [| |code len v]; try reflexivity.
  rewrite <- Nat.add_assoc. eapply IH; [|reflexivity]. lia.
Qed.

(** One well-formed option at the head of the stream. *)
Lemma parse_loop_option (c0 c1 l0 l1 : byte) (v rest : bytes)
    (options : gmap N bytes) :
  be_value [l0; l1] = N.of_nat (length v) ->
  V6.parse_loop ([c0; c1; l0; l1] ++ v ++ rest) 0 options
  = V6.parse_loop rest 0 (<[be_value [c0; c1] := v]> options).
Proof.
  intros Hlen. rewrite parse_loop_unfold.
  destruct (decide _) as [_|Hge]; [|simpl in Hge; lia].
  unfold V6.parse_step.
  destruct (decide _) as [Hlt|_]; [simpl in Hlt; lia|].
  change (slice 0 (0 + 2) ([c0; c1; l0; l1] ++ v ++ rest)) with [c0; c1].
  change (slice (0 + 2) (0 + 4) ([c0; c1; l0; l1] ++ v ++ rest)) with [l0; l1].
  change (unpack_int H [c0; c1]) with (Ok (be_value [c0; c1])).
  change (unpack_int H [l0; l1]) with (Ok (be_value [l0; l1])).
  cbn iota. rewrite Hlen, Nat2N.id.
  destruct (decide _) as [Hlt|_].
  { simpl in Hlt. rewrite length_app in Hlt. lia. }
  replace (slice (0 + 4) (0 + 4 + length v) ([c0; c1; l0; l1] ++ v ++ rest))
    with v.
  2:{ unfold slice. cbn [drop Nat.add app].
      replace (S (S (S (S (length v)))) - 4)%nat with (length v) by lia.
      now rewrite drop_0, take_app_length. }
  rewrite Nat2N.id.
  replace (0 + (4 + length v))%nat
    with (length ([c0; c1; l0; l1] ++ v) + 0)%nat
    by (rewrite length_app; simpl; lia).
  rewrite (app_assoc [c0; c1; l0; l1] v rest).
  apply parse_loop_shift.
Qed.

Lemma v6_solicit_roundtrip (SL : SocketLib) (ia_id : N) (duid tid : bytes) :
  length tid = 3%nat -> N.of_nat (length duid) < 65536 ->
  exists msg,
    V6.create_dhcpv6_msg ia_id 1 tid duid None None = Ok msg
    /\ getitem msg 0 = Ok 1
    /\ slice 1 4 msg = tid
    /\ exists options,
         V6.parse_dhcpv6_options msg 4 = Ok options
         /\ options !! 1 = Some duid.
Proof.
  intros Htid Hduid.
  destruct tid as [|t0 [|t1 [|t2 [|]]]]; try discriminate.
  destruct (pack_int_shape_H (N.of_nat (length duid)))
    as (l0 & l1 & Hpack & Hval); [exact Hduid|].
  exists ([x01; t0; t1; t2]
            ++ [x00; x01; l0; l1] ++ duid
            ++ [x00; x08; x00; x02; x00; x00;
                x00; x06; x00; x04; x00; x17; x00; x18]).
  split; [|split; [|split]].
  - unfold V6.create_dhcpv6_msg.
    cbn [struct_pack pack_field]. rewrite Hpack.
    simpl. rewrite <- !app_assoc. reflexivity.
  - reflexivity.
  - reflexivity.
  - unfold V6.parse_dhcpv6_options.
    change 4%nat with (length [x01; t0; t1; t2] + 0)%nat.
    rewrite parse_loop_shift, parse_loop_option by exact Hval.
    eexists. split; vm_compute; reflexivity.
Qed.

(** C5.  The round trip holds for every DISCOVER and for every SOLICIT
    built without prefix hint, and for no SOLICIT built with one.  A
    DISCOVER built by [send_dhcp] carries the transaction id at offset 4
    (the four bytes [wait_for_msg] compares) and the hardware address,
    after the hardware type 1, as the value of option 61 of its option
    stream.  A SOLICIT built by [create_dhcpv6_msg] without prefix hint (the
    one of the readiness probe) has the transaction id in bytes 1..3, and
    [parse_dhcpv6_options] returns the DUID under option code 1.  With a
    non-empty prefix hint, as in the SOLICIT of every [dhcpv6_client_logic],
    the encoder raises (the defect of C2) whatever the identity and the
    transaction id: there is no byte string to decode.  The client
    identities are a 6-byte address and a DUID short enough for a 2-byte
    length, the transaction ids 32 bits and 3 bytes. *)
Theorem roundtrip_without_hint_only (SL : SocketLib) :
  (forall (mac : bytes) (xid : N),
     length mac = 6%nat -> xid < 2 ^ 32 ->
     exists pkt dest,
       V4.dhcp_packet 1 mac xid None None = Ok (pkt, dest)
       /\ unpack_int I (slice 4 8 pkt) = Ok xid
       /\ Ok (slice 4 8 pkt) = pack_int I xid
       /\ v4_option pkt 61 240 = Some (x01 :: mac)
       /\ V4.scan_options pkt 1 240 = V4.ScanFound)
  /\ (forall (ia_id : N) (duid tid : bytes),
        length tid = 3%nat -> N.of_nat (length duid) < 65536 ->
        exists msg,
          V6.create_dhcpv6_msg ia_id 1 tid duid None None = Ok msg
          /\ getitem msg 0 = Ok 1
          /\ slice 1 4 msg = tid
          /\ exists options,
               V6.parse_dhcpv6_options msg 4 = Ok options
               /\ options !! 1 = Some duid)
  /\ (forall (ia_id : N) (duid tid : bytes) (h : V6.hint)
             (server_duid : option bytes),
        V6.hint_truthy (Some h) = true ->
        is_ok (V6.create_dhcpv6_msg ia_id 1 tid duid (Some h) server_duid)
        = false).
Proof.
  split; [|split].
  - intros mac xid. apply v4_discover_roundtrip.
  - intros ia_id duid tid. apply v6_solicit_roundtrip.
  - intros ia_id duid tid h server_duid Hh.
    apply create_with_hint_not_ok; [exact Hh | now left].
Qed.

Lemma roundtrip_without_hint_only_witness :
  (exists pkt dest,
     V4.dhcp_packet (SL := Samples.socket_lib) 1 Samples.mac Samples.xid
       None None = Ok (pkt, dest)
     /\ unpack_int I (slice 4 8 pkt) = Ok Samples.xid
     /\ Ok (slice 4 8 pkt) = pack_int I Samples.xid
     /\ v4_option pkt 61 240 = Some (x01 :: Samples.mac)
     /\ V4.scan_options pkt 1 240 = V4.ScanFound)
  /\ (exists msg,
        V6.create_dhcpv6_msg (SL := Samples.socket_lib) 7 1 Samples.tid
          Samples.duid None None = Ok msg
        /\ getitem msg 0 = Ok 1
        /\ slice 1 4 msg = Samples.tid
        /\ exists options,
             V6.parse_dhcpv6_options msg 4 = Ok options
             /\ options !! 1 = Some Samples.duid)
  /\ is_ok (V6.create_dhcpv6_msg (SL := Samples.socket_lib) 7 1 Samples.tid
              Samples.duid (Some (V6.HintStr "fd00:1234:5678::")) None)
     = false.
Proof.
  split; [|split].
  - apply (proj1 (roundtrip_without_hint_only Samples.socket_lib)
             Samples.mac Samples.xid); reflexivity.
  - apply (proj1 (proj2 (roundtrip_without_hint_only Samples.socket_lib))
             7 Samples.duid Samples.tid); reflexivity.
  - apply (proj2 (proj2 (roundtrip_without_hint_only Samples.socket_lib))
             7 Samples.duid Samples.tid (V6.HintStr "fd00:1234:5678::") None).
    reflexivity.
Defined.

(** ** The receive loops *)

Lemma wait_for_msg_match (sock : sock_queue) (xid ty : N) (d : bytes)
    (a : addr) (rest : sock_queue) :
  V4.wait_for_msg sock xid ty = (Ok (Some (d, a)), rest) ->
  Ok (slice 4 8 d) = pack_int I xid
  /\ V4.scan_options d ty 240 = V4.ScanFound.
Proof.
  induction sock as [|[[data addr]|] sock IH]; simpl; try discriminate.
  destruct (pack_int I xid) as [want|]; [|discriminate].
  destruct (decide _) as [|Heq]; [exact IH|].
  destruct (V4.scan_options data ty 240) eqn:Hscan; try discriminate.
  - intros [= <- <- <-]. split; [|exact Hscan].
    f_equal. now destruct (decide (slice 4 8 data = want)).
  - exact IH.
Qed.

Lemma wait_for_dhcpv6_response_match (sock : sock_queue) (tid : bytes)
    (ty : N) (d : bytes) (a : addr) (options : gmap N bytes)
    (rest : sock_queue) :
  V6.wait_for_dhcpv6_response sock tid ty = (Ok (Some (d, a, options)), rest) ->
  slice 1 4 d = tid /\ getitem d 0 = Ok ty
  /\ V6.parse_dhcpv6_options d 4 = Ok options.
Proof.
  induction sock as [|[[data addr]|] sock IH]; simpl; try discriminate.
  destruct (decide _); [exact IH|].
  destruct (getitem data 0) as [msg_type|] eqn:Hget; [|discriminate].
  destruct (bool_decide _) eqn:Htid; [exact IH|].
  destruct (N.eqb_spec msg_type ty) as [->|]; [|exact IH]. simpl.
  destruct (V6.parse_dhcpv6_options data 4) eqn:Hparse; [|discriminate].
  intros [= <- <- <- <-].
  apply bool_decide_eq_false in Htid.
  split; [|split; [exact Hget | exact Hparse]].
  now destruct (decide (slice 1 4 data = tid)).
Qed.

(** C6.  A datagram whose bytes 4..7 differ from the packed transaction id
    (DHCPv4), or whose bytes 1..3 or first byte differ from the awaited
    transaction id or message type (DHCPv6), is dropped: the receive loop
    behaves as if it had not arrived and goes on with the next [recvfrom].
    Whatever datagram a loop returns carries the awaited transaction id
    (and type); an empty queue or a timeout makes it return [None]. *)
Theorem mismatched_datagram_skipped :
  (forall (data : bytes) (a : addr) (rest : sock_queue) (xid ty : N),
     xid < 2 ^ 32 ->
     Ok (slice 4 8 data) <> pack_int I xid ->
     V4.wait_for_msg (Some (data, a) :: rest) xid ty
     = V4.wait_for_msg rest xid ty)
  /\ (forall (data : bytes) (a : addr) (rest : sock_queue) (tid : bytes)
        (ty : N),
        slice 1 4 data <> tid \/ getitem data 0 <> Ok ty ->
        V6.wait_for_dhcpv6_response (Some (data, a) :: rest) tid ty
        = V6.wait_for_dhcpv6_response rest tid ty)
  /\ (forall sock xid ty d a rest,
        V4.wait_for_msg sock xid ty = (Ok (Some (d, a)), rest) ->
        Ok (slice 4 8 d) = pack_int I xid)
  /\ (forall sock tid ty d a options rest,
        V6.wait_for_dhcpv6_response sock tid ty
        = (Ok (Some (d, a, options)), rest) ->
        slice 1 4 d = tid /\ getitem d 0 = Ok ty)
  /\ (forall xid ty rest,
        V4.wait_for_msg [] xid ty = (Ok None, [])
        /\ V4.wait_for_msg (None :: rest) xid ty = (Ok None, rest))
  /\ (forall tid ty rest,
        V6.wait_for_dhcpv6_response [] tid ty = (Ok None, [])
        /\ V6.wait_for_dhcpv6_response (None :: rest) tid ty = (Ok None, rest)).
Proof.
  repeat apply conj.
  - intros data a rest xid ty Hxid Hne. simpl.
    destruct (pack_int_shape_I xid Hxid) as (b0 & b1 & b2 & b3 & Hp & _).
    rewrite Hp in *. destruct (decide _) as [|Heq]; [reflexivity|].
    exfalso. apply Hne. f_equal.
    now destruct (decide (slice 4 8 data = [b0; b1; b2; b3])).
  - intros data a rest tid ty Hne. simpl.
    destruct (decide _); [reflexivity|].
    destruct (getitem data 0) as [msg_type|] eqn:Hget.
    2:{ exfalso. unfold getitem in Hget.
        destruct data; simpl in *; [lia | discriminate]. }
    destruct (bool_decide _) eqn:Htid; [reflexivity|].
    apply bool_decide_eq_false in Htid.
    destruct (N.eqb_spec msg_type ty) as [->|]; [|reflexivity].
    exfalso. destruct Hne as [Hne|Hne]; [|now apply Hne].
    apply Hne. now destruct (decide (slice 1 4 data = tid)).
  - intros sock xid ty d a rest Hw.
    now apply wait_for_msg_match in Hw.
  - intros sock tid ty d a options rest Hw.
    apply wait_for_dhcpv6_response_match in Hw. tauto.
  - auto.
  - auto.
Qed.

Lemma mismatched_datagram_skipped_witness :
  V4.wait_for_msg
    [Some (Samples.offer, Samples.server_addr);
     Some (Samples.offer, Samples.server_addr)] 0x11223345 2
  = V4.wait_for_msg [Some (Samples.offer, Samples.server_addr)] 0x11223345 2
  /\ V6.wait_for_dhcpv6_response
       [Some (Samples.advertise, Samples.server6);
        Some (Samples.reply, Samples.server6)] Samples.tid 7
     = V6.wait_for_dhcpv6_response [Some (Samples.reply, Samples.server6)]
         Samples.tid 7
  /\ Ok (slice 4 8 Samples.offer) = pack_int I Samples.xid
  /\ (slice 1 4 Samples.reply = Samples.tid
      /\ getitem Samples.reply 0 = Ok 7).
Proof.
  pose proof mismatched_datagram_skipped as (H4 & H6 & M4 & M6 & _).
  split; [|split; [|split]].
  - apply H4; [reflexivity | discriminate].
  - apply H6. right. discriminate.
  - apply (M4 [Some (Samples.offer, Samples.server_addr)] Samples.xid 2
              Samples.offer Samples.server_addr []).
    vm_compute. reflexivity.
  - refine (M6 [Some (Samples.reply, Samples.server6)] Samples.tid 7
              Samples.reply Samples.server6 _ [] _).
    vm_compute. reflexivity.
Defined.

(** ** RELEASE messages *)

Lemma released_elem {L} (build : L -> result datagram) (cs : list L) (l : L)
    (d : datagram) :
  l ∈ cs -> build l = Ok d -> d ∈ released build cs.
Proof.
  intros Hl Hb. unfold released. apply list_elem_of_omap.
  exists l. split; [exact Hl|]. now rewrite Hb.
Qed.

Lemma v4_release_packet_fields (SL : SocketLib) (mac : bytes) (xid : N)
    (ip srv : string) (a s : bytes) :
  length mac = 6%nat -> xid < 2 ^ 32 ->
  inet_aton ip = Some a -> length a = 4%nat ->
  inet_aton srv = Some s -> length s = 4%nat ->
  exists pkt,
    V4.release_packet mac xid ip srv = Ok (pkt, (srv, 67))
    /\ Ok (slice 4 8 pkt) = pack_int I xid
    /\ v4_option pkt 53 240 = Some [x07]
    /\ v4_option pkt 61 240 = Some (x01 :: mac)
    /\ v4_option pkt 50 240 = Some a
    /\ v4_option pkt 54 240 = Some s.
Proof.
  intros Hmac Hxid Hip Ha Hsrv Hs.
  destruct mac as [|m0 [|m1 [|m2 [|m3 [|m4 [|m5 [|]]]]]]]; try discriminate.
  destruct a as [|a0 [|a1 [|a2 [|a3 [|]]]]]; try discriminate.
  destruct s as [|s0 [|s1 [|s2 [|s3 [|]]]]]; try discriminate.
  destruct (pack_int_shape_I xid Hxid) as (b0 & b1 & b2 & b3 & Hpack & _).
  unfold V4.release_packet, V4.build_bootp.
  cbn [struct_pack pack_field]. rewrite Hpack, Hip, Hsrv.
  eexists. split; [vm_compute; reflexivity|].
  repeat apply conj; vm_compute; reflexivity.
Qed.

Lemma v6_release_datagram_fields (SL : SocketLib) (duid tid sd : bytes)
    (prefix : option string) (srv : string) :
  length tid = 3%nat -> N.of_nat (length duid) < 65536 ->
  sd <> [] -> N.of_nat (length sd) < 65536 ->
  exists msg options,
    V6.release_datagram duid tid sd prefix srv = Ok (msg, (srv, 547))
    /\ getitem msg 0 = Ok 8
    /\ slice 1 4 msg = tid
    /\ V6.parse_dhcpv6_options msg 4 = Ok options
    /\ options !! 1 = Some duid
    /\ options !! 2 = Some sd
    /\ options !! 25 = None.
Proof.
  intros Htid Hduid Hne Hsd.
  destruct tid as [|t0 [|t1 [|t2 [|]]]]; try discriminate.
  destruct (pack_int_shape_H _ Hduid) as (l0 & l1 & Hpack & Hval).
  destruct (pack_int_shape_H _ Hsd) as (k0 & k1 & Hpacks & Hvals).
  exists ([x08; t0; t1; t2]
            ++ [x00; x01; l0; l1] ++ duid
            ++ [x00; x02; k0; k1] ++ sd
            ++ [x00; x08; x00; x02; x00; x00;
                x00; x06; x00; x04; x00; x17; x00; x18]).
  eexists.
  split; [|split; [|split; [|split]]].
  - unfold V6.release_datagram, V6.create_dhcpv6_msg.
    destruct sd as [|s0 sd']; [contradiction|]. cbn [truthy].
    cbn [struct_pack pack_field]. rewrite Hpack, Hpacks.
    simpl. rewrite <- !app_assoc. reflexivity.
  - reflexivity.
  - reflexivity.
  - unfold V6.parse_dhcpv6_options.
    change 4%nat with (length [x08; t0; t1; t2] + 0)%nat.
    rewrite parse_loop_shift, parse_loop_option by exact Hval.
    rewrite parse_loop_option by exact Hvals.
    vm_compute. reflexivity.
  - repeat apply conj; vm_compute; reflexivity.
Qed.

(** C7, as stated: fails.  The DHCPv6 RELEASE built for a lease with the
    delegated prefix fd00:1234:5678::/64 has no IA_PD option. *)
Lemma v6_release_omits_prefix :
  ~ v6_release_carries_prefix Samples.socket_lib.
Proof.
  intros Hc.
  destruct (Hc Samples.v6_lease _ eq_refl) as (msg & dest & options & Hm & Hp & Ho).
  vm_compute in Hm. injection Hm as <- <-.
  vm_compute in Hp. injection Hp as <-.
  vm_compute in Ho. destruct Ho as [x Hx]. discriminate Hx.
Qed.

(** C7, amended.  For every lease in the registry, the RELEASE that
    [handle_exit] sends goes to the lease's recorded server address (port
    67, resp. 547).  The DHCPv4 message carries the lease's transaction id,
    message type 7, its hardware address in option 61, its assigned address
    in option 50 and the server address in option 54.  The DHCPv6 message
    has type 8 and carries the lease's transaction id, its DUID in option 1
    and the server DUID in option 2; it has no IA_PD option: the delegated
    prefix is not part of the message.  (Well-formed leases: 6-byte address,
    32-bit transaction id and convertible addresses; 3-byte transaction id,
    DUIDs that fit a 2-byte length, non-empty server DUID.) *)
Theorem release_message_fields (SL : SocketLib) :
  (forall (w : world V4.lease) (l : V4.lease) (a s : bytes),
     l ∈ clients w ->
     length (V4.l_mac l) = 6%nat -> V4.l_xid l < 2 ^ 32 ->
     inet_aton (V4.l_ip l) = Some a -> length a = 4%nat ->
     inet_aton (V4.l_server l) = Some s -> length s = 4%nat ->
     exists pkt,
       (pkt, (V4.l_server l, 67)) ∈ sent (snd (V4.handle_exit w))
       /\ V4.release_of l = Ok (pkt, (V4.l_server l, 67))
       /\ Ok (slice 4 8 pkt) = pack_int I (V4.l_xid l)
       /\ v4_option pkt 53 240 = Some [x07]
       /\ v4_option pkt 61 240 = Some (x01 :: V4.l_mac l)
       /\ v4_option pkt 50 240 = Some a
       /\ v4_option pkt 54 240 = Some s)
  /\ (forall (w : world V6.lease) (l : V6.lease),
        l ∈ clients w ->
        length (V6.l_tid l) = 3%nat ->
        N.of_nat (length (V6.l_duid l)) < 65536 ->
        V6.l_server_duid l <> [] ->
        N.of_nat (length (V6.l_server_duid l)) < 65536 ->
        exists msg options,
          (msg, (V6.l_server_ip l, 547)) ∈ sent (snd (V6.handle_exit w))
          /\ V6.release_of l = Ok (msg, (V6.l_server_ip l, 547))
          /\ getitem msg 0 = Ok 8
          /\ slice 1 4 msg = V6.l_tid l
          /\ V6.parse_dhcpv6_options msg 4 = Ok options
          /\ options !! 1 = Some (V6.l_duid l)
          /\ options !! 2 = Some (V6.l_server_duid l)
          /\ options !! 25 = None).
Proof.
  split.
  - intros w l a s Hl Hmac Hxid Hip Ha Hsrv Hs.
    destruct (v4_release_packet_fields SL _ _ _ _ a s Hmac Hxid Hip Ha Hsrv Hs)
      as (pkt & Hpkt & Hrest).
    exists pkt. split; [|split; [exact Hpkt | exact Hrest]].
    rewrite v4_handle_exit_spec. simpl. apply elem_of_app. right.
    eapply released_elem; eauto.
  - intros w l Hl Htid Hduid Hne Hsd.
    destruct (v6_release_datagram_fields SL _ _ _ (V6.l_prefix l)
                (V6.l_server_ip l) Htid Hduid Hne Hsd)
      as (msg & options & Hmsg & Hrest).
    exists msg, options. split; [|split; [exact Hmsg | exact Hrest]].
    rewrite v6_handle_exit_spec. simpl. apply elem_of_app. right.
    eapply released_elem; eauto.
Qed.

Lemma release_message_fields_witness :
  (exists pkt,
     (pkt, ("10.0.0.1"%string, 67))
       ∈ sent (snd (V4.handle_exit (SL := Samples.socket_lib)
                      (World [Samples.v4_lease] 1 0 false [])))
     /\ V4.release_of (SL := Samples.socket_lib) Samples.v4_lease
        = Ok (pkt, ("10.0.0.1"%string, 67))
     /\ Ok (slice 4 8 pkt) = pack_int I Samples.xid
     /\ v4_option pkt 53 240 = Some [x07]
     /\ v4_option pkt 61 240 = Some (x01 :: Samples.mac)
     /\ v4_option pkt 50 240 = Some Samples.offered
     /\ v4_option pkt 54 240 = Some Samples.server)
  /\ (exists msg options,
        (msg, ("fe80::2"%string, 547))
          ∈ sent (snd (V6.handle_exit (SL := Samples.socket_lib)
                         (World [Samples.v6_lease] 1 0 false [])))
        /\ V6.release_of (SL := Samples.socket_lib) Samples.v6_lease
           = Ok (msg, ("fe80::2"%string, 547))
        /\ getitem msg 0 = Ok 8
        /\ slice 1 4 msg = Samples.tid
        /\ V6.parse_dhcpv6_options msg 4 = Ok options
        /\ options !! 1 = Some Samples.duid
        /\ options !! 2 = Some Samples.server_duid
        /\ options !! 25 = None).
Proof.
  split.
  - apply (proj1 (release_message_fields Samples.socket_lib)
             (World [Samples.v4_lease] 1 0 false []) Samples.v4_lease
             Samples.offered Samples.server);
      try reflexivity.
    apply list_elem_of_singleton. reflexivity.
  - apply (proj2 (release_message_fields Samples.socket_lib)
             (World [Samples.v6_lease] 1 0 false []) Samples.v6_lease);
      try reflexivity.
    + apply list_elem_of_singleton. reflexivity.
    + discriminate.
Defined.

(** ** Destination of DHCPv6 messages *)

(** C8, as stated: fails.  With the server configured as fe80::2, after
    an ADVERTISE received from fe80::99 a REQUEST still goes to fe80::2. *)
Lemma request_not_sent_to_learned_server :
  ~ v6_unicast_to_learned_server Samples.socket_lib "fe80::2".
Proof.
  intros Hc.
  assert (Hd : ("fe80::2"%string, 547) = (("fe80::99"%string, 547) : addr)).
  { eapply (Hc [Some (Samples.advertise, ("fe80::99"%string, 547))] []
              Samples.tid Samples.duid Samples.advertise
              ("fe80::99"%string, 547) {[2 := Samples.server_duid]} 0 3).
    - vm_compute. reflexivity.
    - discriminate.
    - vm_compute. reflexivity. }
  discriminate Hd.
Qed.

(** C8, amended.  Whenever [send_dhcpv6] has a message to send, it goes to
    port 547 of ff02::1:2 if the message type is 1 (SOLICIT), and of the
    configured address [DHCPV6_SERVER_IP] for every other message type; the
    address an advertisement came from is not used.  That datagram is what
    the call appends to the traffic. *)
Theorem send_dhcpv6_destination (SL : SocketLib) (DHCPV6_SERVER_IP : string)
    (ia_id msg_type : N) (duid transaction_id : bytes)
    (server_duid : option bytes) (prefix_hint : option V6.hint)
    (msg : bytes) (dest : addr) (w : world V6.lease) :
  V6.dhcpv6_datagram DHCPV6_SERVER_IP ia_id msg_type duid transaction_id
    server_duid prefix_hint = Ok (msg, dest) ->
  V6.create_dhcpv6_msg ia_id msg_type transaction_id duid prefix_hint
    server_duid = Ok msg
  /\ dest = ((if msg_type =? 1 then "ff02::1:2"%string else DHCPV6_SERVER_IP),
             547)
  /\ V6.send_dhcpv6 DHCPV6_SERVER_IP ia_id msg_type duid transaction_id
       server_duid prefix_hint w
     = (Ok (), World (clients w) (stats_success w) (stats_failed w)
                 (stop_requested w) (sent w ++ [(msg, dest)])).
Proof.
  intros Hd. unfold V6.send_dhcpv6. unfold mbind at 1, proc_bind, lift.
  rewrite Hd. unfold V6.dhcpv6_datagram in Hd.
  destruct (V6.create_dhcpv6_msg _ _ _ _ _ _) as [m|]; [|discriminate].
  simpl in Hd. injection Hd as <- <-.
  split; [reflexivity|]. split; [|reflexivity].
  now destruct (msg_type =? 1).
Qed.

Lemma send_dhcpv6_destination_witness :
  exists msg,
    V6.create_dhcpv6_msg (SL := Samples.socket_lib) 0 3 Samples.tid
      Samples.duid None (Some Samples.server_duid) = Ok msg
    /\ V6.send_dhcpv6 (SL := Samples.socket_lib) "fe80::2" 0 3 Samples.duid
         Samples.tid (Some Samples.server_duid) None initial_world
       = (Ok (), World [] 0 0 false [(msg, ("fe80::2"%string, 547))]).
Proof.
  eexists.
  refine (let H := send_dhcpv6_destination Samples.socket_lib "fe80::2" 0 3
                     Samples.duid Samples.tid (Some Samples.server_duid) None
                     _ ("fe80::2"%string, 547) initial_world _ in
          conj (proj1 H) (proj2 (proj2 H))).
  vm_compute. reflexivity.
Defined.

(** ** The readiness probe loop *)

Lemma sleeps_deadline (elapsed : nat -> Q) (i : nat) :
  sleeps elapsed -> (elapsed i < HEALTH_CHECK_TIMEOUT)%Q -> (i < 6)%nat.
Proof.
  intros Hs Hlt. specialize (Hs i).
  pose proof (Qle_lt_trans _ _ _ Hs Hlt) as Hi.
  unfold Qlt, HEALTH_CHECK_TIMEOUT in Hi. simpl in Hi. lia.
Qed.

Lemma wait_ready_success (elapsed : nat -> Q) (check : nat -> bool)
    (i fuel k : nat) :
  (forall j, (k <= j <= i)%nat -> (elapsed j < HEALTH_CHECK_TIMEOUT)%Q) ->
  check i = true -> (k <= i)%nat -> (i - k < fuel)%nat ->
  wait_ready fuel elapsed check SigNever k = Ready.
Proof.
  revert k. induction fuel as [|fuel IH]; intros k Hin Hok Hk Hfuel; [lia|].
  simpl. destruct (Qlt_le_dec (elapsed k) HEALTH_CHECK_TIMEOUT) as [_|Hge].
  - destruct (check k) eqn:Hck; [reflexivity|].
    assert (k <> i) by congruence.
    apply IH; try assumption; try lia. intros j Hj. apply Hin. lia.
  - exfalso. apply (Qle_not_lt _ _ Hge). apply Hin. lia.
Qed.

Lemma wait_ready_failure (elapsed : nat -> Q) (check : nat -> bool)
    (n fuel k : nat) :
  (HEALTH_CHECK_TIMEOUT <= elapsed n)%Q ->
  (forall j, (k <= j)%nat ->
     (forall j', (k <= j' <= j)%nat -> (elapsed j' < HEALTH_CHECK_TIMEOUT)%Q) ->
     check j = false) ->
  (k <= n)%nat -> (n - k < fuel)%nat ->
  wait_ready fuel elapsed check SigNever k = NotReady.
Proof.
  revert k. induction fuel as [|fuel IH]; intros k Hn Hfail Hk Hfuel; [lia|].
  simpl. destruct (Qlt_le_dec (elapsed k) HEALTH_CHECK_TIMEOUT) as [Hlt|_];
    [|reflexivity].
  assert (k <> n).
  { intros ->. apply (Qle_not_lt _ _ Hn Hlt). }
  rewrite (Hfail k) by (try lia; intros j' Hj'; now replace j' with k by lia).
  apply IH; try assumption; try lia.
  intros j Hj Hin. apply Hfail; [lia|]. intros j' Hj'.
  destruct (decide (j' = k)) as [->|]; [exact Hlt|]. apply Hin. lia.
Qed.

Lemma wait_ready_never (elapsed : nat -> Q) (check : nat -> bool) (fuel : nat) :
  sleeps elapsed -> probe_never_succeeds elapsed check -> (7 <= fuel)%nat ->
  wait_ready fuel elapsed check SigNever 0 = NotReady.
Proof.
  intros Hs Hnever Hfuel.
  apply (wait_ready_failure elapsed check 6); try lia.
  - specialize (Hs 6%nat). unfold HEALTH_CHECK_TIMEOUT.
    eapply Qle_trans; [|exact Hs]. unfold Qle. simpl. lia.
  - intros j _ Hin. apply Hnever. intros j' Hj'. apply Hin. lia.
Qed.

Lemma wait_ready_some (elapsed : nat -> Q) (check : nat -> bool) (fuel : nat) :
  sleeps elapsed -> probe_succeeds elapsed check -> (7 <= fuel)%nat ->
  wait_ready fuel elapsed check SigNever 0 = Ready.
Proof.
  intros Hs (i & Hin & Hok) Hfuel.
  assert (i < 6)%nat by (apply (sleeps_deadline elapsed); auto).
  apply (wait_ready_success elapsed check i); try lia; try assumption.
  intros j Hj. apply Hin. lia.
Qed.

(** C9.  With the process running as root and no signal arriving: if no
    probe attempt made within the deadline succeeds, the script ends with
    [sys.exit(1)] with the globals as they were at start-up, no datagram
    sent and no transaction run; if some attempt made within the deadline
    succeeds, the script goes on with what follows the probe loop, which
    starts with [run_clients].  The loop is over after at most 7 tests of
    the clock because each round sleeps 5 of the 30 seconds. *)
Theorem readiness_gate (SL : SocketLib) (DHCPV6_SERVER_IP : string) :
  (forall (e : V4.env) (fuel : nat),
     V4.euid e = 0 -> V4.signal e = SigNever -> sleeps (V4.elapsed e) ->
     (7 <= fuel)%nat ->
     (probe_never_succeeds (V4.elapsed e) (V4.check e) ->
      V4.main fuel e = Some (Raise (SystemExit 1), initial_world)
      /\ exit_status (Raise (SystemExit 1)) <> 0)
     /\ (probe_succeeds (V4.elapsed e) (V4.check e) ->
         V4.main fuel e
         = Some ((_ ← V4.run_clients (V4.population e); V4.hold_and_release)
                   initial_world)))
  /\ (forall (e : V6.env) (fuel : nat),
        V6.euid e = 0 -> V6.debug e = false -> V6.signal e = SigNever ->
        sleeps (V6.elapsed e) -> (7 <= fuel)%nat ->
        (probe_never_succeeds (V6.elapsed e) (V6.check e) ->
         V6.main DHCPV6_SERVER_IP fuel e
         = Some (Raise (SystemExit 1), initial_world)
         /\ exit_status (Raise (SystemExit 1)) <> 0)
        /\ (probe_succeeds (V6.elapsed e) (V6.check e) ->
            V6.main DHCPV6_SERVER_IP fuel e
            = Some ((_ ← V6.run_clients DHCPV6_SERVER_IP (V6.population e);
                     V6.hold_and_release) initial_world))).
Proof.
  split.
  - intros e fuel Heuid Hsig Hs Hfuel. unfold V4.main, V4.after_ready.
    rewrite Heuid, Hsig. simpl negb. cbn iota. split.
    + intros Hnever. rewrite wait_ready_never by assumption.
      split; [reflexivity | discriminate].
    + intros Hsome. now rewrite wait_ready_some by assumption.
  - intros e fuel Heuid Hdebug Hsig Hs Hfuel. unfold V6.main, V6.after_ready.
    rewrite Heuid, Hdebug, Hsig. simpl negb. cbn iota. split.
    + intros Hnever. rewrite wait_ready_never by assumption.
      split; [reflexivity | discriminate].
    + intros Hsome. now rewrite wait_ready_some by assumption.
Qed.

Lemma slow_clock_sleeps : sleeps Samples.slow_clock.
Proof. intros i. unfold Samples.slow_clock, Qle. simpl. lia. Qed.

Lemma ready_at_second_try_succeeds :
  probe_succeeds Samples.slow_clock Samples.ready_at_second_try.
Proof.
  exists 1%nat. split; [|reflexivity].
  intros j Hj. unfold Samples.slow_clock, HEALTH_CHECK_TIMEOUT, Qlt. simpl. lia.
Qed.

Lemma readiness_gate_witness :
  (V4.main (SL := Samples.socket_lib) 7 (Samples.v4_env Samples.never_ready)
   = Some (Raise (SystemExit 1), initial_world)
   /\ exit_status (Raise (SystemExit 1)) <> 0)
  /\ V4.main (SL := Samples.socket_lib) 7
       (Samples.v4_env Samples.ready_at_second_try)
     = Some ((_ ← V4.run_clients (SL := Samples.socket_lib)
                    [(Samples.mac, Samples.xid, Samples.v4_exchange)];
              V4.hold_and_release (SL := Samples.socket_lib)) initial_world)
  /\ (V6.main (SL := Samples.socket_lib) "fe80::2" 7
        (Samples.v6_env Samples.never_ready)
      = Some (Raise (SystemExit 1), initial_world)
      /\ exit_status (Raise (SystemExit 1)) <> 0)
  /\ V6.main (SL := Samples.socket_lib) "fe80::2" 7
       (Samples.v6_env Samples.ready_at_second_try)
     = Some ((_ ← V6.run_clients (SL := Samples.socket_lib) "fe80::2"
                    [(Samples.duid, Samples.tid, 7, 9, Samples.v6_exchange)];
              V6.hold_and_release (SL := Samples.socket_lib)) initial_world).
Proof.
  pose proof (readiness_gate Samples.socket_lib "fe80::2") as [G4 G6].
  split; [|split; [|split]].
  - apply (G4 (Samples.v4_env Samples.never_ready) 7%nat);
      [reflexivity | reflexivity | exact slow_clock_sleeps | lia |].
    intros i _. reflexivity.
  - apply (G4 (Samples.v4_env Samples.ready_at_second_try) 7%nat);
      [reflexivity | reflexivity | exact slow_clock_sleeps | lia |].
    exact ready_at_second_try_succeeds.
  - apply (G6 (Samples.v6_env Samples.never_ready) 7%nat);
      [reflexivity | reflexivity | reflexivity | exact slow_clock_sleeps
      | lia |].
    intros i _. reflexivity.
  - apply (G6 (Samples.v6_env Samples.ready_at_second_try) 7%nat);
      [reflexivity | reflexivity | reflexivity | exact slow_clock_sleeps
      | lia |].
    exact ready_at_second_try_succeeds.
Defined.

(** ** Exit status *)

Lemma exit_status_exception (e : exn) :
  is_exception e -> exit_status (Raise e) = 1.
Proof. now destruct e. Qed.

(** Both release paths end the process with status 0, whatever the
    counters and the registry hold. *)
Lemma handle_exit_status (SL : SocketLib) :
  (forall w : world V4.lease, exit_status (fst (V4.handle_exit w)) = 0)
  /\ (forall w : world V6.lease, exit_status (fst (V6.handle_exit w)) = 0).
Proof.
  split; intros w.
  - now rewrite v4_handle_exit_spec.
  - now rewrite v6_handle_exit_spec.
Qed.

(** A DHCPv4 run whose transactions all return ends, after the hold, in
    [handle_exit] and so with status 0, whatever was counted. *)
Lemma v4_completed_run_exits_zero (SL : SocketLib) (e : V4.env)
    (w : world V4.lease) :
  V4.signal e = SigNever ->
  V4.run_clients (V4.population e) initial_world = (Ok (), w) ->
  exit_status (fst (V4.after_ready e initial_world)) = 0.
Proof.
  intros Hsig Hrun. unfold V4.after_ready. rewrite Hsig.
  unfold mbind at 1, proc_bind at 1. rewrite Hrun.
  apply v4_run_clients_counts in Hrun as (_ & _ & Hstop).
  unfold V4.hold_and_release, mbind at 1, proc_bind at 1, get_world.
  rewrite Hstop. cbn [stop_requested initial_world negb].
  now rewrite v4_handle_exit_spec.
Qed.

(** A signal during the probe loop also ends in [handle_exit]. *)
Lemma interrupted_probe_exits_zero (SL : SocketLib) (DHCPV6_SERVER_IP : string)
    (fuel : nat) :
  (forall e : V4.env,
     V4.euid e = 0 ->
     wait_ready fuel (V4.elapsed e) (V4.check e) (V4.signal e) 0 = Interrupted ->
     exists w, V4.main fuel e = Some (Raise (SystemExit 0), w))
  /\ (forall e : V6.env,
        V6.euid e = 0 -> V6.debug e = false ->
        wait_ready fuel (V6.elapsed e) (V6.check e) (V6.signal e) 0
        = Interrupted ->
        exists w, V6.main DHCPV6_SERVER_IP fuel e
                  = Some (Raise (SystemExit 0), w)).
Proof.
  split.
  - intros e Heuid Hw. unfold V4.main. rewrite Heuid, Hw. simpl.
    rewrite v4_handle_exit_spec. eauto.
  - intros e Heuid Hdebug Hw. unfold V6.main. rewrite Heuid, Hdebug, Hw. simpl.
    rewrite v6_handle_exit_spec. eauto.
Qed.

(** C10.  A DHCPv6 run started as root, not in debug mode, whose readiness
    probe succeeds and which has at least one client to simulate, ends
    with exit status 1: the first transaction raises (the defect of C2),
    [asyncio.gather] re-raises, [__main__] only catches
    [KeyboardInterrupt], and [handle_exit] is never reached.  This
    non-zero exit is neither a readiness-probe failure nor the privilege
    check. *)
Theorem v6_run_exits_nonzero (SL : SocketLib) (DHCPV6_SERVER_IP : string)
    (e : V6.env) (fuel : nat) :
  V6.euid e = 0 -> V6.debug e = false -> V6.signal e = SigNever ->
  sleeps (V6.elapsed e) -> (7 <= fuel)%nat ->
  probe_succeeds (V6.elapsed e) (V6.check e) ->
  V6.population e <> [] ->
  wait_ready fuel (V6.elapsed e) (V6.check e) (V6.signal e) 0 = Ready
  /\ exists r w,
       V6.main DHCPV6_SERVER_IP fuel e = Some (r, w)
       /\ exit_status r = 1
       /\ stop_requested w = false
       /\ sent w = [].
Proof.
  intros Heuid Hdebug Hsig Hs Hfuel Hsome Hpop.
  assert (Hready : wait_ready fuel (V6.elapsed e) (V6.check e) (V6.signal e) 0
                   = Ready).
  { rewrite Hsig. now apply wait_ready_some. }
  split; [exact Hready|].
  unfold V6.main. rewrite Heuid, Hdebug, Hready. simpl negb. cbn iota.
  unfold V6.after_ready. rewrite Hsig.
  destruct (V6.population e) as [|[[[[d t0] i1] i2] s] pop] eqn:Hp;
    [contradiction|].
  unfold mbind at 1, proc_bind at 1. unfold V6.run_clients.
  cbn [fmap list_fmap gather V6.client_task].
  destruct (dhcpv6_client_logic_raises SL DHCPV6_SERVER_IP d t0 i1 i2 s
              initial_world) as (x & Hx & Hrun).
  rewrite Hrun. eexists. eexists. split; [reflexivity|].
  split; [now apply exit_status_exception|].
  cbn [snd].
  assert (Hsame : forall (tasks : list V6.client_input) (w : world V6.lease),
            snd (gather (V6.client_task DHCPV6_SERVER_IP <$> tasks) w) = w).
  { induction tasks as [|[[[[d' t'] i1'] i2'] s'] tasks IH]; intros w;
      [reflexivity|].
    cbn [fmap list_fmap gather V6.client_task].
    destruct (dhcpv6_client_logic_raises SL DHCPV6_SERVER_IP d' t' i1' i2' s' w)
      as (x' & _ & ->).
    cbn [snd]. apply IH. }
  rewrite Hsame. split; reflexivity.
Qed.

Lemma v6_run_exits_nonzero_witness :
  wait_ready 7 Samples.slow_clock Samples.ready_at_second_try SigNever 0
  = Ready
  /\ exists r w,
       V6.main (SL := Samples.socket_lib) "fe80::2" 7
         (Samples.v6_env Samples.ready_at_second_try) = Some (r, w)
       /\ exit_status r = 1
       /\ stop_requested w = false
       /\ sent w = [].
Proof.
  apply (v6_run_exits_nonzero Samples.socket_lib "fe80::2"
           (Samples.v6_env Samples.ready_at_second_try) 7);
    [reflexivity | reflexivity | reflexivity | exact slow_clock_sleeps | lia
    | exact ready_at_second_try_succeeds | discriminate].
Defined.

(** ** The scenarios of the specification on the DHCPv4 code *)

Example v4_scenario_success :
  exists discover request,
    V4.dhcp_client_logic (SL := Samples.socket_lib) Samples.mac Samples.xid
      Samples.v4_exchange initial_world
    = (Ok (), World [Samples.v4_lease] 1 0 false [discover; request])
    /\ v4_option (fst request) 50 240 = Some Samples.offered
    /\ v4_option (fst request) 54 240 = Some Samples.server.
Proof.
  eexists. eexists. split; [vm_compute; reflexivity|].
  split; vm_compute; reflexivity.
Qed.

Example v4_scenario_timeout :
  exists discover,
    V4.dhcp_client_logic (SL := Samples.socket_lib) Samples.mac Samples.xid
      [None] initial_world
    = (Ok (), World [] 0 1 false [discover]).
Proof. eexists. vm_compute. reflexivity. Qed.

Example v4_run_with_truncated_offer :
  exists discover,
    V4.main (SL := Samples.socket_lib) 1
      (V4.Env 0 (fun _ => 0%Q) (fun _ => true)
         [(Samples.mac, Samples.xid,
           [Some (Samples.truncated_offer, Samples.server_addr)])] SigNever)
    = Some (Raise IndexError, World [] 0 0 false [discover])
    /\ exit_status (Raise IndexError) = 1.
Proof. eexists. split; vm_compute; reflexivity. Qed.

(** * Further properties of the code *)

(** ** The BOOTP frame *)

Ltac explode l H :=
  repeat (destruct l as [|? l]; simpl in H; try discriminate H).

Lemma length_pack_s (n : nat) (s : bytes) : length (pack_s n s) = n.
Proof.
  unfold pack_s. rewrite length_take, length_app, length_replicate. lia.
Qed.

Lemma pack_int_ok (f : fmt) (v : N) :
  v < 256 ^ N.of_nat (fmt_size f) -> pack_int f v = Ok (be_bytes (fmt_size f) v).
Proof.
  intros Hv. unfold pack_int.
  now destruct (N.ltb_spec v (256 ^ N.of_nat (fmt_size f))); [|lia].
Qed.

Lemma pack_int_too_big (f : fmt) (v : N) :
  256 ^ N.of_nat (fmt_size f) <= v -> pack_int f v = Raise StructError.
Proof.
  intros Hv. unfold pack_int.
  now destruct (N.ltb_spec v (256 ^ N.of_nat (fmt_size f))); [lia|].
Qed.

Lemma build_bootp_ok (op yiaddr : N) (chaddr : bytes) (xid : N) :
  op < 256 -> xid < 2 ^ 32 -> yiaddr < 2 ^ 32 ->
  exists o b0 b1 b2 b3 y0 y1 y2 y3 hw,
    pack_int I xid = Ok [b0; b1; b2; b3]
    /\ pack_s 16 (chaddr ++ replicate 10 x00) = hw
    /\ length hw = 16%nat
    /\ V4.build_bootp op yiaddr chaddr xid
       = Ok ([o; x01; x06; x00; b0; b1; b2; b3; x00; x00; x80; x00;
              x00; x00; x00; x00; y0; y1; y2; y3]
             ++ replicate 8 x00 ++ hw ++ replicate 192 x00
             ++ [x63; x82; x53; x63]).
Proof.
  intros Hop Hxid Hy.
  destruct (pack_int_shape_I xid Hxid) as (b0 & b1 & b2 & b3 & Hpx & _).
  destruct (pack_int_shape_I yiaddr Hy) as (y0 & y1 & y2 & y3 & Hpy & _).
  exists (byte_of_N ((op / 256 ^ 0) mod 256)), b0, b1, b2, b3, y0, y1, y2, y3,
    (pack_s 16 (chaddr ++ replicate 10 x00)).
  split; [exact Hpx|]. split; [reflexivity|]. split; [apply length_pack_s|].
  unfold V4.build_bootp. cbn [struct_pack pack_field].
  rewrite Hpx, Hpy, (pack_int_ok B op) by exact Hop.
  generalize (pack_s 16 (chaddr ++ replicate 10 x00)). intros hw.
  vm_compute. reflexivity.
Qed.

Lemma build_bootp_raises (op yiaddr : N) (chaddr : bytes) (xid : N) :
  256 <= op \/ 2 ^ 32 <= xid \/ 2 ^ 32 <= yiaddr ->
  V4.build_bootp op yiaddr chaddr xid = Raise StructError.
Proof.
  intros Hbad. unfold V4.build_bootp. cbn [struct_pack pack_field].
  destruct (N.lt_ge_cases op 256) as [Hop|Hop].
  2:{ now rewrite (pack_int_too_big B op). }
  rewrite (pack_int_ok B op) by exact Hop.
  destruct (N.lt_ge_cases xid (2 ^ 32)) as [Hxid|Hxid].
  2:{ now rewrite (pack_int_too_big I xid). }
  rewrite (pack_int_ok I xid) by exact Hxid.
  destruct Hbad as [?|[?|Hy]]; try lia.
  now rewrite (pack_int_too_big I yiaddr).
Qed.

(** X1.  [build_bootp] succeeds exactly when [op] fits one byte and [xid]
    and [yiaddr] fit 32 bits.  What it returns is always 240 bytes long,
    whatever the length of [chaddr]: the transaction id at offset 4, the
    broadcast flag at offset 10, the hardware address field (cut or
    zero-padded to 16 bytes) at offset 28 and the magic cookie in the last
    four bytes, so that options appended to it start at offset 240. *)
Theorem build_bootp_layout (op yiaddr : N) (chaddr : bytes) (xid : N) :
  (is_ok (V4.build_bootp op yiaddr chaddr xid) = true
   <-> op < 256 /\ xid < 2 ^ 32 /\ yiaddr < 2 ^ 32)
  /\ forall bootp,
       V4.build_bootp op yiaddr chaddr xid = Ok bootp ->
       length bootp = 240%nat
       /\ Ok (slice 4 8 bootp) = pack_int I xid
       /\ slice 10 12 bootp = [x80; x00]
       /\ slice 28 44 bootp = pack_s 16 (chaddr ++ replicate 10 x00)
       /\ slice 236 240 bootp = [x63; x82; x53; x63].
Proof.
  assert (Hcases : (op < 256 /\ xid < 2 ^ 32 /\ yiaddr < 2 ^ 32)
                   \/ (256 <= op \/ 2 ^ 32 <= xid \/ 2 ^ 32 <= yiaddr)) by lia.
  destruct Hcases as [(Hop & Hxid & Hy) | Hbad].
  - destruct (build_bootp_ok op yiaddr chaddr xid Hop Hxid Hy)
      as (o & b0 & b1 & b2 & b3 & y0 & y1 & y2 & y3 & hw & Hpx & Hhw & Hlen & Hb).
    rewrite Hb, Hpx, Hhw. split; [split; [tauto | reflexivity]|].
    intros bootp [= <-]. clear Hb Hhw.
    explode hw Hlen.
    repeat apply conj; vm_compute; reflexivity.
  - rewrite (build_bootp_raises _ _ _ _ Hbad). split; [|discriminate].
    split; [discriminate | lia].
Qed.

Lemma build_bootp_layout_witness :
  exists bootp,
    V4.build_bootp 1 0 Samples.mac Samples.xid = Ok bootp
    /\ length bootp = 240%nat
    /\ Ok (slice 4 8 bootp) = pack_int I Samples.xid
    /\ slice 10 12 bootp = [x80; x00]
    /\ slice 28 44 bootp = pack_s 16 (Samples.mac ++ replicate 10 x00)
    /\ slice 236 240 bootp = [x63; x82; x53; x63].
Proof.
  eexists. split; [vm_compute; reflexivity|].
  apply (proj2 (build_bootp_layout 1 0 Samples.mac Samples.xid)).
  vm_compute. reflexivity.
Defined.

(** ** Packets built by [send_dhcp] *)

Lemma build_bootp_fields (op yiaddr : N) (chaddr : bytes) (xid : N)
    (bootp : bytes) :
  V4.build_bootp op yiaddr chaddr xid = Ok bootp ->
  length bootp = 240%nat /\ Ok (slice 4 8 bootp) = pack_int I xid.
Proof.
  assert (Hcases : (op < 256 /\ xid < 2 ^ 32 /\ yiaddr < 2 ^ 32)
                   \/ (256 <= op \/ 2 ^ 32 <= xid \/ 2 ^ 32 <= yiaddr)) by lia.
  destruct Hcases as [(Hop & Hxid & Hy) | Hbad].
  - destruct (build_bootp_ok op yiaddr chaddr xid Hop Hxid Hy)
      as (o & b0 & b1 & b2 & b3 & y0 & y1 & y2 & y3 & hw & Hpx & _ & Hlen & Hb).
    rewrite Hb, Hpx. intros [= <-]. explode hw Hlen.
    split; vm_compute; reflexivity.
  - now rewrite (build_bootp_raises _ _ _ _ Hbad).
Qed.

Lemma bytes_of_int_ok (n : N) (b : bytes) :
  bytes_of_int n = Ok b -> n < 256 /\ b = [byte_of_N n].
Proof.
  unfold bytes_of_int. destruct (N.ltb_spec n 256); [|discriminate].
  now intros [= <-].
Qed.

Lemma dhcp_packet_shape (SL : SocketLib) (msg_type : N) (mac : bytes)
    (xid : N) (requested_ip server_id : option string) (pkt : bytes)
    (dest : addr) :
  V4.dhcp_packet msg_type mac xid requested_ip server_id = Ok (pkt, dest) ->
  exists bootp rest,
    V4.build_bootp 1 0 mac xid = Ok bootp
    /\ msg_type < 256
    /\ pkt = bootp ++ [x35; x01; byte_of_N msg_type] ++ [x3d; x07; x01]
               ++ mac ++ rest ++ [xff]
    /\ dest = ("255.255.255.255"%string, 67).
Proof.
  unfold V4.dhcp_packet.
  destruct (V4.build_bootp 1 0 mac xid) as [bootp|]; [|discriminate].
  cbn [mbind result_bind].
  destruct (bytes_of_int msg_type) as [t|] eqn:Ht; [|discriminate].
  apply bytes_of_int_ok in Ht as [Hmt ->].
  cbn [mbind result_bind].
  set (o1 := match requested_ip with Some ip => _ | None => _ end).
  assert (Ho1 : forall o, o1 = Ok o ->
            exists r, o = ([x35; x01] ++ [byte_of_N msg_type])
                            ++ [x3d; x07; x01] ++ mac ++ r).
  { subst o1. intros o. destruct requested_ip as [ip|].
    - destruct (truthy_str ip).
      + destruct (inet_aton ip) as [a|]; [|discriminate].
        cbn [lift_os mbind result_bind].
        intros [= <-]. exists ([x32; x04] ++ a).
        now rewrite <- !app_assoc.
      + intros [= <-]. exists []. now rewrite app_nil_r.
    - intros [= <-]. exists []. now rewrite app_nil_r. }
  destruct o1 as [o|]; [|discriminate].
  destruct (Ho1 o eq_refl) as [r ->]. clear Ho1.
  cbn [mbind result_bind].
  set (o2 := match server_id with Some srv => _ | None => _ end).
  assert (Ho2 : forall o, o2 = Ok o ->
            exists r', o = ([x35; x01] ++ [byte_of_N msg_type])
                            ++ [x3d; x07; x01] ++ mac ++ r').
  { subst o2. intros o. destruct server_id as [srv|].
    - destruct (truthy_str srv).
      + destruct (inet_aton srv) as [a|]; [|discriminate].
        cbn [lift_os mbind result_bind].
        intros [= <-]. exists (r ++ [x36; x04] ++ a).
        now rewrite <- !app_assoc.
      + intros [= <-]. eauto.
    - intros [= <-]. eauto. }
  destruct o2 as [o|]; [|discriminate].
  destruct (Ho2 o eq_refl) as [r' ->]. clear Ho2.
  cbn [mbind result_bind]. intros [= <- <-].
  exists bootp.
  exists (if msg_type =? 1 then r' ++ [x37; x03; x03; x01; x06] else r').
  repeat split; try assumption.
  destruct (msg_type =? 1); f_equal; simpl; now rewrite <- ?app_assoc.
Qed.

Lemma scan_step_shift (pre d : bytes) (ty : N) (i : nat) :
  V4.scan_step (pre ++ d) ty (length pre + i) = V4.scan_step d ty i.
Proof.
  unfold V4.scan_step.
  replace (length pre + i + 2)%nat with (length pre + (i + 2))%nat by lia.
  replace (length pre + i + 1)%nat with (length pre + (i + 1))%nat by lia.
  now rewrite !getitem_app_shift.
Qed.

(** The scan from an index only looks at the bytes from that index on. *)
Lemma scan_options_shift (pre d : bytes) (ty : N) (i : nat) :
  V4.scan_options (pre ++ d) ty (length pre + i) = V4.scan_options d ty i.
Proof.
  remember (length d - i)%nat as n eqn:Hn. revert i Hn.
  induction n as [n IH] using lt_wf_ind. intros i ->.
  rewrite (scan_options_unfold (pre ++ d)), (scan_options_unfold d).
  rewrite scan_step_shift, length_app.
  destruct (decide _), (decide (i < _)%nat); try lia; try reflexivity.
  destruct (V4.scan_step d ty i) as [|len]; [reflexivity|].
  rewrite <- Nat.add_assoc. eapply IH; [|reflexivity]. lia.
Qed.

(** X2.  Whatever message type, hardware address and addresses it is
    given, a packet that [send_dhcp] manages to build is addressed to
    255.255.255.255:67, has the packed transaction id in bytes 4..7, ends
    with the end tag, and is recognised by the scan of [wait_for_msg] as a
    message of its own type, without a fault. *)
Theorem dhcp_packet_well_formed (SL : SocketLib) (msg_type : N) (mac : bytes)
    (xid : N) (requested_ip server_id : option string) (pkt : bytes)
    (dest : addr) :
  V4.dhcp_packet msg_type mac xid requested_ip server_id = Ok (pkt, dest) ->
  dest = ("255.255.255.255"%string, 67)
  /\ Ok (slice 4 8 pkt) = pack_int I xid
  /\ last pkt = Some xff
  /\ V4.scan_options pkt msg_type 240 = V4.ScanFound.
Proof.
  intros (bootp & rest & Hb & Hmt & -> & ->)%dhcp_packet_shape.
  apply build_bootp_fields in Hb as [Hlen Hxid].
  split; [reflexivity|]. split; [|split].
  - rewrite <- Hxid. f_equal. unfold slice.
    rewrite drop_app_le, take_app_le; try reflexivity.
    + rewrite length_drop. lia.
    + lia.
  - rewrite !app_assoc. apply last_snoc.
  - replace 240%nat with (length bootp + 0)%nat by lia.
    rewrite scan_options_shift, scan_options_unfold.
    destruct (decide _) as [_|Hge]; [|simpl in Hge; lia].
    unfold V4.scan_step. cbn [app getitem lookup list_lookup Nat.add].
    change (Byte.to_N x35) with 53. cbn [N.eqb Pos.eqb].
    rewrite byte_of_N_to_N by exact Hmt. cbn [mbind result_bind].
    now rewrite N.eqb_refl.
Qed.

Lemma dhcp_packet_well_formed_witness :
  exists pkt,
    V4.dhcp_packet (SL := Samples.socket_lib) 3 Samples.mac Samples.xid
      (Some "10.0.0.5"%string) (Some "10.0.0.1"%string)
    = Ok (pkt, ("255.255.255.255"%string, 67))
    /\ Ok (slice 4 8 pkt) = pack_int I Samples.xid
    /\ last pkt = Some xff
    /\ V4.scan_options pkt 3 240 = V4.ScanFound.
Proof.
  eexists. split; [vm_compute; reflexivity|].
  refine (proj2 (dhcp_packet_well_formed Samples.socket_lib 3 Samples.mac
                   Samples.xid (Some "10.0.0.5"%string)
                   (Some "10.0.0.1"%string) _ _ _)).
  vm_compute. reflexivity.
Defined.

(** ** What the DHCPv4 scan matches *)

Lemma scan_found_entry (data : bytes) (ty : N) (index : nat) :
  V4.scan_options data ty index = V4.ScanFound ->
  exists i, (index <= i)%nat
            /\ getitem data i = Ok 53 /\ getitem data (i + 2) = Ok ty.
Proof.
  remember (length data - index)%nat as n eqn:Hn. revert index Hn.
  induction n as [n IH] using lt_wf_ind. intros index ->.
  rewrite scan_options_unfold.
  destruct (decide _) as [Hlt|]; [|discriminate].
  unfold V4.scan_step.
  destruct (getitem data index) as [tag|] eqn:Htag; [|discriminate].
  destruct (tag =? 255); [discriminate|].
  destruct (N.eqb_spec tag 53) as [->|_].
  - destruct (getitem data (index + 2)) as [t|] eqn:Ht; [|discriminate].
    cbn [mbind result_bind]. destruct (N.eqb_spec t ty) as [->|_].
    + intros _. exists index. auto.
    + destruct (getitem data (index + 1)) as [len|]; [|discriminate].
      intros Hrec.
      apply (IH (length data - (index + (2 + N.to_nat len)))%nat) in Hrec
        as (i & Hi & H53 & Hty); [|lia|reflexivity].
      exists i. split; [lia | auto].
  - destruct (getitem data (index + 1)) as [len|]; [|discriminate].
    intros Hrec.
    apply (IH (length data - (index + (2 + N.to_nat len)))%nat) in Hrec
      as (i & Hi & H53 & Hty); [|lia|reflexivity].
    exists i. split; [lia | auto].
Qed.

Lemma getitem_ok_lt (data : bytes) (i : nat) (v : N) :
  getitem data i = Ok v -> (i < length data)%nat.
Proof.
  unfold getitem. destruct (data !! i) eqn:Hl; [|discriminate].
  intros _. now apply lookup_lt_Some in Hl.
Qed.

(** X3.  A datagram that [wait_for_msg] returns has, at some index from
    240 on, the tag 53 followed two bytes later by the awaited type.  It
    is therefore at least 243 bytes long, so the [offer[16:20]] that
    [dhcp_client_logic] hands to [inet_ntoa] always has four bytes. *)
Theorem wait_for_msg_returns_typed (sock rest : sock_queue) (xid ty : N)
    (data : bytes) (a : addr) :
  V4.wait_for_msg sock xid ty = (Ok (Some (data, a)), rest) ->
  (exists i, (240 <= i)%nat
             /\ getitem data i = Ok 53 /\ getitem data (i + 2) = Ok ty)
  /\ (243 <= length data)%nat
  /\ length (slice 16 20 data) = 4%nat
  /\ truthy data = true.
Proof.
  intros [_ Hscan]%wait_for_msg_match.
  destruct (scan_found_entry _ _ _ Hscan) as (i & Hi & H53 & Hty).
  pose proof (getitem_ok_lt _ _ _ Hty) as Hlen.
  split; [eauto|]. split; [lia|]. split.
  - rewrite length_slice. lia.
  - destruct data; [simpl in Hlen; lia | reflexivity].
Qed.

Lemma wait_for_msg_returns_typed_witness :
  (exists i, (240 <= i)%nat
             /\ getitem Samples.offer i = Ok 53
             /\ getitem Samples.offer (i + 2) = Ok 2)
  /\ (243 <= length Samples.offer)%nat
  /\ length (slice 16 20 Samples.offer) = 4%nat
  /\ truthy Samples.offer = true.
Proof.
  apply (wait_for_msg_returns_typed
           [Some (Samples.ack, Samples.server_addr);
            Some (Samples.offer, Samples.server_addr)]
           [] Samples.xid 2 Samples.offer Samples.server_addr).
  vm_compute. reflexivity.
Defined.

Lemma scan_entry (e : N * bytes) (rest : bytes) (ty : N) :
  v4_entry_ok e ->
  V4.scan_options (v4_entry e ++ rest) ty 0
  = if v4_entry_has_type ty e then V4.ScanFound
    else V4.scan_options rest ty 0.
Proof.
  destruct e as [tag value]. unfold v4_entry_ok, v4_entry_has_type, v4_entry.
  cbn [fst snd]. intros (Htag & Hlen & Hval).
  rewrite scan_options_unfold.
  destruct (decide _) as [_|Hge]; [|simpl in Hge; lia].
  unfold V4.scan_step. cbn [app getitem lookup list_lookup Nat.add].
  rewrite !byte_of_N_to_N by lia.
  destruct (N.eqb_spec tag 255) as [|_]; [lia|].
  assert (Hnext :
    V4.scan_options
      (byte_of_N tag :: byte_of_N (N.of_nat (length value)) :: value ++ rest)
      ty (2 + N.to_nat (N.of_nat (length value)))
    = V4.scan_options rest ty 0).
  { rewrite Nat2N.id.
    change (byte_of_N tag :: byte_of_N (N.of_nat (length value))
              :: value ++ rest)
      with ([byte_of_N tag; byte_of_N (N.of_nat (length value))]
              ++ value ++ rest).
    rewrite app_assoc.
    replace (2 + length value)%nat
      with (length ([byte_of_N tag; byte_of_N (N.of_nat (length value))]
                      ++ value) + 0)%nat
      by (rewrite length_app; simpl; lia).
    apply scan_options_shift. }
  destruct (N.eqb_spec tag 53) as [->|_]; cbn [andb].
  - destruct value as [|b value]; [now exfalso; apply Hval|].
    unfold getitem at 1. cbn [app lookup list_lookup mbind result_bind].
    destruct (Byte.to_N b =? ty); [reflexivity|]. exact Hnext.
  - exact Hnext.
Qed.

(** X4.  On a datagram whose option area, from offset 240 on, is a
    sequence of complete entries followed by the end tag, the scan of
    [wait_for_msg] raises nothing and answers exactly by the entries: it
    reports a match when some message-type entry has the awaited type as
    its first value byte, and otherwise ends at the end tag; what follows
    the end tag is never looked at. *)
Theorem scan_well_formed_stream (pre tail : bytes) (es : list (N * bytes))
    (ty : N) :
  length pre = 240%nat ->
  Forall v4_entry_ok es ->
  V4.scan_options (pre ++ v4_entries es ++ xff :: tail) ty 240
  = if existsb (v4_entry_has_type ty) es then V4.ScanFound else V4.ScanEnd.
Proof.
  intros Hpre Hes.
  replace 240%nat with (length pre + 0)%nat by lia.
  rewrite scan_options_shift. clear Hpre pre.
  induction Hes as [|e es He _ IH].
  - cbn. rewrite scan_options_unfold.
    destruct (decide _) as [_|Hge]; [reflexivity | simpl in Hge; lia].
  - unfold v4_entries. cbn [fmap list_fmap concat existsb].
    rewrite <- app_assoc, scan_entry by exact He.
    destruct (v4_entry_has_type ty e); [reflexivity|]. exact IH.
Qed.

Lemma scan_well_formed_stream_witness :
  V4.scan_options
    (replicate 240 x00
       ++ v4_entries [(61, x01 :: Samples.mac); (53, [x05]);
                      (54, Samples.server)]
       ++ xff :: [x35; x01])
    5 240
  = V4.ScanFound.
Proof.
  apply (scan_well_formed_stream (replicate 240 x00) [x35; x01]
           [(61, x01 :: Samples.mac); (53, [x05]); (54, Samples.server)] 5).
  - reflexivity.
  - repeat constructor; cbn; try lia; discriminate.
Defined.

(** X5.  A datagram of at most 240 bytes (an empty one included) has no
    option area: [wait_for_msg] drops it without a fault, whatever its
    transaction id, and goes on with the next datagram. *)
Theorem wait_for_msg_skips_short (data : bytes) (a : addr) (rest : sock_queue)
    (xid ty : N) :
  xid < 2 ^ 32 -> (length data <= 240)%nat ->
  V4.wait_for_msg (Some (data, a) :: rest) xid ty
  = V4.wait_for_msg rest xid ty.
Proof.
  intros Hxid Hlen. cbn [V4.wait_for_msg].
  rewrite (pack_int_ok I xid) by exact Hxid.
  destruct (decide _); [reflexivity|].
  rewrite scan_options_unfold.
  destruct (decide _) as [Hlt|_]; [lia | reflexivity].
Qed.

Lemma wait_for_msg_skips_short_witness :
  V4.wait_for_msg [Some ([], Samples.server_addr);
                   Some (Samples.offer, Samples.server_addr)] Samples.xid 2
  = V4.wait_for_msg [Some (Samples.offer, Samples.server_addr)] Samples.xid 2.
Proof.
  apply (wait_for_msg_skips_short [] Samples.server_addr
           [Some (Samples.offer, Samples.server_addr)] Samples.xid 2).
  - reflexivity.
  - simpl. lia.
Defined.

(** ** The DHCPv4 transaction *)

Lemma dhcp_packet_dest (SL : SocketLib) (msg_type : N) (mac : bytes) (xid : N)
    (requested_ip server_id : option string) (d : datagram) :
  V4.dhcp_packet msg_type mac xid requested_ip server_id = Ok d ->
  snd d = ("255.255.255.255"%string, 67).
Proof.
  destruct d as [pkt dest].
  now intros (bootp & rest & _ & _ & _ & ->)%dhcp_packet_shape.
Qed.

Lemma wait_for_msg_truthy (sock rest : sock_queue) (xid ty : N) (data : bytes)
    (a : addr) :
  V4.wait_for_msg sock xid ty = (Ok (Some (data, a)), rest) ->
  truthy data = true.
Proof.
  intros [_ Hscan]%wait_for_msg_match.
  destruct (scan_found_entry _ _ _ Hscan) as (i & _ & H53 & _).
  apply getitem_ok_lt in H53. destruct data; [simpl in H53; lia | reflexivity].
Qed.

(** X6.  Whether it returns or raises, a DHCPv4 transaction only adds to
    the traffic, at most two datagrams, all addressed to
    255.255.255.255:67; it leaves [stop_requested] alone and the leases
    already in [clients] where they are. *)
Theorem dhcp_client_logic_footprint (SL : SocketLib) (mac : bytes) (xid : N)
    (sock : sock_queue) (w : world V4.lease) :
  let w' := snd (V4.dhcp_client_logic mac xid sock w) in
  (exists ds, sent w' = sent w ++ ds
              /\ (length ds <= 2)%nat
              /\ all_sent_to ("255.255.255.255"%string, 67) ds)
  /\ stop_requested w' = stop_requested w
  /\ exists ls, clients w' = clients w ++ ls.
Proof.
  unfold V4.dhcp_client_logic, V4.send_dhcp, all_sent_to.
  unfold mbind, proc_bind, lift, sendto, incr_failed, incr_success,
    clients_append.
  cbn zeta.
  repeat proc_step;
    (split;
     [ eexists; split; [rewrite <- ?app_assoc; try reflexivity;
                        symmetry; apply app_nil_r|];
       split; [simpl; lia|];
       repeat constructor; eapply dhcp_packet_dest; eassumption
     | split; [reflexivity|]; eexists; try reflexivity;
       symmetry; apply app_nil_r ]).
Qed.

(** X7.  A DHCPv4 transaction that returns has incremented exactly one of
    the two counters, by one: either [success], and then it appended
    exactly one lease to [clients], or [failed], and then [clients] is
    unchanged.  A transaction that raises has touched neither. *)
Theorem dhcp_client_logic_counts_once (SL : SocketLib) (mac : bytes) (xid : N)
    (sock : sock_queue) (w w' : world V4.lease) (r : result unit) :
  V4.dhcp_client_logic mac xid sock w = (r, w') ->
  match r with
  | Ok _ => counted_success w w' \/ counted_failure w w'
  | Raise _ => uncounted w w'
  end.
Proof.
  destruct r as [[]|e]; intros Hrun.
  - eapply dhcp_client_logic_returns; eauto.
  - eapply dhcp_client_logic_raises; eauto.
Qed.

Lemma dhcp_client_logic_counts_once_witness :
  exists w',
    V4.dhcp_client_logic (SL := Samples.socket_lib) Samples.mac Samples.xid
      Samples.v4_exchange initial_world = (Ok (), w')
    /\ (counted_success initial_world w' \/ counted_failure initial_world w').
Proof.
  eexists. split; [vm_compute; reflexivity|].
  refine (dhcp_client_logic_counts_once Samples.socket_lib Samples.mac
            Samples.xid Samples.v4_exchange initial_world _ (Ok ()) _).
  vm_compute. reflexivity.
Defined.

(** X8.  When every transaction of a DHCPv4 population returns,
    [run_clients] returns, the two counters have grown together by the
    number of clients, and [clients] has grown by the number of
    successes: from the initial globals, [success + failed] is the
    population size and [len(clients)] is [success]. *)
Theorem run_clients_accounts (SL : SocketLib)
    (population : list V4.client_input) (w : world V4.lease) :
  V4.run_clients population initial_world = (Ok (), w) ->
  stats_success w + stats_failed w = N.of_nat (length population)
  /\ N.of_nat (length (clients w)) = stats_success w.
Proof.
  intros (Hsum & Hreg & _)%v4_run_clients_counts.
  cbn in Hsum, Hreg. lia.
Qed.

Lemma run_clients_accounts_witness :
  exists w,
    V4.run_clients (SL := Samples.socket_lib)
      [(Samples.mac, Samples.xid, Samples.v4_exchange);
       (Samples.mac, 7, [None])] initial_world = (Ok (), w)
    /\ stats_success w + stats_failed w = 2
    /\ N.of_nat (length (clients w)) = stats_success w.
Proof.
  eexists. split; [vm_compute; reflexivity|].
  refine (run_clients_accounts Samples.socket_lib
            [(Samples.mac, Samples.xid, Samples.v4_exchange);
             (Samples.mac, 7, [None])] _ _).
  vm_compute. reflexivity.
Defined.

(** X9.  The successful path of a DHCPv4 transaction: once an OFFER and
    then an ACK for the transaction id arrive, the transaction has sent
    the DISCOVER and a REQUEST naming the offered address (the text form of
    bytes 16..19 of the OFFER) and, as server identifier, the address the
    OFFER came from; it counts one success and records the lease (hardware
    address, transaction id, offered address, server address). *)
Theorem dhcp_client_logic_success (SL : SocketLib) (mac : bytes) (xid : N)
    (sock rest1 rest2 : sock_queue) (w : world V4.lease)
    (offer ack : bytes) (addr addr2 : addr) (ip : string) (d1 d2 : datagram) :
  V4.dhcp_packet 1 mac xid None None = Ok d1 ->
  V4.wait_for_msg sock xid 2 = (Ok (Some (offer, addr)), rest1) ->
  inet_ntoa (slice 16 20 offer) = Some ip ->
  V4.dhcp_packet 3 mac xid (Some ip) (Some (fst addr)) = Ok d2 ->
  V4.wait_for_msg rest1 xid 5 = (Ok (Some (ack, addr2)), rest2) ->
  V4.dhcp_client_logic mac xid sock w
  = (Ok (),
     World (clients w ++ [V4.Lease mac xid ip (fst addr)])
       (stats_success w + 1) (stats_failed w) (stop_requested w)
       (sent w ++ [d1; d2])).
Proof.
  intros Hd1 Hw1 Hip Hd2 Hw2.
  pose proof (wait_for_msg_truthy _ _ _ _ _ _ Hw1) as Ht1.
  pose proof (wait_for_msg_truthy _ _ _ _ _ _ Hw2) as Ht2.
  unfold V4.dhcp_client_logic, V4.send_dhcp.
  unfold mbind, proc_bind, lift, sendto, incr_success, clients_append.
  rewrite Hd1. cbn [fst snd]. rewrite Hw1, Ht1. cbn [negb].
  rewrite Hip. cbn [lift_os]. rewrite Hd2. cbn [fst snd].
  rewrite Hw2, Ht2. cbn [negb clients stats_success stats_failed
                          stop_requested sent].
  now rewrite <- app_assoc.
Qed.

Lemma dhcp_client_logic_success_witness :
  exists d1 d2,
    V4.dhcp_client_logic (SL := Samples.socket_lib) Samples.mac Samples.xid
      Samples.v4_exchange initial_world
    = (Ok (), World [Samples.v4_lease] 1 0 false [d1; d2]).
Proof.
  eexists. eexists.
  refine (dhcp_client_logic_success Samples.socket_lib Samples.mac Samples.xid
            Samples.v4_exchange [Some (Samples.ack, Samples.server_addr)] []
            initial_world Samples.offer Samples.ack Samples.server_addr
            Samples.server_addr "10.0.0.5" _ _ _ _ _ _ _);
    vm_compute; reflexivity.
Defined.

(** X10.  The failing paths of a DHCPv4 transaction: if the wait for the
    OFFER times out, only the DISCOVER has been sent; if the OFFER arrives
    but the wait for the ACK times out, the DISCOVER and the REQUEST have
    been sent.  Either way the transaction returns with one more in
    [failed] and no lease recorded. *)
Theorem dhcp_client_logic_timeout (SL : SocketLib) (mac : bytes) (xid : N)
    (sock rest1 : sock_queue) (w : world V4.lease) (d1 : datagram) :
  V4.dhcp_packet 1 mac xid None None = Ok d1 ->
  (V4.wait_for_msg sock xid 2 = (Ok None, rest1) ->
   V4.dhcp_client_logic mac xid sock w
   = (Ok (),
      World (clients w) (stats_success w) (stats_failed w + 1)
        (stop_requested w) (sent w ++ [d1])))
  /\ (forall offer addr ip d2 rest2,
        V4.wait_for_msg sock xid 2 = (Ok (Some (offer, addr)), rest1) ->
        inet_ntoa (slice 16 20 offer) = Some ip ->
        V4.dhcp_packet 3 mac xid (Some ip) (Some (fst addr)) = Ok d2 ->
        V4.wait_for_msg rest1 xid 5 = (Ok None, rest2) ->
        V4.dhcp_client_logic mac xid sock w
        = (Ok (),
           World (clients w) (stats_success w) (stats_failed w + 1)
             (stop_requested w) (sent w ++ [d1; d2]))).
Proof.
  intros Hd1. split.
  - intros Hw1. unfold V4.dhcp_client_logic, V4.send_dhcp.
    unfold mbind, proc_bind, lift, sendto, incr_failed.
    rewrite Hd1. cbn [fst snd]. now rewrite Hw1.
  - intros offer addr ip d2 rest2 Hw1 Hip Hd2 Hw2.
    pose proof (wait_for_msg_truthy _ _ _ _ _ _ Hw1) as Ht1.
    unfold V4.dhcp_client_logic, V4.send_dhcp.
    unfold mbind, proc_bind, lift, sendto, incr_failed.
    rewrite Hd1. cbn [fst snd]. rewrite Hw1, Ht1. cbn [negb].
    rewrite Hip. cbn [lift_os]. rewrite Hd2. cbn [fst snd].
    rewrite Hw2. cbn [clients stats_success stats_failed stop_requested sent].
    now rewrite <- app_assoc.
Qed.

Lemma dhcp_client_logic_timeout_witness :
  exists d1 d2,
    V4.dhcp_client_logic (SL := Samples.socket_lib) Samples.mac Samples.xid
      [None] initial_world
    = (Ok (), World [] 0 1 false [d1])
    /\ V4.dhcp_client_logic (SL := Samples.socket_lib) Samples.mac Samples.xid
         [Some (Samples.offer, Samples.server_addr)] initial_world
       = (Ok (), World [] 0 1 false [d1; d2]).
Proof.
  eexists. eexists. split.
  - refine (proj1 (dhcp_client_logic_timeout Samples.socket_lib Samples.mac
                     Samples.xid [None] [] initial_world _ _) _);
      vm_compute; reflexivity.
  - refine (proj2 (dhcp_client_logic_timeout Samples.socket_lib Samples.mac
                     Samples.xid [Some (Samples.offer, Samples.server_addr)]
                     [] initial_world _ _)
              Samples.offer Samples.server_addr "10.0.0.5" _ [] _ _ _ _);
      vm_compute; reflexivity.
Defined.

(** X11.  The options of the two messages a transaction sends, read back
    with the walk of the scan.  A REQUEST for a (non-empty) offered
    address and server address carries message type 3, the hardware
    address after the hardware type 1 in option 61, the converted offered
    address in option 50 and the converted server address in option 54,
    and no parameter request list; a DISCOVER carries message type 1, the
    same option 61, the parameter request list 3, 1, 6 in option 55 and
    neither option 50 nor option 54. *)
Theorem request_and_discover_options (SL : SocketLib) (mac : bytes) (xid : N)
    (ip srv : string) (a s : bytes) :
  length mac = 6%nat -> xid < 2 ^ 32 ->
  truthy_str ip = true -> truthy_str srv = true ->
  inet_aton ip = Some a -> length a = 4%nat ->
  inet_aton srv = Some s -> length s = 4%nat ->
  (exists pkt,
     V4.dhcp_packet 3 mac xid (Some ip) (Some srv)
     = Ok (pkt, ("255.255.255.255"%string, 67))
     /\ v4_option pkt 53 240 = Some [x03]
     /\ v4_option pkt 61 240 = Some (x01 :: mac)
     /\ v4_option pkt 50 240 = Some a
     /\ v4_option pkt 54 240 = Some s
     /\ v4_option pkt 55 240 = None)
  /\ (exists pkt,
        V4.dhcp_packet 1 mac xid None None
        = Ok (pkt, ("255.255.255.255"%string, 67))
        /\ v4_option pkt 53 240 = Some [x01]
        /\ v4_option pkt 61 240 = Some (x01 :: mac)
        /\ v4_option pkt 55 240 = Some [x03; x01; x06]
        /\ v4_option pkt 50 240 = None
        /\ v4_option pkt 54 240 = None).
Proof.
  intros Hmac Hxid Hip Hsrv Ha Hla Hs Hls.
  destruct mac as [|m0 [|m1 [|m2 [|m3 [|m4 [|m5 [|]]]]]]]; try discriminate.
  destruct a as [|a0 [|a1 [|a2 [|a3 [|]]]]]; try discriminate.
  destruct s as [|s0 [|s1 [|s2 [|s3 [|]]]]]; try discriminate.
  destruct (pack_int_shape_I xid Hxid) as (b0 & b1 & b2 & b3 & Hpack & _).
  split.
  - unfold V4.dhcp_packet, V4.build_bootp.
    cbn [struct_pack pack_field]. rewrite Hpack, Hip, Hsrv, Ha, Hs.
    eexists. split; [vm_compute; reflexivity|].
    repeat apply conj; vm_compute; reflexivity.
  - unfold V4.dhcp_packet, V4.build_bootp.
    cbn [struct_pack pack_field]. rewrite Hpack.
    eexists. split; [vm_compute; reflexivity|].
    repeat apply conj; vm_compute; reflexivity.
Qed.

Lemma request_and_discover_options_witness :
  (exists pkt,
     V4.dhcp_packet (SL := Samples.socket_lib) 3 Samples.mac Samples.xid
       (Some "10.0.0.5"%string) (Some "10.0.0.1"%string)
     = Ok (pkt, ("255.255.255.255"%string, 67))
     /\ v4_option pkt 53 240 = Some [x03]
     /\ v4_option pkt 61 240 = Some (x01 :: Samples.mac)
     /\ v4_option pkt 50 240 = Some Samples.offered
     /\ v4_option pkt 54 240 = Some Samples.server
     /\ v4_option pkt 55 240 = None)
  /\ (exists pkt,
        V4.dhcp_packet (SL := Samples.socket_lib) 1 Samples.mac Samples.xid
          None None
        = Ok (pkt, ("255.255.255.255"%string, 67))
        /\ v4_option pkt 53 240 = Some [x01]
        /\ v4_option pkt 61 240 = Some (x01 :: Samples.mac)
        /\ v4_option pkt 55 240 = Some [x03; x01; x06]
        /\ v4_option pkt 50 240 = None
        /\ v4_option pkt 54 240 = None).
Proof.
  apply (request_and_discover_options Samples.socket_lib Samples.mac
           Samples.xid "10.0.0.5" "10.0.0.1" Samples.offered Samples.server);
    reflexivity.
Defined.

(** ** The DHCPv4 health check *)

Lemma scan_options_raise (data : bytes) (ty : N) (index : nat) (e : exn) :
  V4.scan_options data ty index = V4.ScanRaise e -> e = IndexError.
Proof.
  remember (length data - index)%nat as n eqn:Hn. revert index Hn.
  induction n as [n IH] using lt_wf_ind. intros index ->.
  rewrite scan_options_unfold.
  destruct (decide _) as [Hlt|]; [|discriminate].
  unfold V4.scan_step, getitem.
  destruct (data !! index); [|now intros [= <-]].
  destruct (_ =? 255); [discriminate|].
  destruct (_ =? 53).
  - destruct (data !! (index + 2)%nat); [|now intros [= <-]].
    cbn [mbind result_bind]. destruct (_ =? ty); [discriminate|].
    destruct (data !! (index + 1)%nat) as [len|]; [|now intros [= <-]].
    apply (IH (length data - (index + (2 + N.to_nat (Byte.to_N len))))%nat);
      [lia | reflexivity].
  - destruct (data !! (index + 1)%nat) as [len|]; [|now intros [= <-]].
    apply (IH (length data - (index + (2 + N.to_nat (Byte.to_N len))))%nat);
      [lia | reflexivity].
Qed.

Lemma wait_for_msg_exception (sock rest : sock_queue) (xid ty : N) (e : exn) :
  V4.wait_for_msg sock xid ty = (Raise e, rest) -> is_exception e.
Proof.
  induction sock as [|[[data addr]|] sock IH]; cbn [V4.wait_for_msg];
    try discriminate.
  destruct (pack_int I xid) as [want|e'] eqn:Hp.
  - destruct (decide _); [exact IH|].
    destruct (V4.scan_options data ty 240) eqn:Hscan; try discriminate.
    + exact IH.
    + intros [= <- <-]. apply scan_options_raise in Hscan. now subst.
  - intros [= <- <-]. apply pack_int_raise in Hp. now subst.
Qed.

Lemma wait_for_msg_suffix (sock rest : sock_queue) (xid ty : N)
    (r : result (option datagram)) :
  V4.wait_for_msg sock xid ty = (r, rest) -> exists pre, sock = pre ++ rest.
Proof.
  revert r.
  induction sock as [|[[data addr]|] sock IH]; intros r;
    cbn [V4.wait_for_msg].
  - intros [= <- <-]. now exists [].
  - assert (Hstep : forall r0, V4.wait_for_msg sock xid ty = (r0, rest) ->
              exists pre, Some (data, addr) :: sock = pre ++ rest).
    { intros r0 (pre & ->)%IH. now exists (Some (data, addr) :: pre). }
    assert (Hhere : exists pre, Some (data, addr) :: sock = pre ++ sock)
      by now exists [Some (data, addr)].
    destruct (pack_int I xid) as [want|e'].
    + destruct (decide _); [apply Hstep|].
      destruct (V4.scan_options data ty 240); try apply Hstep;
        now intros [= <- <-].
    + now intros [= <- <-].
  - intros [= <- <-]. now exists [None].
Qed.

Lemma wait_for_msg_elem (sock rest : sock_queue) (xid ty : N) (d : datagram) :
  V4.wait_for_msg sock xid ty = (Ok (Some d), rest) -> Some d ∈ sock.
Proof.
  induction sock as [|[[data addr]|] sock IH]; cbn [V4.wait_for_msg];
    try discriminate.
  assert (Hstep : V4.wait_for_msg sock xid ty = (Ok (Some d), rest) ->
            Some d ∈ Some (data, addr) :: sock).
  { intros Hin%IH. now right. }
  destruct (pack_int I xid) as [want|e']; [|discriminate].
  destruct (decide _); [exact Hstep|].
  destruct (V4.scan_options data ty 240); try exact Hstep; try discriminate.
  intros [= <- <-]. now left.
Qed.

Lemma dhcp_packet_exception (SL : SocketLib) (msg_type : N) (mac : bytes)
    (xid : N) (requested_ip server_id : option string) (e : exn) :
  V4.dhcp_packet msg_type mac xid requested_ip server_id = Raise e ->
  is_exception e.
Proof.
  revert e. unfold V4.dhcp_packet, V4.build_bootp.
  destruct requested_ip, server_id; only_exceptions.
Qed.

Lemma discover_packet_bytes (SL : SocketLib) (mac : bytes) (xid : N)
    (d : datagram) :
  V4.dhcp_packet 1 mac xid None None = Ok d ->
  exists packet,
    V4.build_bootp 1 0 mac xid = Ok packet
    /\ fst d = packet ++ [x35; x01; x01] ++ [x3d; x07; x01] ++ mac
                 ++ [x37; x03; x03; x01; x06] ++ [xff].
Proof.
  unfold V4.dhcp_packet.
  destruct (V4.build_bootp 1 0 mac xid) as [packet|]; [|discriminate].
  cbn. intros [= <-]. exists packet. split; [reflexivity|].
  cbn. now rewrite <- !app_assoc.
Qed.

Lemma world_sent_nil {L} (w : world L) :
  World (clients w) (stats_success w) (stats_failed w) (stop_requested w)
    (sent w ++ []) = w.
Proof. destruct w. simpl. now rewrite app_nil_r. Qed.


(** ** Shutdown *)

Lemma released_app {L} (build : L -> result datagram) (cs1 cs2 : list L) :
  released build (cs1 ++ cs2) = released build cs1 ++ released build cs2.
Proof. unfold released. apply omap_app. Qed.

Lemma released_skip {L} (build : L -> result datagram) (l : L) (cs : list L) :
  is_ok (build l) = false -> released build (l :: cs) = released build cs.
Proof.
  intros Hl. unfold released. cbn [omap list_omap].
  now destruct (build l).
Qed.

(** X13.  The release loop is best effort: a registry entry whose RELEASE
    cannot be built (an address [inet_aton] rejects, a DUID too long for
    its length field) is skipped, and the entries before and after it are
    still released, in order; [handle_exit] then ends with [sys.exit(0)]
    as usual. *)
Theorem handle_exit_best_effort (SL : SocketLib) :
  (forall (w : world V4.lease) (cs1 cs2 : list V4.lease) (l : V4.lease),
     clients w = cs1 ++ l :: cs2 ->
     is_ok (V4.release_of l) = false ->
     V4.handle_exit w
     = (Raise (SystemExit 0),
        after_release w (released V4.release_of cs1
                           ++ released V4.release_of cs2)))
  /\ (forall (w : world V6.lease) (cs1 cs2 : list V6.lease) (l : V6.lease),
        clients w = cs1 ++ l :: cs2 ->
        is_ok (V6.release_of l) = false ->
        V6.handle_exit w
        = (Raise (SystemExit 0),
           after_release w (released V6.release_of cs1
                              ++ released V6.release_of cs2))).
Proof.
  split; intros w cs1 cs2 l Hcs Hl.
  - now rewrite v4_handle_exit_spec, Hcs, released_app, released_skip.
  - now rewrite v6_handle_exit_spec, Hcs, released_app, released_skip.
Qed.

Lemma handle_exit_best_effort_witness :
  exists d,
    V4.release_of (SL := Samples.socket_lib) Samples.v4_lease = Ok d
    /\ V4.handle_exit (SL := Samples.socket_lib)
         (World [Samples.v4_lease;
                 V4.Lease Samples.mac 9 "no address" "10.0.0.1";
                 Samples.v4_lease] 2 1 false [])
       = (Raise (SystemExit 0),
          World [Samples.v4_lease;
                 V4.Lease Samples.mac 9 "no address" "10.0.0.1";
                 Samples.v4_lease] 2 1 true [d; d]).
Proof.
  eexists. split; [vm_compute; reflexivity|].
  refine (eq_trans
            (proj1 (handle_exit_best_effort Samples.socket_lib)
               (World [Samples.v4_lease;
                       V4.Lease Samples.mac 9 "no address" "10.0.0.1";
                       Samples.v4_lease] 2 1 false [])
               [Samples.v4_lease] [Samples.v4_lease]
               (V4.Lease Samples.mac 9 "no address" "10.0.0.1")
               eq_refl eq_refl) _).
  vm_compute. reflexivity.
Defined.

(** X14.  A whole DHCPv4 run as root, with a successful probe, no signal
    and no transaction that raises: after the hold it sends one RELEASE for
    every lease it recorded (those whose message can be built), in the
    order they were recorded, changes nothing else, and ends with exit
    status 0; at that point [success + failed] is the number of clients
    and [len(clients)] is [success]. *)
Theorem v4_completed_run (SL : SocketLib) (e : V4.env) (fuel : nat)
    (w : world V4.lease) :
  V4.euid e = 0 -> V4.signal e = SigNever ->
  wait_ready fuel (V4.elapsed e) (V4.check e) SigNever 0 = Ready ->
  V4.run_clients (V4.population e) initial_world = (Ok (), w) ->
  V4.main fuel e
  = Some (Raise (SystemExit 0),
          after_release w (released V4.release_of (clients w)))
  /\ exit_status (Raise (SystemExit 0)) = 0
  /\ stats_success w + stats_failed w = N.of_nat (length (V4.population e))
  /\ N.of_nat (length (clients w)) = stats_success w.
Proof.
  intros Heuid Hsig Hready Hrun.
  pose proof (v4_run_clients_counts _ _ _ _ Hrun) as (Hsum & Hreg & Hstop).
  cbn in Hsum, Hreg, Hstop.
  split; [|split; [reflexivity | lia]].
  unfold V4.main. rewrite Heuid, Hsig, Hready. cbn [N.eqb negb].
  unfold V4.after_ready. rewrite Hsig.
  unfold mbind at 1, proc_bind at 1. rewrite Hrun.
  unfold V4.hold_and_release, mbind at 1, proc_bind at 1, get_world.
  rewrite Hstop. cbn [negb]. now rewrite v4_handle_exit_spec.
Qed.

Lemma v4_completed_run_witness :
  exists d1 d2 r,
    V4.main (SL := Samples.socket_lib) 7
      (Samples.v4_env Samples.ready_at_second_try)
    = Some (Raise (SystemExit 0),
            World [Samples.v4_lease] 1 0 true [d1; d2; r]).
Proof.
  assert (Hrun : exists d1 d2,
            V4.run_clients (SL := Samples.socket_lib)
              (V4.population (Samples.v4_env Samples.ready_at_second_try))
              initial_world
            = (Ok (), World [Samples.v4_lease] 1 0 false [d1; d2])).
  { eexists. eexists. vm_compute. reflexivity. }
  destruct Hrun as (d1 & d2 & Hrun). exists d1, d2.
  assert (Hready : wait_ready 7 Samples.slow_clock Samples.ready_at_second_try
                     SigNever 0 = Ready).
  { apply wait_ready_some;
      [exact slow_clock_sleeps | exact ready_at_second_try_succeeds | lia]. }
  eexists.
  refine (eq_trans
            (proj1 (v4_completed_run Samples.socket_lib
                      (Samples.v4_env Samples.ready_at_second_try) 7
                      (World [Samples.v4_lease] 1 0 false [d1; d2])
                      eq_refl eq_refl Hready Hrun)) _).
  vm_compute. reflexivity.
Defined.

(** ** The DHCPv6 receive path *)

Lemma wait_for_dhcpv6_response_ok (sock : sock_queue) (tid : bytes) (ty : N) :
  exists r rest, V6.wait_for_dhcpv6_response sock tid ty = (Ok r, rest).
Proof.
  induction sock as [|[[data addr]|] sock IH];
    cbn [V6.wait_for_dhcpv6_response]; eauto.
  destruct (decide _) as [|Hlen]; [exact IH|].
  unfold getitem. destruct (data !! 0%nat) eqn:H0.
  2:{ apply lookup_ge_None in H0. lia. }
  destruct (_ || _); [exact IH|].
  destruct (parse_dhcpv6_options_ok data 4) as [m ->]. eauto.
Qed.

(** X15.  Nothing a DHCPv6 socket delivers makes the receive path raise:
    [parse_dhcpv6_options] returns a dict for every byte string and every
    offset, and [wait_for_dhcpv6_response] returns a matching message or
    [None] for every queue of datagrams (short, truncated or of another
    transaction). *)
Theorem v6_receive_never_raises :
  (forall (data : bytes) (offset : nat),
     exists options, V6.parse_dhcpv6_options data offset = Ok options)
  /\ (forall (sock : sock_queue) (tid : bytes) (ty : N),
        exists r rest,
          V6.wait_for_dhcpv6_response sock tid ty = (Ok r, rest)).
Proof.
  split.
  - apply parse_dhcpv6_options_ok.
  - apply wait_for_dhcpv6_response_ok.
Qed.

(** ** Well-formed DHCPv6 option streams *)

Lemma be_bytes_2 (v : N) :
  be_bytes 2 v
  = [byte_of_N ((v / 256 ^ 1) mod 256); byte_of_N ((v / 256 ^ 0) mod 256)].
Proof. reflexivity. Qed.

Lemma parse_loop_v6_option (o : N * bytes) (rest : bytes)
    (m : gmap N bytes) :
  v6_option_ok o ->
  V6.parse_loop (v6_option_bytes o ++ rest) 0 m
  = V6.parse_loop rest 0 (<[fst o := snd o]> m).
Proof.
  destruct o as [code value]. unfold v6_option_ok, v6_option_bytes.
  cbn [fst snd]. intros [Hcode Hlen].
  pose proof (be_value_be_bytes 2 code Hcode) as Hc.
  pose proof (be_value_be_bytes 2 _ Hlen) as Hl.
  rewrite !be_bytes_2 in *.
  rewrite <- !app_assoc. cbn [app].
  change (?a :: ?b :: ?c :: ?d :: value ++ rest)
    with ([a; b; c; d] ++ value ++ rest).
  rewrite parse_loop_option by exact Hl. now rewrite Hc.
Qed.

Lemma parse_loop_truncated (tail : bytes) (m : gmap N bytes) :
  tail = [] \/ truncated_tail tail -> V6.parse_loop tail 0 m = Ok m.
Proof.
  intros Htail. rewrite parse_loop_unfold.
  destruct (decide _) as [Hlt|]; [|reflexivity].
  unfold V6.parse_step.
  destruct Htail as [->|[Hshort|(c0 & c1 & l0 & l1 & body & -> & Hbody)]].
  - simpl in Hlt. lia.
  - destruct (decide _) as [|Hge]; [reflexivity | simpl in Hge; lia].
  - destruct (decide _) as [Hlt4|_]; [simpl in Hlt4; lia|].
    change (slice 0 (0 + 2) ([c0; c1; l0; l1] ++ body)) with [c0; c1].
    change (slice (0 + 2) (0 + 4) ([c0; c1; l0; l1] ++ body)) with [l0; l1].
    change (unpack_int H [c0; c1]) with (Ok (be_value [c0; c1])).
    change (unpack_int H [l0; l1]) with (Ok (be_value [l0; l1])).
    cbn iota.
    destruct (decide _) as [|Hfit]; [reflexivity|].
    exfalso. apply Hfit. simpl. lia.
Qed.

Lemma parse_loop_stream (os : list (N * bytes)) (tail : bytes)
    (m : gmap N bytes) :
  Forall v6_option_ok os ->
  tail = [] \/ truncated_tail tail ->
  V6.parse_loop (v6_options_bytes os ++ tail) 0 m
  = Ok (fold_left (fun m o => <[fst o := snd o]> m) os m).
Proof.
  intros Hos Htail. revert m.
  induction Hos as [|o os Ho _ IH]; intros m.
  - cbn. now apply parse_loop_truncated.
  - unfold v6_options_bytes. cbn [fmap list_fmap concat fold_left].
    rewrite <- app_assoc, parse_loop_v6_option by exact Ho. apply IH.
Qed.

(** X16.  On a message whose option area is a sequence of complete
    options, possibly followed by a truncated one (fewer than four bytes
    left, or a header declaring more bytes than remain),
    [parse_dhcpv6_options] returns the dict of all the complete options:
    each code mapped to its value, the last value winning when a code is
    repeated; the truncated rest is dropped without losing what came
    before. *)
Theorem parse_dhcpv6_options_stream (pre tail : bytes)
    (os : list (N * bytes)) :
  Forall v6_option_ok os ->
  tail = [] \/ truncated_tail tail ->
  V6.parse_dhcpv6_options (pre ++ v6_options_bytes os ++ tail) (length pre)
  = Ok (options_dict os).
Proof.
  intros Hos Htail. unfold V6.parse_dhcpv6_options, options_dict.
  replace (length pre) with (length pre + 0)%nat by lia.
  rewrite parse_loop_shift. now apply parse_loop_stream.
Qed.

Lemma parse_dhcpv6_options_stream_witness :
  exists options,
    V6.parse_dhcpv6_options
      ([x02; xab; xcd; xef]
         ++ v6_options_bytes [(2, [x0a]); (8, [x00; x00]); (2, Samples.server_duid)]
         ++ [x00; x19; x00; x29; x00])
      4
    = Ok options
    /\ options !! 2 = Some Samples.server_duid
    /\ options !! 8 = Some [x00; x00]
    /\ options !! 25 = None.
Proof.
  eexists. split.
  - apply (parse_dhcpv6_options_stream [x02; xab; xcd; xef]
             [x00; x19; x00; x29; x00]
             [(2, [x0a]); (8, [x00; x00]); (2, Samples.server_duid)]).
    + repeat constructor; cbn; lia.
    + right. right. exists x00, x19, x00, x29, [x00].
      split; [reflexivity | vm_compute; reflexivity].
  - repeat split; vm_compute; reflexivity.
Defined.

(** ** The delegated prefix in an IA_PD value *)

Lemma extract_loop_unfold (SL : SocketLib) (ia : bytes) (offset : nat) :
  V6.extract_loop ia offset
  = if decide (offset < length ia)%nat then
      match V6.extract_step ia offset with
      | V6.EBreak => Ok None
      | V6.ERaise e => Raise e
      | V6.EReturn r => Ok r
      | V6.ENext len => V6.extract_loop ia (offset + (4 + N.to_nat len))
      end
    else Ok None.
Proof.
  rewrite V6.extract_loop_equation_1 at 1.
  unfold V6.extract_loop_unfold_clause_1.
  destruct (decide _); [|reflexivity].
  now destruct (V6.extract_step ia offset).
Qed.

Lemma extract_step_shift (SL : SocketLib) (pre d : bytes) (offset : nat) :
  V6.extract_step (pre ++ d) (length pre + offset) = V6.extract_step d offset.
Proof.
  unfold V6.extract_step. rewrite length_app.
  replace (length pre + offset + 2)%nat with (length pre + (offset + 2))%nat
    by lia.
  replace (length pre + offset + 4)%nat with (length pre + (offset + 4))%nat
    by lia.
  rewrite !slice_app_shift.
  destruct (decide _), (decide (length d < _)%nat); try lia; try reflexivity.
  destruct (unpack_int H _); [|reflexivity].
  destruct (unpack_int H _) as [len|]; [|reflexivity].
  destruct (decide _), (decide (length d < _)%nat); try lia; try reflexivity.
  replace (length pre + (offset + 4) + 8)%nat
    with (length pre + (offset + 4 + 8))%nat by lia.
  replace (length pre + (offset + 4) + 9)%nat
    with (length pre + (offset + 4 + 9))%nat by lia.
  replace (length pre + (offset + 4 + 9) + 16)%nat
    with (length pre + (offset + 4 + 9 + 16))%nat by lia.
  now rewrite getitem_app_shift, slice_app_shift.
Qed.

Lemma extract_loop_shift (SL : SocketLib) (pre d : bytes) (offset : nat) :
  V6.extract_loop (pre ++ d) (length pre + offset) = V6.extract_loop d offset.
Proof.
  remember (length d - offset)%nat as n eqn:Hn. revert offset Hn.
  induction n as [n IH] using lt_wf_ind. intros offset ->.
  rewrite (extract_loop_unfold _ (pre ++ d)), (extract_loop_unfold _ d).
  rewrite extract_step_shift, length_app.
  destruct (decide _), (decide (offset < _)%nat); try lia; try reflexivity.
  destruct (V6.extract_step d offset) as [| | |len]; try reflexivity.
  rewrite <- Nat.add_assoc. eapply IH; [|reflexivity]. lia.
Qed.

Lemma extract_step_header (SL : SocketLib) (o : N * bytes) (rest : bytes) :
  v6_option_ok o ->
  exists c0 c1 l0 l1,
    v6_option_bytes o ++ rest = [c0; c1; l0; l1] ++ snd o ++ rest
    /\ be_value [c0; c1] = fst o
    /\ be_value [l0; l1] = N.of_nat (length (snd o)).
Proof.
  destruct o as [code value]. unfold v6_option_ok, v6_option_bytes.
  cbn [fst snd]. intros [Hcode Hlen].
  pose proof (be_value_be_bytes 2 code Hcode) as Hc.
  pose proof (be_value_be_bytes 2 _ Hlen) as Hl.
  rewrite !be_bytes_2 in *. do 4 eexists.
  split; [|split; [exact Hc | exact Hl]].
  now rewrite <- !app_assoc.
Qed.

Lemma extract_step_at_option (SL : SocketLib) (c0 c1 l0 l1 : byte)
    (value rest : bytes) :
  be_value [l0; l1] = N.of_nat (length value) ->
  V6.extract_step ([c0; c1; l0; l1] ++ value ++ rest) 0
  = if (be_value [c0; c1] =? 26) && (25 <=? N.of_nat (length value)) then
      match getitem value 8 with
      | Raise e => V6.ERaise e
      | Ok prefix_len =>
          match inet_ntop6 (slice 9 25 (value ++ rest)) with
          | Some prefix_str =>
              V6.EReturn (Some (prefix_str +:+ "/" +:+ pretty prefix_len))
          | None => V6.EReturn None
          end
      end
    else V6.ENext (N.of_nat (length value)).
Proof.
  intros Hl. unfold V6.extract_step.
  destruct (decide _) as [Hlt|_]; [simpl in Hlt; lia|].
  change (slice 0 (0 + 2) ([c0; c1; l0; l1] ++ value ++ rest)) with [c0; c1].
  change (slice (0 + 2) (0 + 4) ([c0; c1; l0; l1] ++ value ++ rest))
    with [l0; l1].
  change (unpack_int H [c0; c1]) with (Ok (be_value [c0; c1])).
  change (unpack_int H [l0; l1]) with (Ok (be_value [l0; l1])).
  cbn iota. rewrite Hl, Nat2N.id.
  destruct (decide _) as [Hlt|_].
  { simpl in Hlt. rewrite length_app in Hlt. lia. }
  destruct (_ && _) eqn:Hc; [|reflexivity].
  apply andb_true_iff in Hc as [_ Hlen%N.leb_le].
  change (getitem ([c0; c1; l0; l1] ++ value ++ rest) (0 + 4 + 8))
    with (getitem (value ++ rest) 8).
  change (slice (0 + 4 + 9) (0 + 4 + 9 + 16) ([c0; c1; l0; l1] ++ value ++ rest))
    with (slice 9 25 (value ++ rest)).
  unfold getitem. rewrite lookup_app_l by lia. reflexivity.
Qed.

Lemma extract_loop_skip (SL : SocketLib) (o : N * bytes) (rest : bytes) :
  v6_option_ok o ->
  (fst o =? 26) && (25 <=? N.of_nat (length (snd o))) = false ->
  V6.extract_loop (v6_option_bytes o ++ rest) 0 = V6.extract_loop rest 0.
Proof.
  intros Ho Hskip.
  destruct (extract_step_header SL o rest Ho)
    as (c0 & c1 & l0 & l1 & -> & Hc & Hl).
  rewrite extract_loop_unfold.
  destruct (decide _) as [_|Hge]; [|simpl in Hge; lia].
  rewrite extract_step_at_option by exact Hl. rewrite Hc, Hskip.
  rewrite Nat2N.id.
  replace (0 + (4 + length (snd o)))%nat
    with (length ([c0; c1; l0; l1] ++ snd o) + 0)%nat
    by (rewrite length_app; simpl; lia).
  rewrite (app_assoc [c0; c1; l0; l1]). apply extract_loop_shift.
Qed.

Lemma extract_loop_ia_prefix (SL : SocketLib) (lifetimes prefix extra : bytes)
    (plen : byte) (rest : bytes) :
  length lifetimes = 8%nat -> length prefix = 16%nat ->
  N.of_nat (25 + length extra) < 65536 ->
  V6.extract_loop
    (v6_option_bytes (26, lifetimes ++ [plen] ++ prefix ++ extra) ++ rest) 0
  = Ok (match inet_ntop6 prefix with
        | Some prefix_str =>
            Some (prefix_str +:+ "/" +:+ pretty (Byte.to_N plen))
        | None => None
        end).
Proof.
  intros Hlt Hp Hlen.
  assert (Hvlen : length (lifetimes ++ [plen] ++ prefix ++ extra)
                  = (25 + length extra)%nat).
  { rewrite !length_app. simpl. lia. }
  assert (Ho : v6_option_ok (26, lifetimes ++ [plen] ++ prefix ++ extra)).
  { split; cbn [fst snd]; [lia | now rewrite Hvlen]. }
  destruct (extract_step_header SL _ rest Ho)
    as (c0 & c1 & l0 & l1 & -> & Hc & Hl).
  cbn [fst snd] in *.
  rewrite extract_loop_unfold.
  destruct (decide _) as [_|Hge]; [|simpl in Hge; lia].
  rewrite extract_step_at_option by exact Hl. rewrite Hc, Hvlen.
  replace (25 <=? N.of_nat (25 + length extra)) with true
    by (symmetry; apply N.leb_le; lia).
  cbn [N.eqb Pos.eqb andb].
  explode lifetimes Hlt. explode prefix Hp.
  cbn [app getitem lookup list_lookup].
  change (slice 9 25 _) with [b7; b8; b9; b10; b11; b12; b13; b14; b15; b16;
                              b17; b18; b19; b20; b21; b22].
  now destruct (inet_ntop6 _).
Qed.

(** X17.  [extract_prefix_from_ia_pd] never raises; on a value shorter
    than 16 bytes it returns [None]; and on a value made of the 12-byte
    header, any complete sub-options that are not an IA_Prefix of at least
    25 bytes, and then such an IA_Prefix (8 bytes of lifetimes, the prefix
    length, the 16-byte prefix, possibly more), it returns the text of that
    prefix, a slash and the prefix length in decimal, or [None] if
    [inet_ntop] rejects the bytes.  What follows that sub-option is not
    looked at. *)
Theorem extract_prefix_from_ia_pd_spec (SL : SocketLib) :
  (forall ia, exists r, V6.extract_prefix_from_ia_pd ia = Ok r)
  /\ (forall ia, (length ia < 16)%nat ->
        V6.extract_prefix_from_ia_pd ia = Ok None)
  /\ (forall (header lifetimes prefix extra rest : bytes) (plen : byte)
             (subs : list (N * bytes)),
        length header = 12%nat ->
        Forall (fun o =>
                  v6_option_ok o
                  /\ (fst o =? 26) && (25 <=? N.of_nat (length (snd o)))
                     = false) subs ->
        length lifetimes = 8%nat -> length prefix = 16%nat ->
        N.of_nat (25 + length extra) < 65536 ->
        V6.extract_prefix_from_ia_pd
          (header ++ v6_options_bytes subs
             ++ v6_option_bytes (26, lifetimes ++ [plen] ++ prefix ++ extra)
             ++ rest)
        = Ok (match inet_ntop6 prefix with
              | Some prefix_str =>
                  Some (prefix_str +:+ "/" +:+ pretty (Byte.to_N plen))
              | None => None
              end)).
Proof.
  split; [apply extract_prefix_from_ia_pd_ok|]. split.
  - intros ia Hlen. unfold V6.extract_prefix_from_ia_pd.
    now destruct (decide _).
  - intros header lifetimes prefix extra rest plen subs Hh Hsubs Hlt Hp Hlen.
    unfold V6.extract_prefix_from_ia_pd.
    destruct (decide _) as [Hshort|_].
    { rewrite !length_app in Hshort. unfold v6_option_bytes in Hshort.
      rewrite !length_app, !length_be_bytes in Hshort. lia. }
    replace 12%nat with (length header + 0)%nat by lia.
    rewrite extract_loop_shift. clear Hh header.
    induction Hsubs as [|o subs [Ho Hskip] _ IH].
    + cbn [v6_options_bytes fmap list_fmap concat app].
      now apply extract_loop_ia_prefix.
    + unfold v6_options_bytes. cbn [fmap list_fmap concat].
      rewrite <- app_assoc, extract_loop_skip by assumption. exact IH.
Qed.

Lemma extract_prefix_from_ia_pd_spec_witness :
  V6.extract_prefix_from_ia_pd (SL := Samples.socket_lib)
    (replicate 12 x00
       ++ v6_options_bytes [(13, [x00; x00]); (26, [x01])]
       ++ v6_option_bytes
            (26, replicate 8 x00 ++ [x40] ++ Samples.ula ++ [])
       ++ [xff])
  = Ok (Some "fd00:1234:5678::/64"%string).
Proof.
  refine (eq_trans
            (proj2 (proj2 (extract_prefix_from_ia_pd_spec Samples.socket_lib))
               (replicate 12 x00) (replicate 8 x00) Samples.ula [] [xff] x40
               [(13, [x00; x00]); (26, [x01])] eq_refl _ eq_refl eq_refl
               eq_refl) _).
  - repeat constructor; cbn; lia.
  - vm_compute. reflexivity.
Defined.

(** ** Messages built by [create_dhcpv6_msg] *)

(** X18.  What [create_dhcpv6_msg] ignores: for every message type other
    than 1 and 3 a prefix hint (and the random association id) makes no
    difference, the message is the one built without hint; an empty hint
    counts as no hint for every message type; and an empty server DUID
    counts as no server DUID. *)
Theorem create_dhcpv6_msg_ignores (SL : SocketLib) (ia_id ia_id' msg_type : N)
    (tid duid : bytes) (h : option V6.hint) (sd : option bytes) :
  (msg_type <> 1 -> msg_type <> 3 ->
   V6.create_dhcpv6_msg ia_id msg_type tid duid h sd
   = V6.create_dhcpv6_msg ia_id' msg_type tid duid None sd)
  /\ V6.create_dhcpv6_msg ia_id msg_type tid duid (Some (V6.HintStr "")) sd
     = V6.create_dhcpv6_msg ia_id' msg_type tid duid None sd
  /\ V6.create_dhcpv6_msg ia_id msg_type tid duid (Some (V6.HintBytes [])) sd
     = V6.create_dhcpv6_msg ia_id' msg_type tid duid None sd
  /\ V6.create_dhcpv6_msg ia_id msg_type tid duid h (Some [])
     = V6.create_dhcpv6_msg ia_id msg_type tid duid h None.
Proof.
  split; [|split; [|split]]; try reflexivity.
  intros H1 H3. unfold V6.create_dhcpv6_msg.
  destruct (N.eqb_spec msg_type 1) as [|_]; [contradiction|].
  destruct (N.eqb_spec msg_type 3) as [|_]; [contradiction|].
  cbn [orb]. rewrite andb_false_r. reflexivity.
Qed.

Lemma create_dhcpv6_msg_ignores_witness :
  V6.create_dhcpv6_msg (SL := Samples.socket_lib) 7 8 Samples.tid Samples.duid
    (Some (V6.HintStr "fd00:1234:5678::")) (Some Samples.server_duid)
  = V6.create_dhcpv6_msg (SL := Samples.socket_lib) 0 8 Samples.tid
      Samples.duid None (Some Samples.server_duid).
Proof.
  apply (proj1 (create_dhcpv6_msg_ignores Samples.socket_lib 7 0 8 Samples.tid
                  Samples.duid (Some (V6.HintStr "fd00:1234:5678::"))
                  (Some Samples.server_duid))); discriminate.
Defined.

Lemma struct_pack_HH (a b : N) :
  a < 65536 -> b < 65536 ->
  struct_pack [Int H a; Int H b] = Ok (be_bytes 2 a ++ be_bytes 2 b).
Proof.
  intros Ha Hb. cbn [struct_pack pack_field].
  rewrite (pack_int_ok H a), (pack_int_ok H b) by assumption.
  cbn [mbind result_bind fmt_size]. now rewrite app_nil_r.
Qed.

(** The options of a message built without prefix hint. *)
Lemma create_dhcpv6_msg_plain (SL : SocketLib) (ia_id msg_type : N)
    (tid duid : bytes) (sd : option bytes) :
  msg_type < 256 ->
  N.of_nat (length duid) < 65536 ->
  N.of_nat (length (default [] sd)) < 65536 ->
  V6.create_dhcpv6_msg ia_id msg_type tid duid None sd
  = Ok ((byte_of_N msg_type :: tid)
          ++ v6_options_bytes
               ((1, duid)
                  :: (if truthy (default [] sd) then [(2, default [] sd)]
                      else [])
                  ++ [(8, [x00; x00]); (6, [x00; x17; x00; x18])])).
Proof.
  intros Hmt Hduid Hsd. unfold V6.create_dhcpv6_msg.
  unfold bytes_of_int. destruct (N.ltb_spec msg_type 256) as [_|]; [|lia].
  cbn [mbind result_bind V6.hint_truthy andb].
  rewrite struct_pack_HH by (try exact Hduid; lia).
  change (struct_pack [Int H 8; Int H 2; Int H 0])
    with (Ok [x00; x08; x00; x02; x00; x00] : result bytes).
  change (struct_pack [Int H 6; Int H 4; Int H 23])
    with (Ok [x00; x06; x00; x04; x00; x17] : result bytes).
  change (struct_pack [Int H 24]) with (Ok [x00; x18] : result bytes).
  unfold v6_options_bytes, v6_option_bytes.
  destruct sd as [s|]; cbn [default from_option id] in *.
  - destruct (truthy s).
    + rewrite struct_pack_HH by (try exact Hsd; lia).
      cbn [mbind result_bind fmap list_fmap concat fst snd app].
      f_equal. rewrite <- !app_assoc.
      generalize (be_bytes 2 (N.of_nat (length duid))).
      generalize (be_bytes 2 (N.of_nat (length s))).
      intros ls ld. vm_compute. reflexivity.
    + cbn [mbind result_bind fmap list_fmap concat fst snd app].
      f_equal. rewrite <- !app_assoc.
      generalize (be_bytes 2 (N.of_nat (length duid))).
      intros ld. vm_compute. reflexivity.
  - cbn [mbind result_bind fmap list_fmap concat fst snd app truthy].
    f_equal. rewrite <- !app_assoc.
    generalize (be_bytes 2 (N.of_nat (length duid))).
    intros ld. vm_compute. reflexivity.
Qed.

Lemma wait_for_dhcpv6_response_some (sock : sock_queue) (tid : bytes)
    (ty : N) (data : bytes) (a : addr) (options : gmap N bytes)
    (rest : sock_queue) :
  V6.wait_for_dhcpv6_response sock tid ty
  = (Ok (Some (data, a, options)), rest) ->
  truthy data = true
  /\ getitem data 0 = Ok ty
  /\ slice 1 4 data = tid
  /\ V6.parse_dhcpv6_options data 4 = Ok options.
Proof.
  induction sock as [|[[d ad]|] sock IH];
    cbn [V6.wait_for_dhcpv6_response]; try discriminate.
  destruct (decide _) as [|Hlen]; [exact IH|].
  destruct (getitem d 0) as [mt|e] eqn:H0; [|discriminate].
  destruct (bool_decide _ || _) eqn:Hskip; [exact IH|].
  apply orb_false_elim in Hskip as [Htid Hty].
  apply bool_decide_eq_false in Htid. apply dec_stable in Htid.
  apply negb_false_iff, N.eqb_eq in Hty. subst mt.
  destruct (V6.parse_dhcpv6_options d 4) as [o|e] eqn:Hp; [|discriminate].
  intros [= -> -> -> ->]. repeat split; auto.
  destruct data; [cbn in Hlen; lia | reflexivity].
Qed.

Lemma built_message_accepted (msg_type : N) (tid : bytes)
    (os : list (N * bytes)) (a : addr) :
  msg_type < 256 ->
  length tid = 3%nat ->
  Forall v6_option_ok os ->
  V6.wait_for_dhcpv6_response
    [Some ((byte_of_N msg_type :: tid) ++ v6_options_bytes os, a)] tid msg_type
  = (Ok (Some ((byte_of_N msg_type :: tid) ++ v6_options_bytes os, a,
               options_dict os)), []).
Proof.
  intros Hmt Htid Hos.
  pose proof (parse_loop_stream os [] ∅ Hos (or_introl eq_refl)) as Hparse.
  rewrite app_nil_r in Hparse.
  destruct tid as [|t0 [|t1 [|t2 [|]]]]; try discriminate.
  cbn [V6.wait_for_dhcpv6_response app].
  destruct (decide _) as [Hlen|_]; [cbn in Hlen; lia|].
  cbn [getitem lookup list_lookup].
  rewrite byte_of_N_to_N by exact Hmt.
  change (slice 1 4 (byte_of_N msg_type :: t0 :: t1 :: t2 :: ?x))
    with (take 3 [t0; t1; t2] ++ take 0 x).
  rewrite bool_decide_eq_false_2 by (intros Hne; now apply Hne).
  rewrite N.eqb_refl. cbn [orb negb].
  unfold V6.parse_dhcpv6_options, options_dict.
  change (V6.parse_loop ?d 4 ∅)
    with (V6.parse_loop d (length [byte_of_N msg_type; t0; t1; t2] + 0) ∅).
  change (byte_of_N msg_type :: t0 :: t1 :: t2 :: v6_options_bytes os)
    with ([byte_of_N msg_type; t0; t1; t2] ++ v6_options_bytes os).
  rewrite parse_loop_shift, Hparse. reflexivity.
Qed.

(** X19.  A message built without prefix hint is read back by the client's
    own receive path.  For a message type below 256, a three-byte
    transaction id and identifiers shorter than 65536 bytes,
    [create_dhcpv6_msg] returns the type byte, the transaction id and the
    options 1 (client identifier), 2 (server identifier, only when one is
    given and non-empty), 8 (elapsed time, zero) and 6 (option request: 23
    and 24), each with its length; [wait_for_dhcpv6_response] for the same
    transaction id and type accepts that datagram and hands back exactly
    these options. *)
Theorem hintless_message_round_trip (SL : SocketLib)
    (ia_id msg_type : N) (tid duid : bytes) (sd : option bytes) (a : addr) :
  msg_type < 256 ->
  length tid = 3%nat ->
  N.of_nat (length duid) < 65536 ->
  N.of_nat (length (default [] sd)) < 65536 ->
  let os := (1, duid)
              :: (if truthy (default [] sd) then [(2, default [] sd)] else [])
              ++ [(8, [x00; x00]); (6, [x00; x17; x00; x18])] in
  exists msg,
    V6.create_dhcpv6_msg ia_id msg_type tid duid None sd = Ok msg
    /\ msg = (byte_of_N msg_type :: tid) ++ v6_options_bytes os
    /\ V6.wait_for_dhcpv6_response [Some (msg, a)] tid msg_type
       = (Ok (Some (msg, a, options_dict os)), []).
Proof.
  intros Hmt Htid Hduid Hsd os.
  eexists. split; [now apply create_dhcpv6_msg_plain|]. split; [reflexivity|].
  apply built_message_accepted; [exact Hmt | exact Htid |].
  subst os. constructor; [split; [reflexivity | exact Hduid]|].
  apply Forall_app. split.
  - destruct (truthy _); constructor; [|constructor].
    split; [reflexivity | exact Hsd].
  - repeat constructor.
Qed.

Lemma hintless_message_round_trip_witness :
  exists msg,
    V6.create_dhcpv6_msg (SL := Samples.socket_lib) 7 1 Samples.tid
      Samples.duid None None = Ok msg
    /\ V6.wait_for_dhcpv6_response [Some (msg, Samples.server6)] Samples.tid 1
       = (Ok (Some (msg, Samples.server6,
                    options_dict [(1, Samples.duid); (8, [x00; x00]);
                                  (6, [x00; x17; x00; x18])])), []).
Proof.
  destruct (hintless_message_round_trip Samples.socket_lib 7 1 Samples.tid
              Samples.duid None Samples.server6)
    as (msg & Hc & _ & Hw);
    [reflexivity | reflexivity | reflexivity | reflexivity |].
  exists msg. split; [exact Hc | exact Hw].
Defined.


(** ** A DHCPv4 run in which a transaction raises *)

Lemma dhcp_client_logic_exception (SL : SocketLib) (mac : bytes) (xid : N)
    (sock : sock_queue) (w w' : world V4.lease) (e : exn) :
  V4.dhcp_client_logic mac xid sock w = (Raise e, w') -> is_exception e.
Proof.
  unfold V4.dhcp_client_logic, V4.send_dhcp.
  unfold mbind, proc_bind, lift, sendto, incr_failed, incr_success,
    clients_append.
  simpl.
  repeat proc_step; intros Heq; inversion Heq; subst;
    first [ eapply dhcp_packet_exception; eassumption
          | eapply wait_for_msg_exception; eassumption
          | match goal with
            | H : lift_os _ = Raise _ |- _ =>
                apply lift_os_raise in H; subst; exact Logic.I
            end ].
Qed.

Lemma dhcp_client_logic_broadcasts (SL : SocketLib) (mac : bytes) (xid : N)
    (sock : sock_queue) (w : world V4.lease) :
  let w' := snd (V4.dhcp_client_logic mac xid sock w) in
  stop_requested w' = stop_requested w
  /\ exists ds, sent w' = sent w ++ ds
                /\ all_sent_to ("255.255.255.255"%string, 67) ds.
Proof.
  unfold V4.dhcp_client_logic, V4.send_dhcp, all_sent_to.
  unfold mbind, proc_bind, lift, sendto, incr_failed, incr_success,
    clients_append.
  cbn zeta.
  repeat proc_step;
    (split; [reflexivity|];
     eexists; split; [rewrite <- ?app_assoc; try reflexivity;
                      symmetry; apply app_nil_r|];
     repeat constructor; eapply dhcp_packet_dest; eassumption).
Qed.

Lemma run_clients_broadcasts (SL : SocketLib)
    (population : list V4.client_input) (w : world V4.lease) :
  let w' := snd (V4.run_clients population w) in
  stop_requested w' = stop_requested w
  /\ exists ds, sent w' = sent w ++ ds
                /\ all_sent_to ("255.255.255.255"%string, 67) ds.
Proof.
  unfold V4.run_clients. revert w.
  induction population as [|[[mac xid] sock] population IH]; intros w.
  - split; [reflexivity|]. exists []. split; [now rewrite app_nil_r|].
    constructor.
  - cbn [fmap list_fmap gather V4.client_task].
    pose proof (dhcp_client_logic_broadcasts SL mac xid sock w)
      as (Hstop & ds & Hsent & Hds).
    destruct (V4.dhcp_client_logic mac xid sock w) as [[[]|e] w1];
      cbn [snd] in *;
      destruct (IH w1) as (Hstop' & ds' & Hsent' & Hds');
      (split; [congruence|]; exists (ds ++ ds');
       split; [rewrite Hsent', Hsent; now rewrite app_assoc
              | now apply Forall_app]).
Qed.

Lemma run_clients_exception (SL : SocketLib)
    (population : list V4.client_input) (w w' : world V4.lease) (e : exn) :
  V4.run_clients population w = (Raise e, w') -> is_exception e.
Proof.
  unfold V4.run_clients. revert w.
  induction population as [|[[mac xid] sock] population IH]; intros w.
  - discriminate.
  - cbn [fmap list_fmap gather V4.client_task].
    destruct (V4.dhcp_client_logic mac xid sock w) as [[[]|e1] w1] eqn:Ht.
    + apply IH.
    + intros [= <- _]. eapply dhcp_client_logic_exception; eauto.
Qed.

(** X21.  The part of a DHCPv4 run that follows the readiness gate,
    started from any globals [w0] (what the probes sent is already in its
    traffic), when no signal arrives and some transaction raises (a
    truncated datagram is enough): it ends with that exception, since
    [asyncio.gather] re-raises it and [__main__] only catches
    [KeyboardInterrupt], so the exit status is 1 and [handle_exit] is never
    reached.  [stop_requested] is as it was, and every datagram added to
    the traffic is addressed to 255.255.255.255:67, as the DISCOVERs and
    REQUESTs of the transactions are: no RELEASE follows for the leases
    the other clients recorded in [clients]. *)
Theorem v4_raising_run_releases_nothing (SL : SocketLib) (e : V4.env)
    (ex : exn) (w0 w : world V4.lease) :
  V4.signal e = SigNever ->
  V4.run_clients (V4.population e) w0 = (Raise ex, w) ->
  V4.after_ready e w0 = (Raise ex, w)
  /\ exit_status (Raise ex) = 1
  /\ stop_requested w = stop_requested w0
  /\ exists ds,
       sent w = sent w0 ++ ds
       /\ all_sent_to ("255.255.255.255"%string, 67) ds.
Proof.
  intros Hsig Hrun.
  pose proof (run_clients_broadcasts SL (V4.population e) w0)
    as (Hstop & ds & Hsent & Hds).
  rewrite Hrun in Hstop, Hsent. cbn [snd] in Hstop, Hsent.
  split; [|split; [|split]].
  - unfold V4.after_ready. rewrite Hsig.
    unfold mbind at 1, proc_bind at 1. now rewrite Hrun.
  - apply exit_status_exception. eapply run_clients_exception; eauto.
  - exact Hstop.
  - exists ds. split; [exact Hsent | exact Hds].
Qed.

Lemma v4_raising_run_releases_nothing_witness :
  exists p1 p2 d1 d2 d3,
    V4.check_dhcp_server_health (SL := Samples.socket_lib) "10.0.0.1"
      Samples.mac 7 [None; Some (Samples.offer, Samples.server_addr)]
      initial_world
    = (Ok false, World [] 0 0 false [p1; p2])
    /\ snd p2 = ("10.0.0.1"%string, 67)
    /\ V4.after_ready (SL := Samples.socket_lib)
         (V4.Env 0 Samples.slow_clock Samples.ready_at_second_try
            [(Samples.mac, Samples.xid, Samples.v4_exchange);
             (Samples.mac, Samples.xid,
              [Some (Samples.truncated_offer, Samples.server_addr)])]
            SigNever)
         (World [] 0 0 false [p1; p2])
       = (Raise IndexError,
          World [Samples.v4_lease] 1 0 false [p1; p2; d1; d2; d3]).
Proof.
  assert (Hprobe : exists p1 p2,
            V4.check_dhcp_server_health (SL := Samples.socket_lib) "10.0.0.1"
              Samples.mac 7 [None; Some (Samples.offer, Samples.server_addr)]
              initial_world
            = (Ok false, World [] 0 0 false [p1; p2])
            /\ snd p2 = ("10.0.0.1"%string, 67)).
  { do 2 eexists. split; [vm_compute; reflexivity | reflexivity]. }
  destruct Hprobe as (p1 & p2 & Hprobe & Hp2). exists p1, p2.
  assert (Hrun : exists d1 d2 d3,
            V4.run_clients (SL := Samples.socket_lib)
              [(Samples.mac, Samples.xid, Samples.v4_exchange);
               (Samples.mac, Samples.xid,
                [Some (Samples.truncated_offer, Samples.server_addr)])]
              (World [] 0 0 false [p1; p2])
            = (Raise IndexError,
               World [Samples.v4_lease] 1 0 false [p1; p2; d1; d2; d3])).
  { do 3 eexists. vm_compute. reflexivity. }
  destruct Hrun as (d1 & d2 & d3 & Hrun). exists d1, d2, d3.
  split; [exact Hprobe|]. split; [exact Hp2|].
  exact (proj1 (v4_raising_run_releases_nothing Samples.socket_lib
                  (V4.Env 0 Samples.slow_clock Samples.ready_at_second_try
                     [(Samples.mac, Samples.xid, Samples.v4_exchange);
                      (Samples.mac, Samples.xid,
                       [Some (Samples.truncated_offer, Samples.server_addr)])]
                     SigNever) IndexError
                  (World [] 0 0 false [p1; p2])
                  (World [Samples.v4_lease] 1 0 false [p1; p2; d1; d2; d3])
                  eq_refl Hrun)).
Defined.
